(** * MatSelect AI: recommendation pipeline and what-if comparison

    A shallow embedding of [matselect/core/recommender.py] and of the part of
    [matselect/sources/materials_project.py] it calls.

    - Python floats are IEEE binary64 numbers: they are embedded as Rocq's
      primitive floats, so every arithmetic step rounds as the program does.
      The numeric columns of a frame are of dtype float64, where pandas
      holds a missing number ([None] beside numbers) as NaN: a null
      numeric cell is NaN.  A column in which every document has [None] is
      of dtype object and keeps the [None]s; the source raises [TypeError]
      where it compares, subtracts or formats such a cell, and frames with
      such a column are not covered here.
    - A pandas DataFrame is a list of column labels together with a list of
      rows.  A row carries one cell for every label the program ever uses;
      a cell is only read where its label is among the frame's columns,
      which is where the program can read it.
    - [MPRester.materials.summary.search] (the remote database) and numpy's
      [argsort] (the sorting routine behind [DataFrame.sort_values]) are not
      part of the repository: both are parameters of the development.  The
      runs on sample data sort with numpy's generic quicksort.
    - Exceptions and console output are explicit: effectful code runs in a
      small state-and-error monad over the console and the request log. *)

From Stdlib Require Import Floats ZArith List String Ascii Bool Lia.
From Stdlib Require Import Permutation Sorted DecimalString.
From Stdlib Require Import QArith Qpower Lqa.
Import ListNotations.

Close Scope Q_scope.
Local Open Scope string_scope.
Local Open Scope list_scope.

(** ** Python and numpy helpers on floats *)

Module PyFloat.

(** [x >= y] on floats, false as soon as one side is NaN. *)
Definition geb (x y : float) : bool := PrimFloat.leb y x.

(** [numpy.rint]: nearest integer, ties to the even one.  A float
    [m * 2^e] with [e >= 0] is an integer already; otherwise the mantissa
    is cut at the binary point and the cut-off part decides. *)
Definition rint (x : float) : float :=
  match Prim2SF x with
  | S754_finite s m e =>
      if (0 <=? e)%Z then x
      else
        let k := (- e)%Z in
        let q := Z.shiftr (Zpos m) k in
        let r := (Zpos m - Z.shiftl q k)%Z in
        let half := Z.shiftl 1 (k - 1) in
        let q' :=
          match (r ?= half)%Z with
          | Lt => q
          | Gt => (q + 1)%Z
          | Eq => if Z.even q then q else (q + 1)%Z
          end in
        SF2Prim (binary_normalize prec emax (if s then (- q')%Z else q') 0 s)
  | _ => x
  end.

(** [numpy.round(x, 1)], which pandas' [Series.round(1)] calls:
    [rint(x * 10) / 10]. *)
Definition round1 (x : float) : float :=
  (rint (x * 10) / 10)%float.

(** [Series.clip(0, 1)] on one cell: a cell that is not [>= 0] becomes 0,
    one that is not [<= 1] becomes 1, and NaN stays NaN. *)
Definition clip01 (x : float) : float :=
  if PrimFloat.is_nan x then x
  else if negb (geb x 0) then 0%float
  else if negb (PrimFloat.leb x 1) then 1%float
  else x.

(** [Series.min()] and [Series.max()]: null cells are skipped, and the
    result is NaN when nothing is left. *)
Definition nanmin (l : list float) : float :=
  match filter (fun x => negb (PrimFloat.is_nan x)) l with
  | [] => PrimFloat.nan
  | x :: xs => fold_left (fun acc y => if PrimFloat.ltb y acc then y else acc) xs x
  end.

Definition nanmax (l : list float) : float :=
  match filter (fun x => negb (PrimFloat.is_nan x)) l with
  | [] => PrimFloat.nan
  | x :: xs => fold_left (fun acc y => if PrimFloat.ltb acc y then y else acc) xs x
  end.

End PyFloat.

(** ** Python sequences *)

Module Py.

(** [l[:n]] for an integer [n]: a negative [n] counts from the end. *)
Definition slice_to {A : Type} (l : list A) (n : Z) : list A :=
  if (0 <=? n)%Z then firstn (Z.to_nat n) l
  else firstn (Z.to_nat (Z.of_nat (List.length l) + n)) l.

(** [k in l] for a list of strings. *)
Definition str_in (k : string) (l : list string) : bool :=
  existsb (String.eqb k) l.

(** [str(n)] for a length. *)
Definition str_of_nat (n : nat) : string :=
  NilEmpty.string_of_uint (Nat.to_uint n).

(** [sep.join(parts)]. *)
Definition join (sep : string) (parts : list string) : string :=
  String.concat sep parts.

(** A Python [str] is the text of its UTF-8 bytes: the text with the
    given bytes. *)
Definition of_bytes (codes : list nat) : string :=
  string_of_list_ascii (map ascii_of_nat codes).

(** The pictographs of the console lines: U+2713, U+274C, U+2705 and
    U+1F50D. *)
Definition check_mark : string := of_bytes [226; 156; 147].
Definition cross_mark : string := of_bytes [226; 157; 140].
Definition white_check_mark : string := of_bytes [226; 156; 133].
Definition magnifying_glass : string := of_bytes [240; 159; 148; 141].

End Py.

(** ** Data model *)

(** Exceptions the modelled code raises or lets through. *)
Inductive Exn : Type :=
| ValueError (msg : string)
| KeyError (key : string)
| OtherError (msg : string).

(** The keyword arguments of [mpr.materials.summary.search]. *)
Record SearchParams : Type := {
  q_energy_above_hull : option (float * float);
  q_elements : option (list string);
  q_band_gap : option (float * float);
  q_material_ids : option (list string);
  q_fields : list string
}.

Record Symmetry : Type := {
  crystal_system_value : string;
  symbol : string
}.

Record Elastic : Type := {
  k_vrh : float;
  g_vrh : float;
  universal_anisotropy : float
}.

(** A summary document of the remote database. *)
Record SummaryDoc : Type := {
  material_id : string;
  formula_pretty : string;
  doc_composition : string;
  doc_energy_above_hull : float;
  doc_band_gap : float;
  doc_density : float;
  formation_energy_per_atom : float;
  doc_volume : float;
  symmetry : option Symmetry;
  theoretical : bool;
  doc_is_stable : bool;
  elastic : option Elastic
}.

(** One row of a frame: a cell for every label the program uses. *)
Record Row : Type := {
  mp_id : string;
  formula : string;
  composition : string;
  energy_above_hull : float;
  band_gap : float;
  density : float;
  formation_energy : float;
  volume : float;
  crystal_system : option string;
  space_group : option string;
  is_stable : bool;
  is_theoretical : bool;
  bulk_modulus : float;
  shear_modulus : float;
  youngs_modulus : float;
  match_score : float;
  recommendation_reason : string;
  density_vs_baseline : float;
  band_gap_vs_baseline : float;
  formation_energy_vs_baseline : float
}.

Record DataFrame : Type := {
  columns : list string;
  rows : list Row
}.

(** The requirement dictionary: an absent key is [None]. *)
Record Requirements : Type := {
  min_strength : option float;
  max_density : option float;
  max_temp : option float;
  max_cost_per_kg : option float;
  min_band_gap : option float;
  max_band_gap : option float;
  corrosion_resistance : option string;
  elements : option (list string)
}.

Record RecommendationResults : Type := {
  candidates : DataFrame;
  requirements : Requirements;
  optimize_objectives : option (list string);
  show_tradeoffs : bool
}.

(** What a run can change outside its return value. *)
Record World : Type := {
  console : list string;
  requests : list SearchParams
}.

(** ** The effect monad: state over [World], errors in [Exn] *)

Definition M (A : Type) : Type := World -> World * (Exn + A).

Definition ret {A : Type} (a : A) : M A := fun w => (w, inr a).

Definition raise {A : Type} (e : Exn) : M A := fun w => (w, inl e).

Definition bind {A B : Type} (c : M A) (k : A -> M B) : M B :=
  fun w =>
    match c w with
    | (w', inl e) => (w', inl e)
    | (w', inr a) => k a w'
    end.

Notation "x <- c ;; k" := (bind c (fun x => k))
  (at level 61, c at next level, right associativity).
Notation "c ;;; k" := (bind c (fun _ => k))
  (at level 61, right associativity).

(** [try: body except ValueError: handler]. *)
Definition try_except_ValueError {A : Type} (body : M A) (handler : M A) : M A :=
  fun w =>
    match body w with
    | (w', inl (ValueError _)) => handler w'
    | other => other
    end.

Definition print (line : string) : M unit :=
  fun w => ({| console := console w ++ [line]; requests := requests w |}, inr tt).

Definition lift {A : Type} (r : Exn + A) : M A := fun w => (w, r).

(** ** pandas *)

Module Pandas.

Definition empty_frame : DataFrame := {| columns := []; rows := [] |}.

Definition has_column (df : DataFrame) (label : string) : bool :=
  Py.str_in label (columns df).

Definition len (df : DataFrame) : nat := List.length (rows df).

(** [df[mask]]: the rows whose mask cell is true, in order. *)
Definition select (df : DataFrame) (mask : Row -> bool) : DataFrame :=
  {| columns := columns df; rows := filter mask (rows df) |}.

(** [df[label]] for a numeric column; a missing label is a [KeyError]. *)
Definition column (df : DataFrame) (label : string) (cell : Row -> float)
  : Exn + list float :=
  if has_column df label then inr (map cell (rows df)) else inl (KeyError label).

(** [df.head(n)] is [df.iloc[:n]]. *)
Definition head (df : DataFrame) (n : Z) : DataFrame :=
  {| columns := columns df; rows := Py.slice_to (rows df) n |}.

(** [df[label] = values]: the label is appended unless it is there. *)
Definition add_label (cols : list string) (label : string) : list string :=
  if Py.str_in label cols then cols else cols ++ [label].

(** [l[idx]] for an index array: the items at the listed positions.
    numpy refuses a position outside the array; an argsort result is a
    permutation of the positions, so none is. *)
Definition take {A : Type} (l : list A) (idx : list nat) : list A :=
  flat_map (fun i => match nth_error l i with Some x => [x] | None => [] end) idx.

Section Sorting.

(** [ndarray.argsort(kind='quicksort')]: the positions of the items in
    ascending order of the items. *)
Variable argsort : list float -> list nat.

(** [pandas.core.sorting.nargsort(items, kind='quicksort',
    ascending=False, na_position='last')]: the null items are set
    aside, the others are reversed, argsorted and reversed again, and
    the nulls come last. *)
Definition nargsort_descending (items : list float) : list nat :=
  let idx := seq 0 (List.length items) in
  let mask := fun i => PrimFloat.is_nan (nth i items PrimFloat.nan) in
  let non_nans := filter (fun x => negb (PrimFloat.is_nan x)) items in
  let non_nan_idx := filter (fun i => negb (mask i)) idx in
  let nan_idx := filter mask idx in
  let non_nans := rev non_nans in
  let non_nan_idx := rev non_nan_idx in
  let indexer := take non_nan_idx (argsort non_nans) in
  let indexer := rev indexer in
  indexer ++ nan_idx.

(** [df.sort_values(label, ascending=False)] on a numeric column. *)
Definition sort_values_descending (df : DataFrame) (key : Row -> float)
  : DataFrame :=
  let indexer := nargsort_descending (map key (rows df)) in
  {| columns := columns df; rows := take (rows df) indexer |}.

End Sorting.

End Pandas.

(** A Python dict with string keys whose values are the cells of a row. *)
Record PyDict : Type := {
  keys : list string;
  cells : Row
}.

(** [pd.DataFrame(data)] for a list of dicts: the labels are the keys in
    the order in which they first appear, one row per dict. *)
Definition from_records (data : list PyDict) : DataFrame :=
  {| columns := fold_left (fun cols d => fold_left Pandas.add_label (keys d) cols) data [];
     rows := map cells data |}.

(** Errors of pure steps, in the style of the effect monad. *)
Definition and_then {A B : Type} (r : Exn + A) (k : A -> Exn + B) : Exn + B :=
  match r with
  | inl e => inl e
  | inr a => k a
  end.

(** ** [matselect/sources/materials_project.py] *)

Module MaterialsProjectSource.

Definition search_fields : list string :=
  ["material_id"; "formula_pretty"; "composition"; "energy_above_hull";
   "band_gap"; "density"; "formation_energy_per_atom"; "symmetry";
   "theoretical"; "is_stable"].

Definition detail_fields : list string :=
  search_fields ++ ["volume"; "elastic"; "piezoelectric"; "dielectric"].

Definition search_keys : list string :=
  ["mp_id"; "formula"; "composition"; "energy_above_hull"; "band_gap";
   "density"; "formation_energy"; "crystal_system"; "is_stable";
   "is_theoretical"].

Definition detail_keys : list string :=
  ["mp_id"; "formula"; "composition"; "energy_above_hull"; "band_gap";
   "density"; "formation_energy"; "volume"; "crystal_system";
   "space_group"; "is_stable"; "is_theoretical"].

Definition elastic_keys : list string :=
  ["bulk_modulus"; "shear_modulus"; "youngs_modulus"].

(** The dict appended per document in [search_by_properties]. *)
Definition search_record (doc : SummaryDoc) : PyDict :=
  {| keys := search_keys;
     cells :=
       {| mp_id := material_id doc;
          formula := formula_pretty doc;
          composition := doc_composition doc;
          energy_above_hull := doc_energy_above_hull doc;
          band_gap := doc_band_gap doc;
          density := doc_density doc;
          formation_energy := formation_energy_per_atom doc;
          volume := PrimFloat.nan;
          crystal_system := option_map crystal_system_value (symmetry doc);
          space_group := None;
          is_stable := doc_is_stable doc;
          is_theoretical := theoretical doc;
          bulk_modulus := PrimFloat.nan;
          shear_modulus := PrimFloat.nan;
          youngs_modulus := PrimFloat.nan;
          match_score := PrimFloat.nan;
          recommendation_reason := "";
          density_vs_baseline := PrimFloat.nan;
          band_gap_vs_baseline := PrimFloat.nan;
          formation_energy_vs_baseline := PrimFloat.nan |} |}.

(** The dict built in [get_material_by_id]. *)
Definition detail_record (doc : SummaryDoc) : PyDict :=
  {| keys := match elastic doc with
             | Some _ => detail_keys ++ elastic_keys
             | None => detail_keys
             end;
     cells :=
       {| mp_id := material_id doc;
          formula := formula_pretty doc;
          composition := doc_composition doc;
          energy_above_hull := doc_energy_above_hull doc;
          band_gap := doc_band_gap doc;
          density := doc_density doc;
          formation_energy := formation_energy_per_atom doc;
          volume := doc_volume doc;
          crystal_system := option_map crystal_system_value (symmetry doc);
          space_group := option_map symbol (symmetry doc);
          is_stable := doc_is_stable doc;
          is_theoretical := theoretical doc;
          bulk_modulus :=
            match elastic doc with Some el => k_vrh el | None => PrimFloat.nan end;
          shear_modulus :=
            match elastic doc with Some el => g_vrh el | None => PrimFloat.nan end;
          youngs_modulus :=
            match elastic doc with
            | Some el => universal_anisotropy el
            | None => PrimFloat.nan
            end;
          match_score := PrimFloat.nan;
          recommendation_reason := "";
          density_vs_baseline := PrimFloat.nan;
          band_gap_vs_baseline := PrimFloat.nan;
          formation_energy_vs_baseline := PrimFloat.nan |} |}.

(** The keyword arguments [search_by_properties] builds. *)
Definition search_params
    (elements : option (list string))
    (min_band_gap max_band_gap : option float)
    (max_energy_above_hull : option float) : SearchParams :=
  let max_energy_above_hull :=
    match max_energy_above_hull with
    | None => 0.1%float
    | Some x => x
    end in
  {| q_energy_above_hull := Some (0%float, max_energy_above_hull);
     q_elements :=
       match elements with
       | Some ((_ :: _) as l) => Some l
       | _ => None
       end;
     q_band_gap :=
       match min_band_gap, max_band_gap with
       | None, None => None
       | _, _ =>
           Some (match min_band_gap with Some x => x | None => 0%float end,
                 match max_band_gap with Some x => x | None => 15%float end)
       end;
     q_material_ids := None;
     q_fields := search_fields |}.

(** The keyword arguments [get_material_by_id] builds. *)
Definition detail_params (material_id : string) : SearchParams :=
  {| q_energy_above_hull := None;
     q_elements := None;
     q_band_gap := None;
     q_material_ids := Some [material_id];
     q_fields := detail_fields |}.

Section Source.

(** The remote database: the answer to one search request, or the
    exception the client raises. *)
Variable summary_search : SearchParams -> Exn + list SummaryDoc.

(** One round trip: the request is logged, the answer returned. *)
Definition mpr_search (params : SearchParams) : M (list SummaryDoc) :=
  fun w =>
    ({| console := console w; requests := requests w ++ [params] |},
     summary_search params).

Definition search_by_properties
    (elements : option (list string))
    (min_band_gap max_band_gap : option float)
    (min_energy_above_hull max_energy_above_hull : option float)
    (crystal_systems : option (list string))
    (limit : Z) : M DataFrame :=
  docs <- mpr_search
            (search_params elements min_band_gap max_band_gap
                           max_energy_above_hull) ;;
  ret (from_records (map search_record (Py.slice_to docs limit))).

Definition get_material_by_id (material_id : string) : M PyDict :=
  docs <- mpr_search (detail_params material_id) ;;
  match docs with
  | [] => raise (ValueError ("Material " ++ material_id ++ " not found")%string)
  | doc :: _ => ret (detail_record doc)
  end.

End Source.

End MaterialsProjectSource.

(** ** [matselect/core/recommender.py] *)

Module MatSelectAI.

Import Pandas.

(** [scored['match_score'] = scores], one row at a time. *)
Definition set_match_score (r : Row) (s : float) : Row :=
  {| mp_id := mp_id r; formula := formula r; composition := composition r;
     energy_above_hull := energy_above_hull r; band_gap := band_gap r;
     density := density r; formation_energy := formation_energy r;
     volume := volume r; crystal_system := crystal_system r;
     space_group := space_group r; is_stable := is_stable r;
     is_theoretical := is_theoretical r; bulk_modulus := bulk_modulus r;
     shear_modulus := shear_modulus r; youngs_modulus := youngs_modulus r;
     match_score := s;
     recommendation_reason := recommendation_reason r;
     density_vs_baseline := density_vs_baseline r;
     band_gap_vs_baseline := band_gap_vs_baseline r;
     formation_energy_vs_baseline := formation_energy_vs_baseline r |}.

(** [enriched['recommendation_reason'] = reasons], one row at a time. *)
Definition set_recommendation_reason (r : Row) (s : string) : Row :=
  {| mp_id := mp_id r; formula := formula r; composition := composition r;
     energy_above_hull := energy_above_hull r; band_gap := band_gap r;
     density := density r; formation_energy := formation_energy r;
     volume := volume r; crystal_system := crystal_system r;
     space_group := space_group r; is_stable := is_stable r;
     is_theoretical := is_theoretical r; bulk_modulus := bulk_modulus r;
     shear_modulus := shear_modulus r; youngs_modulus := youngs_modulus r;
     match_score := match_score r;
     recommendation_reason := s;
     density_vs_baseline := density_vs_baseline r;
     band_gap_vs_baseline := band_gap_vs_baseline r;
     formation_energy_vs_baseline := formation_energy_vs_baseline r |}.

Definition set_density_vs_baseline (r : Row) (x : float) : Row :=
  {| mp_id := mp_id r; formula := formula r; composition := composition r;
     energy_above_hull := energy_above_hull r; band_gap := band_gap r;
     density := density r; formation_energy := formation_energy r;
     volume := volume r; crystal_system := crystal_system r;
     space_group := space_group r; is_stable := is_stable r;
     is_theoretical := is_theoretical r; bulk_modulus := bulk_modulus r;
     shear_modulus := shear_modulus r; youngs_modulus := youngs_modulus r;
     match_score := match_score r;
     recommendation_reason := recommendation_reason r;
     density_vs_baseline := x;
     band_gap_vs_baseline := band_gap_vs_baseline r;
     formation_energy_vs_baseline := formation_energy_vs_baseline r |}.

Definition set_band_gap_vs_baseline (r : Row) (x : float) : Row :=
  {| mp_id := mp_id r; formula := formula r; composition := composition r;
     energy_above_hull := energy_above_hull r; band_gap := band_gap r;
     density := density r; formation_energy := formation_energy r;
     volume := volume r; crystal_system := crystal_system r;
     space_group := space_group r; is_stable := is_stable r;
     is_theoretical := is_theoretical r; bulk_modulus := bulk_modulus r;
     shear_modulus := shear_modulus r; youngs_modulus := youngs_modulus r;
     match_score := match_score r;
     recommendation_reason := recommendation_reason r;
     density_vs_baseline := density_vs_baseline r;
     band_gap_vs_baseline := x;
     formation_energy_vs_baseline := formation_energy_vs_baseline r |}.

Definition set_formation_energy_vs_baseline (r : Row) (x : float) : Row :=
  {| mp_id := mp_id r; formula := formula r; composition := composition r;
     energy_above_hull := energy_above_hull r; band_gap := band_gap r;
     density := density r; formation_energy := formation_energy r;
     volume := volume r; crystal_system := crystal_system r;
     space_group := space_group r; is_stable := is_stable r;
     is_theoretical := is_theoretical r; bulk_modulus := bulk_modulus r;
     shear_modulus := shear_modulus r; youngs_modulus := youngs_modulus r;
     match_score := match_score r;
     recommendation_reason := recommendation_reason r;
     density_vs_baseline := density_vs_baseline r;
     band_gap_vs_baseline := band_gap_vs_baseline r;
     formation_energy_vs_baseline := x |}.

(** *** [_apply_filters] *)

Definition _apply_filters (candidates : DataFrame) (requirements : Requirements)
  : Exn + DataFrame :=
  let filtered := candidates in
  and_then
    (match max_density requirements with
     | Some limit =>
         if has_column filtered "density"
         then inr (select filtered (fun r => PrimFloat.leb (density r) limit))
         else inl (KeyError "density")
     | None => inr filtered
     end)
    (fun filtered =>
       if has_column filtered "energy_above_hull"
       then inr (select filtered
                   (fun r => PrimFloat.leb (energy_above_hull r) 0.1%float))
       else inl (KeyError "energy_above_hull")).

(** *** [_score_materials] *)

(** [optimize and 'weight' in optimize]. *)
Definition optimizes_weight (optimize : option (list string)) : bool :=
  match optimize with
  | Some ((_ :: _) as l) => Py.str_in "weight" l
  | _ => false
  end.

Definition density_normalized (scored : DataFrame) (r : Row) : float :=
  let densities := map density (rows scored) in
  (1 - (density r - PyFloat.nanmin densities)
       / (PyFloat.nanmax densities - PyFloat.nanmin densities + 1e-10))%float.

Definition stability_score (r : Row) : float :=
  PyFloat.clip01 (1 - energy_above_hull r / 0.1)%float.

Definition gap_score (scored : DataFrame) (target : float) (r : Row) : float :=
  let gap_diff := PrimFloat.abs (band_gap r - target)%float in
  PyFloat.clip01
    (1 - gap_diff / (PyFloat.nanmax (map band_gap (rows scored)) + 1))%float.

(** The cell of [scores] for one row, term by term as the code adds them. *)
Definition scores (scored : DataFrame) (requirements : Requirements)
    (optimize : option (list string)) (r : Row) : float :=
  let s := 0%float in
  let s :=
    if optimizes_weight optimize && has_column scored "density"
    then (s + density_normalized scored r * 30)%float
    else s in
  let s :=
    if has_column scored "energy_above_hull"
    then (s + stability_score r * 40)%float
    else s in
  let s :=
    match min_band_gap requirements with
    | Some target =>
        if has_column scored "band_gap"
        then (s + gap_score scored target r * 30)%float
        else s
    | None => s
    end in
  (s + 10)%float.

(** The frame after [scored['match_score'] = scores], before sorting. *)
Definition with_match_score (materials : DataFrame) (requirements : Requirements)
    (optimize : option (list string)) : DataFrame :=
  let scored := materials in
  {| columns := add_label (columns scored) "match_score";
     rows := map (fun r => set_match_score r (scores scored requirements optimize r))
                 (rows scored) |}.

(** *** [_enrich_materials] *)

(** The rationale of one row of the loop.  [row.get(label, default)]
    is the cell of the row, or the default in a frame without the label;
    the density and energy cells are those of float64 columns. *)
Definition reason (materials : DataFrame) (row : Row) : string :=
  let reason_parts := [] in
  let reason_parts :=
    if (if has_column materials "is_stable" then is_stable row else false)
    then reason_parts ++ ["Thermodynamically stable"]
    else reason_parts in
  let reason_parts :=
    if PrimFloat.ltb
         (if has_column materials "density" then density row else 10%float)
         5.0%float
    then reason_parts ++ ["Lightweight"]
    else reason_parts in
  let reason_parts :=
    if PrimFloat.ltb
         (if has_column materials "energy_above_hull"
          then energy_above_hull row else 1%float)
         0.02%float
    then reason_parts ++ ["Highly stable"]
    else reason_parts in
  match reason_parts with
  | [] => "Meets requirements"
  | _ :: _ => Py.join "; " reason_parts
  end.

Definition _enrich_materials (materials : DataFrame) : DataFrame :=
  let enriched := materials in
  {| columns := add_label (columns enriched) "recommendation_reason";
     rows := map (fun row => set_recommendation_reason row (reason enriched row))
                 (rows enriched) |}.

(** *** [what_if]: the percentage columns *)

Definition percent_vs_baseline (baseline value : float) : float :=
  PyFloat.round1 ((value - baseline) / baseline * 100)%float.

(** The body of [if show_savings and len(df) > 1], given row 0. *)
Definition add_savings (df : DataFrame) (baseline : Row) : DataFrame :=
  let df :=
    if has_column df "density"
    then {| columns := add_label (columns df) "density_vs_baseline_%";
            rows := map (fun r => set_density_vs_baseline r
                           (percent_vs_baseline (density baseline) (density r)))
                        (rows df) |}
    else df in
  let df :=
    if has_column df "band_gap"
    then {| columns := add_label (columns df) "band_gap_vs_baseline_%";
            rows := map (fun r => set_band_gap_vs_baseline r
                           (percent_vs_baseline (band_gap baseline) (band_gap r)))
                        (rows df) |}
    else df in
  let df :=
    if has_column df "formation_energy"
    then {| columns := add_label (columns df) "formation_energy_vs_baseline_%";
            rows := map (fun r => set_formation_energy_vs_baseline r
                           (percent_vs_baseline (formation_energy baseline)
                                                (formation_energy r)))
                        (rows df) |}
    else df in
  df.

Section Engine.

Variable summary_search : SearchParams -> Exn + list SummaryDoc.
Variable argsort : list float -> list nat.

Definition _score_materials (materials : DataFrame) (requirements : Requirements)
    (optimize : option (list string)) : DataFrame :=
  let scored := with_match_score materials requirements optimize in
  sort_values_descending argsort scored match_score.

(** The default of the keyword argument [top_n] of [recommend]. *)
Definition default_top_n : Z := 5.

(** *** [recommend] *)

Definition recommend (requirements : Requirements)
    (optimize : option (list string)) (show_tradeoffs : bool) (top_n : Z)
  : M RecommendationResults :=
  print (Py.magnifying_glass ++ " Searching Materials Project database...")%string ;;;
  candidates <- MaterialsProjectSource.search_by_properties summary_search
                  (elements requirements)
                  (min_band_gap requirements) (max_band_gap requirements)
                  None (Some 0.05%float) None 100 ;;
  if (len candidates =? 0)%nat then
    print (Py.cross_mark ++ " No materials found matching criteria")%string ;;;
    ret {| candidates := empty_frame;
           requirements := requirements;
           optimize_objectives := None;
           show_tradeoffs := false |}
  else
    print (Py.check_mark ++ " Found " ++ Py.str_of_nat (len candidates)
           ++ " candidate materials")%string ;;;
    filtered <- lift (_apply_filters candidates requirements) ;;
    print (Py.check_mark ++ " " ++ Py.str_of_nat (len filtered)
           ++ " materials passed all filters")%string ;;;
    let scored := _score_materials filtered requirements optimize in
    let top_materials := head scored top_n in
    let enriched := _enrich_materials top_materials in
    print (Py.white_check_mark ++ " Returning top " ++ Py.str_of_nat (len enriched)
           ++ " recommendations")%string ;;;
    ret {| candidates := enriched;
           requirements := requirements;
           optimize_objectives := optimize;
           show_tradeoffs := show_tradeoffs |}.

(** *** [what_if] *)

(** The [for mp_id in materials_to_compare] loop, with the list
    [comparison_data] it appends to. *)
Fixpoint fetch_each (ids : list string) (comparison_data : list PyDict)
  : M (list PyDict) :=
  match ids with
  | [] => ret comparison_data
  | mp_id :: rest =>
      comparison_data <-
        try_except_ValueError
          (mat_data <- MaterialsProjectSource.get_material_by_id summary_search mp_id ;;
           ret (comparison_data ++ [mat_data]))
          (print ("Warning: Material " ++ mp_id ++ " not found")%string ;;;
           ret comparison_data) ;;
      fetch_each rest comparison_data
  end.

Definition what_if (baseline_material : string)
    (alternative_materials : list string) (show_savings : bool)
  : M DataFrame :=
  let materials_to_compare := [baseline_material] ++ alternative_materials in
  comparison_data <- fetch_each materials_to_compare [] ;;
  let df := from_records comparison_data in
  if show_savings && (1 <? len df)%nat then
    match rows df with
    | baseline :: _ => ret (add_savings df baseline)
    | [] => ret df
    end
  else ret df.

End Engine.

End MatSelectAI.

(** ** Sorting routines and their contract *)

Module Numpy.

Definition item (v : list float) (i : nat) : float := nth i v PrimFloat.nan.

(** What [argsort] promises for every [kind]: the result lists each
    position of [v] once, and the items read in that order ascend. *)
Fixpoint ascending (l : list float) : bool :=
  match l with
  | [] => true
  | x :: rest =>
      match rest with
      | [] => true
      | y :: _ => PrimFloat.leb x y && ascending rest
      end
  end.

Definition is_argsort (v : list float) (idx : list nat) : bool :=
  (List.length idx =? List.length v)%nat
  && forallb (fun i => existsb (Nat.eqb i) idx) (seq 0 (List.length v))
  && ascending (map (item v) idx).

(** What only [kind='stable'] and [kind='mergesort'] promise on top:
    positions of equal items stay in increasing order. *)
Fixpoint keeps_ties (v : list float) (idx : list nat) : bool :=
  match idx with
  | [] => true
  | i :: rest =>
      forallb (fun j => negb (PrimFloat.eqb (item v i) (item v j)) || (i <? j)%nat) rest
      && keeps_ties v rest
  end.

(** *** [ndarray.argsort(kind='quicksort')]

    numpy's generic routine for an index array, [aquicksort_] of
    npysort/quicksort.cpp with the heap sort [aheapsort_] it falls back
    on.  Offsets into the index array stand for the pointers [pl], [pr],
    [pi], [pj] and [pk]; loops carry a bound on their steps. *)

(** [npy::double_tag::less]: [a < b], a null counting as greater than
    every number. *)
Definition less (a b : float) : bool :=
  PrimFloat.ltb a b || (PrimFloat.is_nan b && negb (PrimFloat.is_nan a)).

(** The index array [tosort]: reading, writing and swapping at an
    offset. *)
Definition at_offset (tosort : list nat) (p : Z) : nat := nth (Z.to_nat p) tosort 0.

Fixpoint store_nat (tosort : list nat) (n : nat) (x : nat) : list nat :=
  match tosort, n with
  | [], _ => []
  | _ :: rest, O => x :: rest
  | y :: rest, S k => y :: store_nat rest k x
  end.

Definition store (tosort : list nat) (p : Z) (x : nat) : list nat :=
  if (p <? 0)%Z then tosort else store_nat tosort (Z.to_nat p) x.

Definition swap (tosort : list nat) (p q : Z) : list nat :=
  let a := at_offset tosort p in
  let b := at_offset tosort q in
  store (store tosort p b) q a.

(** [v[*p]]. *)
Definition key (v : list float) (tosort : list nat) (p : Z) : float :=
  item v (at_offset tosort p).

(** [npy_get_msb]: how often a number halves before it is 0, less one. *)
Definition npy_get_msb (num : Z) : Z := Z.log2 num.

Definition SMALL_QUICKSORT : Z := 16.

(** [do { ++pi; } while (less(v[*pi], vp))]. *)
Fixpoint scan_up (fuel : nat) (v : list float) (tosort : list nat) (vp : float)
    (pi : Z) : Z :=
  match fuel with
  | O => pi
  | S fuel =>
      let pi := (pi + 1)%Z in
      if less (key v tosort pi) vp then scan_up fuel v tosort vp pi else pi
  end.

(** [do { --pj; } while (less(vp, v[*pj]))]. *)
Fixpoint scan_down (fuel : nat) (v : list float) (tosort : list nat) (vp : float)
    (pj : Z) : Z :=
  match fuel with
  | O => pj
  | S fuel =>
      let pj := (pj - 1)%Z in
      if less vp (key v tosort pj) then scan_down fuel v tosort vp pj else pj
  end.

(** The [for (;;)] loop of the partition: the index array and [pi] when
    the two scans have met. *)
Fixpoint exchange (fuel : nat) (v : list float) (tosort : list nat) (vp : float)
    (pi pj : Z) : list nat * Z :=
  match fuel with
  | O => (tosort, pi)
  | S fuel =>
      let pi := scan_up (List.length tosort) v tosort vp pi in
      let pj := scan_down (List.length tosort) v tosort vp pj in
      if (pj <=? pi)%Z then (tosort, pi)
      else exchange fuel v (swap tosort pi pj) vp pi pj
  end.

(** One partition of [pl .. pr] around the median of three; the result
    is the index array and the place [pi] of the pivot. *)
Definition partition (v : list float) (tosort : list nat) (pl pr : Z)
  : list nat * Z :=
  let pm := (pl + Z.shiftr (pr - pl) 1)%Z in
  let tosort :=
    if less (key v tosort pm) (key v tosort pl) then swap tosort pm pl else tosort in
  let tosort :=
    if less (key v tosort pr) (key v tosort pm) then swap tosort pr pm else tosort in
  let tosort :=
    if less (key v tosort pm) (key v tosort pl) then swap tosort pm pl else tosort in
  let vp := key v tosort pm in
  let pi := pl in
  let pj := (pr - 1)%Z in
  let tosort := swap tosort pm pj in
  let '(tosort, pi) := exchange (List.length tosort) v tosort vp pi pj in
  let pk := (pr - 1)%Z in
  (swap tosort pi pk, pi).

(** [while (pj > pl && less(vp, v[*pk])) { *pj-- = *pk--; }]. *)
Fixpoint shift_up (fuel : nat) (v : list float) (tosort : list nat) (vp : float)
    (pl pj : Z) : list nat * Z :=
  match fuel with
  | O => (tosort, pj)
  | S fuel =>
      let pk := (pj - 1)%Z in
      if (pl <? pj)%Z && less vp (key v tosort pk)
      then shift_up fuel v (store tosort pj (at_offset tosort pk)) vp pl (pj - 1)%Z
      else (tosort, pj)
  end.

(** The insertion sort of [pl .. pr]: [count] positions from [pi] on are
    still to be inserted. *)
Fixpoint insertion (count : nat) (v : list float) (tosort : list nat) (pl pi : Z)
  : list nat :=
  match count with
  | O => tosort
  | S count =>
      let vi := at_offset tosort pi in
      let vp := item v vi in
      let '(tosort, pj) := shift_up (List.length tosort) v tosort vp pl pi in
      insertion count v (store tosort pj vi) pl (pi + 1)%Z
  end.

(** The inner loop of the heap sort, on the array [a = tosort - 1] that
    starts at offset [base]: the item [tmp] sinks from [i]. *)
Fixpoint sift (fuel : nat) (v : list float) (tosort : list nat) (base : Z)
    (tmp : nat) (i j n : Z) : list nat :=
  let a := fun k => at_offset tosort (base + k - 1)%Z in
  match fuel with
  | O => store tosort (base + i - 1)%Z tmp
  | S fuel =>
      if (j <=? n)%Z then
        let j :=
          if (j <? n)%Z && less (item v (a j)) (item v (a (j + 1)%Z))
          then (j + 1)%Z else j in
        if less (item v tmp) (item v (a j))
        then sift fuel v (store tosort (base + i - 1)%Z (a j)) base tmp j (j + j)%Z n
        else store tosort (base + i - 1)%Z tmp
      else store tosort (base + i - 1)%Z tmp
  end.

(** [for (l = n >> 1; l > 0; --l)]: the heap is built. *)
Fixpoint heapify (count : nat) (v : list float) (tosort : list nat) (base l n : Z)
  : list nat :=
  match count with
  | O => tosort
  | S count =>
      let tmp := at_offset tosort (base + l - 1)%Z in
      let tosort := sift (List.length tosort) v tosort base tmp l (Z.shiftl l 1) n in
      heapify count v tosort base (l - 1)%Z n
  end.

(** [for (; n > 1;)]: the largest item moves behind the heap. *)
Fixpoint drain (count : nat) (v : list float) (tosort : list nat) (base n : Z)
  : list nat :=
  match count with
  | O => tosort
  | S count =>
      let tmp := at_offset tosort (base + n - 1)%Z in
      let tosort := store tosort (base + n - 1)%Z (at_offset tosort base) in
      let n := (n - 1)%Z in
      let tosort := sift (List.length tosort) v tosort base tmp 1 2 n in
      drain count v tosort base n
  end.

(** [aheapsort_(vv, pl, n)]. *)
Definition aheapsort (v : list float) (tosort : list nat) (pl n : Z) : list nat :=
  let tosort := heapify (Z.to_nat (Z.shiftr n 1)) v tosort pl (Z.shiftr n 1) n in
  drain (Z.to_nat (n - 1)) v tosort pl n.

(** The loop of [aquicksort_]: [check] is set where the code tests the
    depth, at the top of [while (1)], and not inside the partition
    loop.  The stack holds the ranges set aside, each with its depth. *)
Fixpoint aquicksort_loop (fuel : nat) (check : bool) (v : list float)
    (tosort : list nat) (pl pr : Z) (stack : list (Z * Z * Z)) (cdepth : Z)
  : list nat :=
  match fuel with
  | O => tosort
  | S fuel =>
      let stack_pop := fun tosort =>
        match stack with
        | [] => tosort
        | (pl, pr, cdepth) :: stack =>
            aquicksort_loop fuel true v tosort pl pr stack cdepth
        end in
      if check && (cdepth <? 0)%Z then
        stack_pop (aheapsort v tosort pl (pr - pl + 1)%Z)
      else if (SMALL_QUICKSORT <? pr - pl)%Z then
        let '(tosort, pi) := partition v tosort pl pr in
        let cdepth := (cdepth - 1)%Z in
        if (pi - pl <? pr - pi)%Z
        then aquicksort_loop fuel false v tosort pl (pi - 1)%Z
               ((pi + 1, pr, cdepth)%Z :: stack) cdepth
        else aquicksort_loop fuel false v tosort (pi + 1)%Z pr
               ((pl, pi - 1, cdepth)%Z :: stack) cdepth
      else
        stack_pop (insertion (Z.to_nat (pr - pl)) v tosort pl (pl + 1)%Z)
  end.

(** [v.argsort(kind='quicksort')] as numpy's generic routine computes
    it ([aquicksort_] of npysort/quicksort.cpp): an introsort on the
    index array, with an insertion sort for ranges of at most 17 items
    and a heap sort below the depth limit. *)
Definition aquicksort (v : list float) : list nat :=
  let num := Z.of_nat (List.length v) in
  aquicksort_loop (2 * List.length v + 2) true v (seq 0 (List.length v))
    0 (num - 1)%Z [] (npy_get_msb num * 2)%Z.

End Numpy.

(** ** Vocabulary of the properties *)

(** [l1] is [l2] with some items left out, the others in place. *)
Inductive Subsequence {A : Type} : list A -> list A -> Prop :=
| Subsequence_nil : Subsequence [] []
| Subsequence_skip : forall x l1 l2, Subsequence l1 l2 -> Subsequence l1 (x :: l2)
| Subsequence_keep : forall x l1 l2, Subsequence l1 l2 -> Subsequence (x :: l1) (x :: l2).

(** The array [nargsort] hands to [argsort]: the non-null items, reversed. *)
Definition sort_input (items : list float) : list float :=
  rev (filter (fun x => negb (PrimFloat.is_nan x)) items).

(** Descending order of scores with the nulls last: [y] may follow [x]
    when [y <= x], or when [y] is null. *)
Definition may_follow (x y : float) : Prop :=
  PrimFloat.leb y x = true \/ PrimFloat.is_nan y = true.

(** Position [i] comes before position [j] in the index array [idx]. *)
Definition comes_before (idx : list nat) (i j : nat) : Prop :=
  exists front back, idx = front ++ i :: back /\ In j back.

(** The mask [_apply_filters] applies, both comparisons at once. *)
Definition passes (requirements : Requirements) (r : Row) : bool :=
  match max_density requirements with
  | Some limit => PrimFloat.leb (density r) limit
  | None => true
  end
  && PrimFloat.leb (energy_above_hull r) 0.1%float.

(** ** Sample data *)

Module Sample.

Definition doc (id : string) (hull gap dens : float) (stable : bool) : SummaryDoc :=
  {| material_id := id;
     formula_pretty := "Si";
     doc_composition := "Si1";
     doc_energy_above_hull := hull;
     doc_band_gap := gap;
     doc_density := dens;
     formation_energy_per_atom := (-0.5)%float;
     doc_volume := 40%float;
     symmetry := Some {| crystal_system_value := "Cubic"; symbol := "Fd-3m" |};
     theoretical := false;
     doc_is_stable := stable;
     elastic := None |}.

(** The requirement dictionary [{}]. *)
Definition no_requirements : Requirements :=
  {| min_strength := None; max_density := None; max_temp := None;
     max_cost_per_kg := None; min_band_gap := None; max_band_gap := None;
     corrosion_resistance := None; elements := None |}.

(** The requirement dictionary [{'max_density': 5.0}]. *)
Definition light_only : Requirements :=
  {| min_strength := None; max_density := Some 5%float; max_temp := None;
     max_cost_per_kg := None; min_band_gap := None; max_band_gap := None;
     corrosion_resistance := None; elements := None |}.

Definition fresh : World := {| console := []; requests := [] |}.

(** Densities 3.0, 6.0 and 4.5, all on the hull. *)
Definition three_densities : DataFrame :=
  from_records
    (map MaterialsProjectSource.search_record
       [doc "mp-1" 0 1.1 3 true; doc "mp-2" 0 0 6 true; doc "mp-3" 0 2 4.5 true]%float).

(** Energies above hull 0.0, 0.05 and 0.1. *)
Definition three_energies : list SummaryDoc :=
  [doc "mp-1" 0 1.1 3 true; doc "mp-2" 0.05 0 6 false; doc "mp-3" 0.1 2 4.5 false]%float.

(** Twenty candidates, mp-1 to mp-20, whose energies above hull go
    round 0.0, 0.05 and 0.1: seven with the score 50, seven with 30 and
    six with 10. *)
Definition twenty_docs : list SummaryDoc :=
  map (fun i => doc ("mp-" ++ Py.str_of_nat (S i))
                    (nth (i mod 3) [0; 0.05; 0.1]%float 0%float)
                    1.1 3 (i mod 3 =? 0)%nat)
      (seq 0 20).

Definition twenty : DataFrame :=
  from_records (map MaterialsProjectSource.search_record twenty_docs).

(** A database that knows silicon (density 7.0 here) under "mp-149" and
    a metal with a zero band gap under "mp-30", and nothing else. *)
Definition two_materials (params : SearchParams) : Exn + list SummaryDoc :=
  match q_material_ids params with
  | Some [id] =>
      if String.eqb id "mp-149" then inr [doc "mp-149" 0 1.1 7 true]%float
      else if String.eqb id "mp-30" then inr [doc "mp-30" 0 0 8.9 true]%float
      else inr []
  | _ => inr []
  end.

(** A database without any match. *)
Definition nothing (params : SearchParams) : Exn + list SummaryDoc := inr [].

End Sample.

(** ** Vocabulary of the what-if comparison *)

(** How one identifier fares in the loop of [what_if]: its record is
    fetched, it is reported as not found (a [ValueError]) and skipped, or
    another exception leaves the loop. *)
Inductive Outcome : Type :=
| Fetched (record : PyDict)
| NotFound
| Propagated (e : Exn).

Definition outcome (summary_search : SearchParams -> Exn + list SummaryDoc)
    (id : string) : Outcome :=
  match summary_search (MaterialsProjectSource.detail_params id) with
  | inr (doc :: _) => Fetched (MaterialsProjectSource.detail_record doc)
  | inr [] => NotFound
  | inl (ValueError _) => NotFound
  | inl e => Propagated e
  end.

Definition none_propagated (summary_search : SearchParams -> Exn + list SummaryDoc)
    (ids : list string) : bool :=
  forallb (fun id => match outcome summary_search id with
                     | Propagated _ => false
                     | _ => true
                     end) ids.

(** The records of the identifiers that were fetched, in order. *)
Definition fetched_records (summary_search : SearchParams -> Exn + list SummaryDoc)
    (ids : list string) : list PyDict :=
  flat_map (fun id => match outcome summary_search id with
                      | Fetched record => [record]
                      | _ => []
                      end) ids.

(** The warning lines of the identifiers that were not found, in order. *)
Definition warnings (summary_search : SearchParams -> Exn + list SummaryDoc)
    (ids : list string) : list string :=
  flat_map (fun id => match outcome summary_search id with
                      | NotFound => [("Warning: Material " ++ id ++ " not found")%string]
                      | _ => []
                      end) ids.

(** The last step of [what_if] on the frame of the fetched records. *)
Definition with_savings (show_savings : bool) (df : DataFrame) : DataFrame :=
  if show_savings && (1 <? Pandas.len df)%nat then
    match rows df with
    | baseline :: _ => MatSelectAI.add_savings df baseline
    | [] => df
    end
  else df.

(** What [what_if] hands back: the exception of the first identifier that
    propagates one, else the frame of the fetched records. *)
Fixpoint collected (summary_search : SearchParams -> Exn + list SummaryDoc)
    (ids : list string) (comparison_data : list PyDict) : Exn + list PyDict :=
  match ids with
  | [] => inr comparison_data
  | id :: rest =>
      match outcome summary_search id with
      | Fetched record => collected summary_search rest (comparison_data ++ [record])
      | NotFound => collected summary_search rest comparison_data
      | Propagated e => inl e
      end
  end.

(** A row of the comparison frame once the three percentage cells are set
    against the row [baseline]. *)
Definition with_percentages (baseline r : Row) : Row :=
  MatSelectAI.set_formation_energy_vs_baseline
    (MatSelectAI.set_band_gap_vs_baseline
       (MatSelectAI.set_density_vs_baseline r
          (MatSelectAI.percent_vs_baseline (density baseline) (density r)))
       (MatSelectAI.percent_vs_baseline (band_gap baseline) (band_gap r)))
    (MatSelectAI.percent_vs_baseline (formation_energy baseline) (formation_energy r)).

(** The three percentage cells of [r] are the differences to [top] in
    percent of [top], rounded to one decimal. *)
Definition percentages_against (top r : Row) : Prop :=
  density_vs_baseline r
  = PyFloat.round1 ((density r - density top) / density top * 100)%float /\
  band_gap_vs_baseline r
  = PyFloat.round1 ((band_gap r - band_gap top) / band_gap top * 100)%float /\
  formation_energy_vs_baseline r
  = PyFloat.round1
      ((formation_energy r - formation_energy top) / formation_energy top * 100)%float.

(** A percentage cell against a zero baseline: null when the value is zero
    or null itself, an infinity otherwise. *)
Definition zero_baseline_cell (value cell : float) : Prop :=
  if PrimFloat.is_nan value || PrimFloat.eqb value 0
  then cell = PrimFloat.nan
  else cell = PrimFloat.infinity \/ cell = PrimFloat.neg_infinity.

(** ** Vocabulary of binary64 rounding

    What the arithmetic of the stability term needs from IEEE 754: values
    are rationals, and a float operation returns the exact result rounded
    to nearest, ties to even. *)

Section RoundingVocabulary.

Local Open Scope Q_scope.

(** 2^k as a rational, for an integer k of either sign. *)
Definition pow2 (k : Z) : Q := (2 # 1) ^ k.

(** [u], a value scaled to the unit of the mantissa, sits at the integer
    [m] with the location [l]. *)
Definition located (u : Q) (m : Z) (l : location) : Prop :=
  match l with
  | loc_Exact => u == inject_Z m
  | loc_Inexact c =>
      inject_Z m < u /\ u < inject_Z m + 1 /\ (u ?= inject_Z m + (1 # 2)) = c
  end.

(** The same for the record [binary_round_aux] shifts. *)
Definition located_rec (u : Q) (mrs : shr_record) : Prop :=
  located u (shr_m mrs) (loc_of_shr_record mrs).

(** The binade of a positive value: [2^(k-1) <= v < 2^k]. *)
Definition mag (v : Q) (k : Z) : Prop := pow2 (k - 1) <= v /\ v < pow2 k.

(** The float with mantissa [M <= 2^53] at exponent [E]. *)
Definition pack (M E : Z) : spec_float :=
  if (M =? 0)%Z then S754_zero false
  else if (M =? 2 ^ 53)%Z then S754_finite false (2 ^ 52)%positive (E + 1)
  else S754_finite false (Z.to_pos M) E.

(** [F] is the value [v > 0] rounded to nearest, ties to even, in binary64. *)
Definition rounds_to (v : Q) (F : spec_float) : Prop :=
  exists k m l,
    mag v k /\ located (v * pow2 (- fexp prec emax k)) m l /\ (0 <= m)%Z /\
    F = pack (round_nearest_even m l) (fexp prec emax k).

(** The rational a non-negative finite float stands for. *)
Definition SFval (x : spec_float) : Q :=
  match x with
  | S754_finite false m e => inject_Z (Zpos m) * pow2 e
  | _ => 0
  end.

(** Zeros and positive finite floats. *)
Definition nonneg_finite (x : spec_float) : Prop :=
  match x with
  | S754_zero _ => True
  | S754_finite false _ _ => True
  | _ => False
  end.

(** The constants of the stability term: 0.1, 1 and 40 in binary64. *)
Definition SF_tenth : spec_float := S754_finite false 7205759403792794 (-56).
Definition SF_one : spec_float := S754_finite false 4503599627370496 (-52).
Definition SF_forty : spec_float := S754_finite false 5629499534213120 (-47).

End RoundingVocabulary.

(** ** The stability term in the words of the specification *)

(** [clip(x, lo, hi)]: [lo] below [lo], [hi] above [hi], [x] between. *)
Definition spec_clip (x lo hi : float) : float :=
  if PrimFloat.ltb x lo then lo
  else if PrimFloat.ltb hi x then hi
  else x.

(** [clip(1 - energy_above_hull / 0.1, 0, 1) * 40]. *)
Definition spec_stability_term (energy_above_hull : float) : float :=
  (spec_clip (1 - energy_above_hull / 0.1) 0 1 * 40)%float.

(** ** The rest of the two modules

    What follows embeds the functions of [materials_project.py] and
    [recommender.py] that the pipeline above does not call.  A Python
    [str] is the Rocq string of its UTF-8 bytes; Python integers that
    serve as bounds of float ranges are the floats they equal. *)

(** *** Python text *)

Module PyStr.

Definition byte (c : ascii) : N := N_of_ascii c.

(** The byte at a position, and 256 (no byte) past the end. *)
Definition byte_at (s : string) (i : nat) : N :=
  match String.get i s with
  | Some c => byte c
  | None => 256%N
  end.

(** The width in bytes of the white-space character the text starts
    with, and 0 when it starts with another character.  White space is
    what [str.isspace] accepts: U+0009 to U+000D, U+001C to U+0020,
    U+0085, U+00A0, U+1680, U+2000 to U+200A, U+2028, U+2029, U+202F,
    U+205F and U+3000. *)
Definition space_width (s : string) : nat :=
  let b1 := byte_at s 0 in
  let b2 := byte_at s 1 in
  let b3 := byte_at s 2 in
  if ((9 <=? b1) && (b1 <=? 13) || (28 <=? b1) && (b1 <=? 32))%N then 1
  else if ((b1 =? 194) && ((b2 =? 133) || (b2 =? 160)))%N then 2
  else if ((b1 =? 225) && (b2 =? 154) && (b3 =? 128))%N then 3
  else if ((b1 =? 226) && (b2 =? 128)
           && ((128 <=? b3) && (b3 <=? 138)
               || (b3 =? 168) || (b3 =? 169) || (b3 =? 175)))%N then 3
  else if ((b1 =? 226) && (b2 =? 129) && (b3 =? 159))%N then 3
  else if ((b1 =? 227) && (b2 =? 128) && (b3 =? 128))%N then 3
  else 0.

(** The word collected so far, if there is one. *)
Definition flush (word : string) : list string :=
  match word with
  | EmptyString => []
  | String _ _ => [word]
  end.

(** The scan of [str.split()]: [skip] bytes of a white-space character
    are still to be passed, [word] holds the bytes since the last one. *)
Fixpoint split_from (s : string) (skip : nat) (word : string) : list string :=
  match s with
  | EmptyString => flush word
  | String c rest =>
      match skip with
      | S k => split_from rest k word
      | O =>
          match space_width s with
          | O => split_from rest 0 (word ++ String c EmptyString)
          | S k => flush word ++ split_from rest k EmptyString
          end
      end
  end.

(** [s.split()]: the words between runs of white space. *)
Definition split (s : string) : list string := split_from s 0 EmptyString.

(** [l[i]] for an integer [i]: a negative [i] counts from the end, and
    [None] stands for the [IndexError] of a position outside. *)
Definition index {A : Type} (l : list A) (i : Z) : option A :=
  let n := Z.of_nat (List.length l) in
  if ((0 <=? i) && (i <? n))%Z then nth_error l (Z.to_nat i)
  else if ((- n <=? i) && (i <? 0))%Z then nth_error l (Z.to_nat (n + i))
  else None.

Definition is_digit (c : ascii) : bool := ((48 <=? byte c) && (byte c <=? 57))%N.

(** The white space [int] strips from ASCII text. *)
Definition is_blank (c : ascii) : bool :=
  ((9 <=? byte c) && (byte c <=? 13) || (byte c =? 32))%N.

Fixpoint lstrip (s : string) : string :=
  match s with
  | EmptyString => EmptyString
  | String c rest => if is_blank c then lstrip rest else s
  end.

Fixpoint rstrip (s : string) : string :=
  match s with
  | EmptyString => EmptyString
  | String c rest =>
      match rstrip rest with
      | EmptyString => if is_blank c then EmptyString else String c EmptyString
      | String _ _ as kept => String c kept
      end
  end.

(** The digits of a decimal literal: an underscore may stand between two
    digits, and nowhere else. *)
Fixpoint digits_value (s : string) (value : Z) (after_digit : bool) : option Z :=
  match s with
  | EmptyString => if after_digit then Some value else None
  | String c rest =>
      if is_digit c
      then digits_value rest (10 * value + (Z.of_N (byte c) - 48))%Z true
      else if (byte c =? 95)%N && after_digit
      then digits_value rest value false
      else None
  end.

(** [int(s)] for ASCII text [s]: blanks around, an optional sign, the
    digits.  [None] stands for the [ValueError] of an invalid literal. *)
Definition int_of_str (s : string) : option Z :=
  match rstrip (lstrip s) with
  | String c rest as literal =>
      if (byte c =? 43)%N then digits_value rest 0 false
      else if (byte c =? 45)%N then option_map Z.opp (digits_value rest 0 false)
      else digits_value literal 0 false
  | EmptyString => None
  end.



Definition is_upper (c : ascii) : bool := ((65 <=? byte c) && (byte c <=? 90))%N.

Definition is_lower (c : ascii) : bool := ((97 <=? byte c) && (byte c <=? 122))%N.

End PyStr.

(** *** Exceptions of further classes *)

(** An exception of [Exn], or one of a class that only the functions
    below raise. *)
Inductive Raised : Type :=
| Plain (e : Exn)
| IndexError (msg : string)
| NotImplementedError (msg : string)
| ConnectionError (msg : string).

Definition MR (A : Type) : Type := World -> World * (Raised + A).

(** A computation of [M] among those of [MR]. *)
Definition plainly {A : Type} (c : M A) : MR A :=
  fun w =>
    match c w with
    | (w', inl e) => (w', inl (Plain e))
    | (w', inr a) => (w', inr a)
    end.

(** [try: body except Exception as e: handler]; every exception of [Exn]
    is an [Exception]. *)
Definition try_except_Exception {A : Type} (body : M A) (handler : Exn -> M A)
  : M A :=
  fun w =>
    match body w with
    | (w', inl e) => handler e w'
    | (w', inr a) => (w', inr a)
    end.

(** *** [matselect/sources/materials_project.py], continued *)

Module materials_project.

Import MaterialsProjectSource.

(** An instance of [MaterialsProjectSource]. *)
Record Source : Type := {
  api_key : option string
}.

(** The truth value of an optional text: [None] and [''] are false. *)
Definition truth (s : option string) : bool :=
  match s with
  | Some (String _ _) => true
  | _ => false
  end.

Definition api_key_required : string :=
  "Materials Project API key required. Either pass api_key parameter "
  ++ "or set MP_API_KEY environment variable. Get your key at: "
  ++ "https://materialsproject.org/dashboard".

(** [MaterialsProjectSource(api_key)], with [os.getenv] as [getenv]. *)
Definition __init__ (getenv : string -> option string) (api_key : option string)
  : Exn + Source :=
  let self_api_key := if truth api_key then api_key else getenv "MP_API_KEY" in
  if negb (truth self_api_key) then inl (ValueError api_key_required)
  else inr {| api_key := self_api_key |}.

(** The request of [check_api_status]. *)
Definition probe_params : SearchParams :=
  {| q_energy_above_hull := None;
     q_elements := None;
     q_band_gap := None;
     q_material_ids := Some ["mp-149"];
     q_fields := ["material_id"] |}.

(** The hard-coded table of [get_property_range]. *)
Definition ranges : list (string * (float * float)) :=
  [("band_gap", (0, 15)); ("density", (0.5, 25)); ("formation_energy", (-10, 2))]%float.

(** [d.get(key)] on a dict written as its items. *)
Fixpoint dict_get {V : Type} (d : list (string * V)) (key : string) : option V :=
  match d with
  | [] => None
  | (k, v) :: rest => if String.eqb key k then Some v else dict_get rest key
  end.

Definition get_property_range (property_name : string)
  : option float * option float :=
  match dict_get ranges property_name with
  | Some (lo, hi) => (Some lo, Some hi)
  | None => (None, None)
  end.

(** The ten characters of the literal in [format_formula], U+2080 to
    U+2089, each as its three bytes. *)
Definition subscripts : list string :=
  map (fun d => String (ascii_of_nat 226)
                  (String (ascii_of_nat 130)
                     (String (ascii_of_nat (128 + d)) EmptyString)))
      (seq 0 10).

(** [re.findall(r'[A-Z][a-z]?', formula)]: from left to right, every
    capital letter with the small letter behind it, if there is one.
    Bytes above 127 belong to other characters and match nothing. *)
Fixpoint get_element_list (formula : string) : list string :=
  match formula with
  | EmptyString => []
  | String c rest =>
      if PyStr.is_upper c then
        match rest with
        | String d rest' =>
            if PyStr.is_lower d
            then String c (String d EmptyString) :: get_element_list rest'
            else String c EmptyString :: get_element_list rest
        | EmptyString => [String c EmptyString]
        end
      else get_element_list rest
  end.

Section Regex.

(** [re.sub(pattern, repl, string)] of the standard library. *)
Variable re_sub : string -> string -> string -> string.

(** [re.sub(r'(\d+)', r'...'[int(r'\1')], formula)]: the arguments
    are evaluated before the call, the index of the literal first. *)
Definition format_formula (formula : string) : Raised + string :=
  match PyStr.int_of_str "\1" with
  | None => inl (Plain (ValueError "invalid literal for int() with base 10: '\\1'"))
  | Some i =>
      match PyStr.index subscripts i with
      | None => inl (IndexError "string index out of range")
      | Some repl => inr (re_sub "(\d+)" repl formula)
      end
  end.

End Regex.

Section Client.

(** [MPRester(api_key)], the client opened with a key, as the answers
    it gives; and [str(e)], the text of an exception. *)
Variable MPRester : option string -> SearchParams -> Exn + list SummaryDoc.
Variable exception_text : Exn -> string.

Definition check_api_status (self : Source) : M bool :=
  try_except_Exception
    (docs <- mpr_search (MPRester (api_key self)) probe_params ;;
     ret (0 <? List.length docs)%nat)
    (fun e =>
       print ("API check failed: " ++ exception_text e)%string ;;;
       ret false).

End Client.

Section Similar.

Variable summary_search : SearchParams -> Exn + list SummaryDoc.

(** The defaults of the keyword arguments of [get_similar_materials]. *)
Definition default_similarity_type : string := "structure".
Definition default_limit : Z := 10.

Definition get_similar_materials (material_id : string)
    (similarity_type : string) (limit : Z) : MR DataFrame :=
  fun w =>
    match get_material_by_id summary_search material_id w with
    | (w', inl e) => (w', inl (Plain e))
    | (w', inr reference) =>
        if String.eqb similarity_type "composition" then
          let elements := PyStr.split (composition (cells reference)) in
          plainly (search_by_properties summary_search (Some elements)
                     None None None (Some 0.05%float) None limit) w'
        else
          (w', inl (NotImplementedError "Structure-based similarity coming soon"))
    end.

End Similar.

End materials_project.

(** *** [matselect/core/recommender.py], continued *)

Module recommender.

Import materials_project.

(** An instance of [MatSelectAI]. *)
Record Engine : Type := {
  mp_source : Source
}.

Record TradeOffAnalysis : Type := {
  materials : DataFrame;
  objectives : list string
}.

Section Setup.

Variable getenv : string -> option string.
Variable MPRester : option string -> SearchParams -> Exn + list SummaryDoc.
Variable exception_text : Exn -> string.

Definition cannot_connect : string :=
  "Cannot connect to Materials Project API. " ++ "Please check your API key.".

Definition _verify_setup (self : Engine) : MR unit :=
  fun w =>
    match check_api_status MPRester exception_text (mp_source self) w with
    | (w', inl e) => (w', inl (Plain e))
    | (w', inr false) => (w', inl (ConnectionError cannot_connect))
    | (w', inr true) =>
        plainly (print (Py.check_mark ++ " Materials Project API connected")%string) w'
    end.

(** [MatSelectAI(mp_api_key)]. *)
Definition __init__ (mp_api_key : option string) : MR Engine :=
  fun w =>
    match materials_project.__init__ getenv mp_api_key with
    | inl e => (w, inl (Plain e))
    | inr source =>
        let self := {| mp_source := source |} in
        match _verify_setup self w with
        | (w', inl e) => (w', inl e)
        | (w', inr _) => (w', inr self)
        end
    end.

End Setup.

Section TradeOffs.

Variable summary_search : SearchParams -> Exn + list SummaryDoc.
Variable argsort : list float -> list nat.

Definition explore_tradeoffs (requirements : Requirements)
    (optimize : list string) : M TradeOffAnalysis :=
  results <- MatSelectAI.recommend summary_search argsort requirements
               (Some optimize) false 20 ;;
  ret {| materials := candidates results; objectives := optimize |}.

End TradeOffs.

Section Display.

(** [format(x, '.nf')]: a float in fixed notation with [n] decimals;
    and the text an f-string shows for a missing crystal system, which is
    'None' in a column of dtype object and 'nan' in one of pandas' string
    dtype. *)
Variable format_fixed : nat -> float -> string.
Variable missing_text : string.

(** [row[label]] for a text cell: a missing label is a [KeyError]. *)
Definition cell (df : DataFrame) (label : string) (value : string) : M string :=
  if Pandas.has_column df label then ret value else raise (KeyError label).





End Display.

End recommender.

(** ** Vocabulary of the further properties *)

(** A capital letter, alone or with one small letter behind it. *)
Definition is_symbol (e : string) : bool :=
  match e with
  | String c EmptyString => PyStr.is_upper c
  | String c (String d EmptyString) => PyStr.is_upper c && PyStr.is_lower d
  | _ => false
  end.

(** The capital letters of a text. *)
Definition capitals (s : string) : list ascii :=
  filter PyStr.is_upper (list_ascii_of_string s).

(** The symbol that starts at position [i] of a text, when a capital
    letter stands there: the letter, with the character behind it when
    that is a small letter. *)
Definition symbol_at (s : string) (i : nat) : option string :=
  match String.get i s with
  | Some c =>
      if PyStr.is_upper c
      then Some (String c (match String.get (S i) s with
                           | Some d => if PyStr.is_lower d then String d EmptyString
                                       else EmptyString
                           | None => EmptyString
                           end))
      else None
  | None => None
  end.

(** The symbols that start at the positions of a text, from left to
    right. *)
Definition symbols_by_position (s : string) : list string :=
  flat_map (fun i => match symbol_at s i with
                     | Some e => [e]
                     | None => []
                     end)
           (seq 0 (String.length s)).

(** The world after one more request. *)
Definition asked (w : World) (params : SearchParams) : World :=
  {| console := console w; requests := requests w ++ [params] |}.

(** The world after one more console line. *)
Definition printed (w : World) (line : string) : World :=
  {| console := console w ++ [line]; requests := requests w |}.

(** The length of [l[:k]] for a list of [n] items: the first [k] for a
    [k >= 0], all but the last [-k] for a negative one. *)
Definition slice_length (n : nat) (k : Z) : nat :=
  if (0 <=? k)%Z then Nat.min (Z.to_nat k) n else n - Z.to_nat (- k).

(** The request [recommend] sends for a requirement dictionary. *)
Definition recommend_request (requirements : Requirements) : SearchParams :=
  MaterialsProjectSource.search_params
    (elements requirements) (min_band_gap requirements) (max_band_gap requirements)
    (Some 0.05%float).

(** A row of a frame shows a document of the database: the cells the
    filters and the scores read are the document's. *)
Definition shows (d : SummaryDoc) (r : Row) : Prop :=
  mp_id r = material_id d /\
  density r = doc_density d /\
  energy_above_hull r = doc_energy_above_hull d /\
  band_gap r = doc_band_gap d.



(** A float that is neither null nor infinite. *)
Definition is_finite (x : float) : bool :=
  match Prim2SF x with
  | S754_zero _ | S754_finite _ _ _ => true
  | _ => false
  end.

(** 10 in binary64, the score every candidate starts from. *)
Definition SF_ten : spec_float := S754_finite false 5629499534213120 (-49).

(** Whether the record of a fetched material has the elastic keys. *)
Definition has_elastic (d : PyDict) : bool := Py.str_in "bulk_modulus" (keys d).

Module Scenario.

(** A database that answers every search with the same three documents
    and does not know any identifier. *)
Definition three_found (params : SearchParams) : Exn + list SummaryDoc :=
  match q_material_ids params with
  | Some _ => inr []
  | None => inr Sample.three_energies
  end.

(** The requirement dictionary [{'max_density': 7.0}]. *)
Definition below_seven : Requirements :=
  {| min_strength := None; max_density := Some 7%float; max_temp := None;
     max_cost_per_kg := None; min_band_gap := None; max_band_gap := None;
     corrosion_resistance := None; elements := None |}.

(** [{'max_density': 5.0, 'min_strength': 500.0, 'max_temp': 300.0,
    'max_cost_per_kg': 20.0, 'corrosion_resistance': 'high'}]. *)
Definition light_and_more : Requirements :=
  {| min_strength := Some 500%float; max_density := Some 5%float;
     max_temp := Some 300%float; max_cost_per_kg := Some 20%float;
     min_band_gap := None; max_band_gap := None;
     corrosion_resistance := Some "high"; elements := None |}.

(** Iron oxide with elastic data. *)
Definition iron_oxide : SummaryDoc :=
  {| material_id := "mp-19770";
     formula_pretty := "Fe2O3";
     doc_composition := "Fe4 O6";
     doc_energy_above_hull := 0%float;
     doc_band_gap := 2%float;
     doc_density := 5.2%float;
     formation_energy_per_atom := (-1.5)%float;
     doc_volume := 100%float;
     symmetry := None;
     theoretical := false;
     doc_is_stable := true;
     elastic := Some {| k_vrh := 200%float; g_vrh := 90%float;
                        universal_anisotropy := 0.5%float |} |}.

(** A database that knows iron oxide and silicon by identifier and
    answers every other search with iron oxide. *)
Definition oxides (params : SearchParams) : Exn + list SummaryDoc :=
  match q_material_ids params with
  | Some [id] =>
      if String.eqb id "mp-19770" then inr [iron_oxide]
      else if String.eqb id "mp-149"
      then inr [Sample.doc "mp-149" 0 1.1 2.3 true]%float
      else inr []
  | Some _ => inr []
  | None => inr [iron_oxide]
  end.

(** A database that knows silicon and fails with a time-out on "mp-500". *)
Definition flaky (params : SearchParams) : Exn + list SummaryDoc :=
  match q_material_ids params with
  | Some [id] =>
      if String.eqb id "mp-500" then inl (OtherError "timed out")
      else Sample.two_materials params
  | _ => inr []
  end.

End Scenario.

(** * Properties *)

Import Pandas MatSelectAI.

(** ** Lists *)

Section ListFacts.

Context {A : Type}.

Lemma Subsequence_refl (l : list A) : Subsequence l l.
Proof. induction l; constructor; assumption. Qed.

Lemma Subsequence_trans (l1 l2 l3 : list A) :
  Subsequence l1 l2 -> Subsequence l2 l3 -> Subsequence l1 l3.
Proof.
  intros H12 H23. revert l1 H12.
  induction H23 as [|x l2 l3 _ IH|x l2 l3 _ IH]; intros l1 H12.
  - assumption.
  - constructor. apply IH. assumption.
  - inversion H12; subst.
    + constructor. apply IH. assumption.
    + apply Subsequence_keep. apply IH. assumption.
Qed.

Lemma Subsequence_filter (f : A -> bool) (l : list A) :
  Subsequence (filter f l) l.
Proof.
  induction l as [|x l IH]; simpl.
  - constructor.
  - destruct (f x); constructor; assumption.
Qed.

Lemma filter_filter (f g : A -> bool) (l : list A) :
  filter g (filter f l) = filter (fun x => f x && g x) l.
Proof.
  induction l as [|x l IH]; simpl; [reflexivity|].
  destruct (f x); simpl; [destruct (g x)|]; rewrite IH; reflexivity.
Qed.

End ListFacts.

(** ** Floats *)

Lemma SFcompare_refl_finite s m e :
  SFcompare (S754_finite s m e) (S754_finite s m e) = Some Eq.
Proof.
  simpl. rewrite Z.compare_refl.
  change (Pos.compare_cont Eq m m) with (Pos.compare m m).
  rewrite Pos.compare_refl. destruct s; reflexivity.
Qed.

Lemma is_nan_spec (x : float) :
  PrimFloat.is_nan x = true <-> Prim2SF x = S754_nan.
Proof.
  unfold PrimFloat.is_nan. rewrite FloatAxioms.eqb_spec. unfold SFeqb.
  destruct (Prim2SF x) as [s|s| |s m e].
  - simpl. split; discriminate.
  - destruct s; simpl; split; discriminate.
  - simpl. split; reflexivity.
  - rewrite SFcompare_refl_finite. simpl. split; discriminate.
Qed.

Lemma is_zero_spec (x : float) :
  PrimFloat.eqb x 0 = true <-> exists s, Prim2SF x = S754_zero s.
Proof.
  rewrite FloatAxioms.eqb_spec. change (Prim2SF 0) with (S754_zero false). unfold SFeqb.
  destruct (Prim2SF x) as [s|s| |s m e]; simpl.
  - split; [intros _; eexists; reflexivity|reflexivity].
  - destruct s; split; try discriminate; intros [s' H]; discriminate.
  - split; try discriminate; intros [s' H]; discriminate.
  - destruct s; split; try discriminate; intros [s' H]; discriminate.
Qed.

Lemma nan_of_SF (x : float) : Prim2SF x = S754_nan -> x = PrimFloat.nan.
Proof. intros H. apply Prim2SF_inj. rewrite H. reflexivity. Qed.

Lemma infinity_of_SF (x : float) (s : bool) :
  Prim2SF x = S754_infinity s ->
  x = if s then PrimFloat.neg_infinity else PrimFloat.infinity.
Proof. intros H. apply Prim2SF_inj. rewrite H. destruct s; reflexivity. Qed.

Lemma SFleb_trans (x y z : spec_float) :
  SFleb x y = true -> SFleb y z = true -> SFleb x z = true.
Proof.
  unfold SFleb.
  destruct x as [sx|sx| |sx mx ex], y as [sy|sy| |sy my ey], z as [sz|sz| |sz mz ez];
    simpl; try discriminate; try reflexivity;
    try (destruct sx, sy, sz; simpl; (discriminate || reflexivity)).
  all: try (destruct sx, sy; simpl; (discriminate || reflexivity)).
  all: try (destruct sx, sz; simpl; (discriminate || reflexivity)).
  all: try (destruct sy, sz; simpl; (discriminate || reflexivity)).
  change (PosDef.Pos.compare_cont Eq mx my) with (Pos.compare mx my).
  change (PosDef.Pos.compare_cont Eq my mz) with (Pos.compare my mz).
  change (PosDef.Pos.compare_cont Eq mx mz) with (Pos.compare mx mz).
  destruct sx, sy, sz; try discriminate; try reflexivity;
    destruct (Z.compare_spec ex ey); try discriminate;
    destruct (Z.compare_spec ey ez); try discriminate;
    destruct (Z.compare_spec ex ez); try reflexivity; try (exfalso; lia);
    destruct (Pos.compare_spec mx my); simpl; try discriminate;
    destruct (Pos.compare_spec my mz); simpl; try discriminate;
    destruct (Pos.compare_spec mx mz); simpl; try reflexivity; intros _ _; exfalso; lia.
Qed.

Lemma leb_trans (x y z : float) :
  PrimFloat.leb x y = true -> PrimFloat.leb y z = true -> PrimFloat.leb x z = true.
Proof. rewrite !leb_spec. apply SFleb_trans. Qed.

(** ** Index arrays *)

Lemma take_app {A : Type} (l : list A) (a b : list nat) :
  take l (a ++ b) = take l a ++ take l b.
Proof. unfold take. apply flat_map_app. Qed.

Lemma take_cons {A : Type} (l : list A) (i : nat) (idx : list nat) :
  take l (i :: idx) = take l [i] ++ take l idx.
Proof. exact (take_app l [i] idx). Qed.

Lemma take_one_rev {A : Type} (l : list A) (i : nat) : rev (take l [i]) = take l [i].
Proof. unfold take. simpl. destruct (nth_error l i); reflexivity. Qed.

Lemma take_rev {A : Type} (l : list A) (idx : list nat) :
  take l (rev idx) = rev (take l idx).
Proof.
  induction idx as [|i idx IH]; [reflexivity|].
  change (rev (i :: idx)) with (rev idx ++ [i]).
  rewrite take_app, IH, (take_cons l i idx), rev_app_distr, take_one_rev.
  reflexivity.
Qed.

Lemma take_in_range {A : Type} (l : list A) (idx : list nat) (d : A) :
  Forall (fun i => i < List.length l) idx ->
  take l idx = map (fun i => nth i l d) idx.
Proof.
  induction 1 as [|i idx Hi _ IH]; [reflexivity|].
  rewrite take_cons, IH. unfold take at 1. simpl.
  rewrite (nth_error_nth' l d Hi). reflexivity.
Qed.

Lemma take_seq_from {A : Type} (l pre : list A) :
  take (pre ++ l) (seq (List.length pre) (List.length l)) = l.
Proof.
  revert pre. induction l as [|x l IH]; intros pre; [reflexivity|].
  simpl List.length. simpl seq. rewrite take_cons. unfold take at 1. simpl.
  rewrite nth_error_app2, Nat.sub_diag by lia. simpl. f_equal.
  specialize (IH (pre ++ [x])). rewrite <- app_assoc, length_app in IH. simpl in IH.
  rewrite Nat.add_1_r in IH. exact IH.
Qed.

Lemma take_seq {A : Type} (l : list A) : take l (seq 0 (List.length l)) = l.
Proof. exact (take_seq_from l []). Qed.

Lemma take_Permutation {A : Type} (l : list A) (a b : list nat) :
  Permutation a b -> Permutation (take l a) (take l b).
Proof. intros H. unfold take. apply Permutation_flat_map. exact H. Qed.

Lemma take_one {A : Type} (l : list A) (i : nat) :
  take l [i] = match nth_error l i with Some x => [x] | None => [] end.
Proof. unfold take. simpl. apply app_nil_r. Qed.

Lemma nth_error_take {A : Type} (l : list A) (j : list nat) :
  Forall (fun i => i < List.length l) j ->
  forall k, nth_error (take l j) k
            = match nth_error j k with Some i => nth_error l i | None => None end.
Proof.
  induction 1 as [|i j Hi _ IH]; intros k.
  - destruct k; reflexivity.
  - rewrite take_cons, take_one.
    destruct (nth_error l i) as [x|] eqn:Ei.
    + destruct k as [|k]; simpl; [symmetry; exact Ei|apply IH].
    + apply nth_error_None in Ei. lia.
Qed.

Lemma take_take {A : Type} (l : list A) (j a : list nat) :
  Forall (fun i => i < List.length l) j ->
  take l (take j a) = take (take l j) a.
Proof.
  intros Hj. induction a as [|k a IH]; [reflexivity|].
  rewrite (take_cons j), (take_cons (take l j)), take_app, IH. f_equal.
  rewrite (take_one j k), (take_one (take l j) k), (nth_error_take l j Hj k).
  destruct (nth_error j k) as [i|]; [apply take_one|reflexivity].
Qed.

Lemma map_take {A B : Type} (f : A -> B) (l : list A) (idx : list nat) :
map f (take l idx) = take (map f l) idx.
Proof.
induction idx as [|i idx IH]; [reflexivity|].
rewrite (take_cons l), (take_cons (map f l)), map_app, IH. f_equal.
unfold take. simpl. rewrite nth_error_map.
destruct (nth_error l i); reflexivity.
Qed.

(** Reading a list at the positions a test selects gives the items the
  test selects. *)
Lemma take_filter_seq {A : Type} (p : A -> bool) (d : A) (l pre : list A) :
take (pre ++ l)
     (filter (fun i => p (nth i (pre ++ l) d))
             (seq (List.length pre) (List.length l)))
= filter p l.
Proof.
revert pre. induction l as [|x l IH]; intros pre; [reflexivity|].
simpl List.length. simpl seq. simpl filter.
rewrite app_nth2, Nat.sub_diag by lia. simpl nth.
specialize (IH (pre ++ [x])). rewrite <- app_assoc, length_app in IH. simpl in IH.
rewrite Nat.add_1_r in IH.
destruct (p x).
- rewrite take_cons, IH. unfold take. simpl.
  rewrite nth_error_app2, Nat.sub_diag by lia. reflexivity.
- exact IH.
Qed.

(** ** Order *)

Lemma StronglySorted_app {A : Type} (R : A -> A -> Prop) (a b : list A) :
  StronglySorted R a -> StronglySorted R b ->
  (forall x y, In x a -> In y b -> R x y) ->
  StronglySorted R (a ++ b).
Proof.
  intros Ha Hb Hab. induction Ha as [|x a Ha IH Hx]; [exact Hb|].
  simpl. constructor.
  - apply IH. intros u v Hu Hv. apply Hab; [right; exact Hu|exact Hv].
  - apply Forall_app. split; [exact Hx|].
    apply Forall_forall. intros y Hy. apply Hab; [left; reflexivity|exact Hy].
Qed.

Lemma StronglySorted_rev {A : Type} (R : A -> A -> Prop) (l : list A) :
  StronglySorted R l -> StronglySorted (fun x y => R y x) (rev l).
Proof.
  induction 1 as [|x l _ IH Hx]; [constructor|].
  simpl. apply StronglySorted_app.
  - exact IH.
  - constructor; constructor.
  - intros u v Hu [<-|[]]. apply in_rev in Hu.
    rewrite Forall_forall in Hx. apply Hx. exact Hu.
Qed.

Lemma ascending_StronglySorted (l : list float) :
  Numpy.ascending l = true ->
  StronglySorted (fun x y => PrimFloat.leb x y = true) l.
Proof.
  induction l as [|x l IH]; intros H; [constructor|].
  destruct l as [|y l].
  - constructor; constructor.
  - simpl in H. apply andb_true_iff in H. destruct H as [Hxy Hrest].
    specialize (IH Hrest). constructor; [exact IH|].
    inversion IH as [|? ? _ Hy]; subst.
    constructor; [exact Hxy|].
    eapply Forall_impl; [|exact Hy]. intros z Hz. simpl in Hz.
    eapply leb_trans; eassumption.
Qed.

(** ** What an argsort result is *)

Lemma is_argsort_Permutation (v : list float) (idx : list nat) :
  Numpy.is_argsort v idx = true -> Permutation idx (seq 0 (List.length v)).
Proof.
  unfold Numpy.is_argsort. intros H.
  apply andb_true_iff in H. destruct H as [H _].
  apply andb_true_iff in H. destruct H as [Hlen Hall].
  apply Nat.eqb_eq in Hlen. symmetry.
  apply NoDup_Permutation_bis.
  - apply seq_NoDup.
  - rewrite length_seq. lia.
  - intros i Hi. rewrite forallb_forall in Hall. specialize (Hall i Hi).
    apply existsb_exists in Hall. destruct Hall as [j [Hj Hij]].
    apply Nat.eqb_eq in Hij. subst j. exact Hj.
Qed.

Lemma is_argsort_in_range (v : list float) (idx : list nat) :
  Numpy.is_argsort v idx = true -> Forall (fun i => i < List.length v) idx.
Proof.
  intros H. apply is_argsort_Permutation in H.
  apply Forall_forall. intros i Hi.
  apply (Permutation_in _ H), in_seq in Hi. lia.
Qed.

Lemma is_argsort_ascending (v : list float) (idx : list nat) :
  Numpy.is_argsort v idx = true ->
  StronglySorted (fun x y => PrimFloat.leb x y = true) (take v idx).
Proof.
  intros H. rewrite (take_in_range v idx PrimFloat.nan (is_argsort_in_range v idx H)).
  apply ascending_StronglySorted.
  unfold Numpy.is_argsort in H. apply andb_true_iff in H. destruct H as [_ H]. exact H.
Qed.

Lemma nulls_StronglySorted (l : list float) :
  StronglySorted may_follow (filter PrimFloat.is_nan l).
Proof.
  induction l as [|x l IH]; simpl; [constructor|].
  destruct (PrimFloat.is_nan x) eqn:Hx; [|exact IH].
  constructor; [exact IH|].
  apply Forall_forall. intros y Hy. apply filter_In in Hy. right. apply Hy.
Qed.

(** ** Relative order in an index array *)

Lemma comes_before_map (f : nat -> nat) (a : list nat) (x y : nat) :
  comes_before a x y -> comes_before (map f a) (f x) (f y).
Proof.
  intros [front [back [-> Hy]]]. exists (map f front), (map f back).
  split; [rewrite map_app; reflexivity|apply in_map; exact Hy].
Qed.

Lemma comes_before_rev (a : list nat) (x y : nat) :
  comes_before a x y -> comes_before (rev a) y x.
Proof.
  intros [front [back [-> Hy]]].
  apply in_split in Hy. destruct Hy as [b1 [b2 ->]].
  exists (rev b2), (rev b1 ++ x :: rev front). split.
  - rewrite rev_app_distr. simpl. rewrite rev_app_distr. simpl.
    rewrite <- !app_assoc. reflexivity.
  - apply in_or_app. right. left. reflexivity.
Qed.

Lemma comes_before_app (a b : list nat) (x y : nat) :
  comes_before a x y -> comes_before (a ++ b) x y.
Proof.
  intros [front [back [-> Hy]]]. exists front, (back ++ b). split.
  - rewrite <- app_assoc. reflexivity.
  - apply in_or_app. left. exact Hy.
Qed.

Lemma comes_before_or (a : list nat) (x y : nat) :
  In x a -> In y a -> x <> y -> comes_before a x y \/ comes_before a y x.
Proof.
  intros Hx Hy Hne. apply in_split in Hx. destruct Hx as [front [back ->]].
  apply in_app_or in Hy. destruct Hy as [Hy|[Hy|Hy]].
  - right. apply in_split in Hy. destruct Hy as [f1 [f2 ->]].
    exists f1, (f2 ++ x :: back). split.
    + rewrite <- app_assoc. reflexivity.
    + apply in_or_app. right. left. reflexivity.
  - congruence.
  - left. exists front, back. split; [reflexivity|exact Hy].
Qed.

Lemma keeps_ties_spec (v : list float) (idx : list nat) :
  Numpy.keeps_ties v idx = true ->
  forall i j, comes_before idx i j ->
    PrimFloat.eqb (Numpy.item v i) (Numpy.item v j) = true -> i < j.
Proof.
  intros H i j [front [back [-> Hj]]]. revert H.
  induction front as [|k front IH]; simpl; intros H Heq;
    apply andb_true_iff in H; destruct H as [Hhead Hrest].
  - rewrite forallb_forall in Hhead. specialize (Hhead j Hj).
    rewrite Heq in Hhead. simpl in Hhead. apply Nat.ltb_lt. exact Hhead.
  - apply IH; assumption.
Qed.

Lemma filter_seq_increasing (p : nat -> bool) (n a : nat) :
  StronglySorted lt (filter p (seq a n)).
Proof.
  revert a. induction n as [|n IH]; intros a; simpl; [constructor|].
  destruct (p a); [|apply IH].
  constructor; [apply IH|].
  apply Forall_forall. intros i Hi. apply filter_In in Hi.
  destruct Hi as [Hi _]. apply in_seq in Hi. lia.
Qed.

Lemma StronglySorted_nth {A : Type} (R : A -> A -> Prop) (l : list A) (d : A) :
  StronglySorted R l ->
  forall k1 k2, k1 < k2 -> k2 < List.length l -> R (nth k1 l d) (nth k2 l d).
Proof.
  induction 1 as [|x l _ IH Hx]; intros k1 k2 Hlt Hlen; simpl in Hlen; [lia|].
  destruct k2 as [|k2]; [lia|]. destruct k1 as [|k1]; simpl.
  - rewrite Forall_forall in Hx. apply Hx. apply nth_In. lia.
  - apply IH; lia.
Qed.

Lemma eqb_true_not_nan (x y : float) :
  PrimFloat.eqb x y = true ->
  PrimFloat.is_nan x = false /\ PrimFloat.is_nan y = false.
Proof.
  rewrite FloatAxioms.eqb_spec. unfold SFeqb. intros H.
  split; apply not_true_is_false; intros Hn; apply is_nan_spec in Hn;
    rewrite Hn in H; [|destruct (Prim2SF x)]; discriminate.
Qed.

(** ** [nargsort] *)

Section Nargsort.

Variable argsort : list float -> list nat.
Variable items : list float.

Let not_null (x : float) : bool := negb (PrimFloat.is_nan x).
Let kept : list nat :=
  filter (fun i => not_null (nth i items PrimFloat.nan)) (seq 0 (List.length items)).
Let nulls : list nat :=
  filter (fun i => PrimFloat.is_nan (nth i items PrimFloat.nan))
         (seq 0 (List.length items)).
Let input : list float := sort_input items.

Lemma kept_in_range : Forall (fun i => i < List.length items) kept.
Proof.
  apply Forall_forall. intros i Hi. apply filter_In in Hi.
  destruct Hi as [Hi _]. apply in_seq in Hi. lia.
Qed.

Lemma take_kept : take items kept = filter not_null items.
Proof. exact (take_filter_seq not_null PrimFloat.nan items []). Qed.

Lemma take_nulls : take items nulls = filter PrimFloat.is_nan items.
Proof. exact (take_filter_seq PrimFloat.is_nan PrimFloat.nan items []). Qed.

Lemma nargsort_unfold :
  nargsort_descending argsort items = rev (take (rev kept) (argsort input)) ++ nulls.
Proof. reflexivity. Qed.

Lemma length_sort_input : List.length input = List.length (rev kept).
Proof.
  unfold input, sort_input. fold not_null. rewrite <- take_kept.
  rewrite (take_in_range items kept PrimFloat.nan kept_in_range).
  rewrite !length_rev, length_map. reflexivity.
Qed.

Hypothesis argsort_ok : Numpy.is_argsort input (argsort input) = true.

Lemma nargsort_Permutation :
  Permutation (nargsort_descending argsort items) (seq 0 (List.length items)).
Proof.
  rewrite nargsort_unfold.
  assert (Hperm : Permutation (rev (take (rev kept) (argsort input))) kept).
  { rewrite <- Permutation_rev.
    rewrite (take_Permutation (rev kept) _ _ (is_argsort_Permutation _ _ argsort_ok)).
    rewrite length_sort_input, take_seq. symmetry. apply Permutation_rev. }
  rewrite Hperm. unfold kept, nulls, not_null.
  generalize (seq 0 (List.length items)). intros l.
  induction l as [|i l IH]; simpl; [constructor|].
  destruct (PrimFloat.is_nan (nth i items PrimFloat.nan)); simpl.
  - rewrite <- Permutation_middle. constructor. exact IH.
  - constructor. exact IH.
Qed.

Lemma nargsort_items :
  take items (nargsort_descending argsort items)
  = rev (take input (argsort input)) ++ filter PrimFloat.is_nan items.
Proof.
  rewrite nargsort_unfold, take_app, take_rev, take_nulls. f_equal. f_equal.
  rewrite take_take.
  - rewrite take_rev, take_kept. reflexivity.
  - apply Forall_rev. exact kept_in_range.
Qed.

Lemma nargsort_descending_sorted :
  StronglySorted may_follow (take items (nargsort_descending argsort items)).
Proof.
  rewrite nargsort_items. apply StronglySorted_app.
  - pose proof (StronglySorted_rev _ _ (is_argsort_ascending _ _ argsort_ok)) as H.
    revert H. generalize (rev (take input (argsort input))).
    induction 1 as [|x l _ IH Hx]; constructor; [exact IH|].
    eapply Forall_impl; [|exact Hx]. intros y Hy. left. exact Hy.
  - apply nulls_StronglySorted.
  - intros x y _ Hy. apply filter_In in Hy. right. apply Hy.
Qed.

Hypothesis ties_ok : Numpy.keeps_ties input (argsort input) = true.

Lemma take_rev_kept : take items (rev kept) = input.
Proof. rewrite take_rev, take_kept. reflexivity. Qed.

Lemma kept_position (i : nat) :
  i < List.length items ->
  PrimFloat.is_nan (nth i items PrimFloat.nan) = false ->
  exists k, k < List.length (rev kept) /\ nth k (rev kept) 0 = i
            /\ Numpy.item input k = nth i items PrimFloat.nan.
Proof.
  intros Hi Hn.
  assert (Hin : In i (rev kept)).
  { apply -> in_rev. apply filter_In. split; [apply in_seq; lia|].
    unfold not_null. rewrite Hn. reflexivity. }
  destruct (In_nth _ _ 0 Hin) as [k [Hk Hnth]].
  exists k. split; [exact Hk|]. split; [exact Hnth|].
  unfold Numpy.item. rewrite <- take_rev_kept.
  rewrite (take_in_range items (rev kept) PrimFloat.nan)
    by (apply Forall_rev; exact kept_in_range).
  rewrite (nth_indep _ PrimFloat.nan (nth 0 items PrimFloat.nan))
    by (rewrite length_map; exact Hk).
  rewrite (map_nth (fun i => nth i items PrimFloat.nan)), Hnth. reflexivity.
Qed.

Lemma nargsort_keeps_ties (i j : nat) :
  i < j -> j < List.length items ->
  PrimFloat.eqb (nth i items PrimFloat.nan) (nth j items PrimFloat.nan) = true ->
  comes_before (nargsort_descending argsort items) i j.
Proof.
  intros Hij Hj Heq.
  destruct (eqb_true_not_nan _ _ Heq) as [Hni Hnj].
  destruct (kept_position i ltac:(lia) Hni) as [k [Hk [Hki Hik]]].
  destruct (kept_position j Hj Hnj) as [l [Hl [Hlj Hil]]].
  assert (Hdec : StronglySorted (fun x y => y < x) (rev kept)).
  { apply StronglySorted_rev. apply filter_seq_increasing. }
  assert (Hlk : l < k).
  { destruct (Nat.lt_trichotomy l k) as [H|[H|H]]; [exact H| |].
    - subst l. lia.
    - pose proof (StronglySorted_nth _ _ 0 Hdec k l H Hl) as Hgt. simpl in Hgt. lia. }
  pose proof (is_argsort_Permutation _ _ argsort_ok) as Hperm.
  assert (Hin : forall q, q < List.length (rev kept) -> In q (argsort input)).
  { intros q Hq. apply (Permutation_in _ (Permutation_sym Hperm)).
    apply in_seq. rewrite length_sort_input. lia. }
  assert (Hbefore : comes_before (argsort input) l k).
  { destruct (comes_before_or (argsort input) l k (Hin l Hl) (Hin k Hk)) as [H|H];
      [lia|exact H|].
    exfalso.
    assert (k < l); [|lia].
    apply (keeps_ties_spec _ _ ties_ok k l H). rewrite Hik, Hil. exact Heq. }
  rewrite nargsort_unfold. apply comes_before_app. apply comes_before_rev.
  rewrite (take_in_range (rev kept) (argsort input) 0).
  - rewrite <- Hki, <- Hlj.
    apply (comes_before_map (fun q => nth q (rev kept) 0)). exact Hbefore.
  - rewrite <- length_sort_input. apply is_argsort_in_range. exact argsort_ok.
Qed.

End Nargsort.

(** * Binary64: rounding to nearest is monotone

    The operations of the stability term round the exact result; on the
    non-negative range they are monotone. *)

Section Rounding.

Local Open Scope Q_scope.

Lemma pow2_pos (k : Z) : 0 < pow2 k.
Proof. unfold pow2. apply Qpower_0_lt. reflexivity. Qed.

Lemma pow2_add (a b : Z) : pow2 (a + b) == pow2 a * pow2 b.
Proof. unfold pow2. apply Qpower_plus. discriminate. Qed.

Lemma pow2_0 : pow2 0 == 1.
Proof. reflexivity. Qed.

Lemma pow2_1 : pow2 1 == 2.
Proof. reflexivity. Qed.

Lemma pow2_succ (k : Z) : pow2 (k + 1) == 2 * pow2 k.
Proof. rewrite pow2_add, pow2_1. ring. Qed.

Lemma pow2_le (a b : Z) : (a <= b)%Z -> pow2 a <= pow2 b.
Proof. intros H. unfold pow2. apply Qpower_le_compat_l; [exact H|]. discriminate. Qed.

Lemma pow2_lt (a b : Z) : (a < b)%Z -> pow2 a < pow2 b.
Proof. intros H. unfold pow2. apply Qpower_lt_compat_l; [exact H|]. reflexivity. Qed.

Lemma pow2_lt_inv (a b : Z) : pow2 a < pow2 b -> (a < b)%Z.
Proof.
  intros H. destruct (Z.lt_ge_cases a b) as [Hlt|Hge]; [exact Hlt|].
  apply pow2_le in Hge. lra.
Qed.

Lemma pow2_Z (k : Z) : (0 <= k)%Z -> pow2 k == inject_Z (2 ^ k).
Proof. intros H. unfold pow2. rewrite Zpower_Qpower by exact H. reflexivity. Qed.

Lemma pow2_opp (k : Z) : pow2 (- k) * pow2 k == 1.
Proof. rewrite <- pow2_add. replace (- k + k)%Z with 0%Z by lia. reflexivity. Qed.

Lemma inject_xO (p : positive) : inject_Z (Zpos p~0) == 2 * inject_Z (Zpos p).
Proof. rewrite Pos2Z.inj_xO, inject_Z_mult. reflexivity. Qed.

Lemma inject_xI (p : positive) : inject_Z (Zpos p~1) == 2 * inject_Z (Zpos p) + 1.
Proof. rewrite Pos2Z.inj_xI, inject_Z_plus, inject_Z_mult. reflexivity. Qed.

Ltac cmp_to_order :=
  repeat match goal with
         | H : (_ ?= _) = Lt |- _ => apply (proj2 (Qlt_alt _ _)) in H
         | H : (_ ?= _) = Eq |- _ => apply (proj2 (Qeq_alt _ _)) in H
         | H : (_ ?= _) = Gt |- _ => apply (proj2 (Qgt_alt _ _)) in H
         | |- (_ ?= _) = Lt => apply (proj1 (Qlt_alt _ _))
         | |- (_ ?= _) = Eq => apply (proj1 (Qeq_alt _ _))
         | |- (_ ?= _) = Gt => apply (proj1 (Qgt_alt _ _))
         end.

Lemma shr_1_located (u : Q) (mrs : shr_record) :
  (0 <= shr_m mrs)%Z -> located_rec u mrs ->
  located_rec (u * (1 # 2)) (shr_1 mrs) /\ (0 <= shr_m (shr_1 mrs))%Z.
Proof.
  destruct mrs as [m r s]. unfold located_rec. simpl shr_m.
  intros Hm H. destruct m as [|p|p]; [| |lia].
  - split; [|destruct r, s; simpl; lia].
    destruct r, s; cbn [shr_1 shr_m loc_of_shr_record orb] in *; unfold located in *;
      repeat match goal with H : _ /\ _ |- _ => destruct H end;
      cmp_to_order; change (inject_Z 0) with 0 in *;
      repeat split; cmp_to_order; lra.
  - split; [|destruct p, r, s; simpl; lia].
    destruct p as [p|p|]; destruct r, s; cbn [shr_1 shr_m loc_of_shr_record orb] in *; unfold located in *;
      repeat match goal with H : _ /\ _ |- _ => destruct H end;
      cmp_to_order;
      try (pose proof (inject_xO p) as Hp0; pose proof (inject_xI p) as Hp1);
      change (inject_Z 1) with 1 in *; change (inject_Z 0) with 0 in *;
      repeat split; cmp_to_order; lra.
Qed.

Lemma located_ext (u u' : Q) (m : Z) (l : location) :
  u == u' -> located u m l -> located u' m l.
Proof.
  intros E. destruct l as [|c]; simpl.
  - intros H. rewrite <- E. exact H.
  - intros [H1 [H2 H3]]. rewrite <- E. repeat split; assumption.
Qed.

Lemma pow2_m1 : pow2 (-1) == 1 # 2.
Proof. reflexivity. Qed.

Lemma iter_shr_1_located (n : positive) :
  forall (u : Q) (mrs : shr_record),
    (0 <= shr_m mrs)%Z -> located_rec u mrs ->
    located_rec (u * pow2 (- Zpos n)) (SpecFloat.iter_pos shr_1 n mrs)
    /\ (0 <= shr_m (SpecFloat.iter_pos shr_1 n mrs))%Z.
Proof.
  induction n as [n IH|n IH|]; intros u mrs Hm H; simpl SpecFloat.iter_pos.
  - destruct (shr_1_located u mrs Hm H) as [H1 Hm1].
    destruct (IH _ _ Hm1 H1) as [H2 Hm2].
    destruct (IH _ _ Hm2 H2) as [H3 Hm3].
    split; [|exact Hm3].
    eapply located_ext; [|exact H3].
    replace (- Zpos n~1)%Z with (-1 + (- Zpos n + - Zpos n))%Z by lia.
    rewrite !pow2_add, pow2_m1. ring.
  - destruct (IH _ _ Hm H) as [H2 Hm2].
    destruct (IH _ _ Hm2 H2) as [H3 Hm3].
    split; [|exact Hm3].
    eapply located_ext; [|exact H3].
    replace (- Zpos n~0)%Z with (- Zpos n + - Zpos n)%Z by lia.
    rewrite !pow2_add. ring.
  - destruct (shr_1_located u mrs Hm H) as [H1 Hm1].
    split; [|exact Hm1].
    eapply located_ext; [|exact H1]. reflexivity.
Qed.

Lemma located_rec_of_loc (u : Q) (m : Z) (l : location) :
  located u m l -> located_rec u (shr_record_of_loc m l).
Proof. unfold located_rec. destruct l as [|[]]; simpl; auto. Qed.

(** A located value after [shr]: the same value at the new exponent. *)

Lemma shr_located (v : Q) (m e n : Z) (l : location) :
  (0 <= m)%Z -> located (v * pow2 (- e)) m l ->
  let '(mrs', e') := shr (shr_record_of_loc m l) e n in
  located_rec (v * pow2 (- e')) mrs' /\ (0 <= shr_m mrs')%Z
  /\ e' = (if (0 <? n)%Z then e + n else e)%Z.
Proof.
  intros Hm H. apply located_rec_of_loc in H.
  assert (Hm0 : (0 <= shr_m (shr_record_of_loc m l))%Z)
    by (destruct l as [|[]]; simpl; exact Hm).
  destruct n as [|n|n]; simpl; try (repeat split; assumption).
  destruct (iter_shr_1_located n _ _ Hm0 H) as [H1 Hm1].
  split; [|split; [exact Hm1|reflexivity]].
  eapply located_ext; [|exact H1].
  replace (- (e + Zpos n))%Z with (- e + - Zpos n)%Z by lia.
  rewrite pow2_add. ring.
Qed.

(** ** Digits *)

Lemma digits2_pos_bounds (p : positive) :
  (2 ^ (Zpos (digits2_pos p) - 1) <= Zpos p < 2 ^ Zpos (digits2_pos p))%Z.
Proof.
  induction p as [p IH|p IH|]; simpl digits2_pos.
  - rewrite Pos2Z.inj_succ. replace (Z.succ (Zpos (digits2_pos p)) - 1)%Z
      with (Z.succ (Zpos (digits2_pos p) - 1))%Z by lia.
    rewrite !Z.pow_succ_r by lia. lia.
  - rewrite Pos2Z.inj_succ. replace (Z.succ (Zpos (digits2_pos p)) - 1)%Z
      with (Z.succ (Zpos (digits2_pos p) - 1))%Z by lia.
    rewrite !Z.pow_succ_r by lia. lia.
  - simpl. lia.
Qed.

Lemma Zdigits2_bounds (m : Z) :
  (0 < m)%Z -> (2 ^ (Zdigits2 m - 1) <= m < 2 ^ Zdigits2 m)%Z /\ (0 < Zdigits2 m)%Z.
Proof.
  destruct m as [|p|p]; try lia. intros _. simpl Zdigits2.
  split; [apply digits2_pos_bounds|lia].
Qed.

Lemma mag_le (v1 v2 : Q) (k1 k2 : Z) :
  mag v1 k1 -> mag v2 k2 -> v1 <= v2 -> (k1 <= k2)%Z.
Proof.
  intros [H1 _] [_ H2] Hv.
  assert (H : pow2 (k1 - 1) < pow2 k2) by lra.
  apply pow2_lt_inv in H. lia.
Qed.

Lemma located_bounds (u : Q) (m : Z) (l : location) :
  located u m l -> inject_Z m <= u /\ u < inject_Z m + 1.
Proof.
  destruct l as [|c]; simpl.
  - intros H. rewrite H. lra.
  - intros [H1 [H2 _]]. lra.
Qed.

Lemma located_mag (v : Q) (m e : Z) (l : location) :
  (0 < m)%Z -> located (v * pow2 (- e)) m l -> mag v (Zdigits2 m + e).
Proof.
  intros Hm H. apply located_bounds in H. destruct H as [Hlo Hhi].
  destruct (Zdigits2_bounds m Hm) as [[Hd1 Hd2] Hd0].
  assert (Hq1 : pow2 (Zdigits2 m - 1) <= inject_Z m).
  { rewrite pow2_Z by lia. rewrite <- Zle_Qle. exact Hd1. }
  assert (Hq2 : inject_Z m + 1 <= pow2 (Zdigits2 m)).
  { rewrite pow2_Z by lia. change 1 with (inject_Z 1). rewrite <- inject_Z_plus.
    rewrite <- Zle_Qle. lia. }
  pose proof (pow2_pos e) as He. pose proof (pow2_opp e) as Hinv.
  unfold mag.
  replace (Zdigits2 m + e - 1)%Z with ((Zdigits2 m - 1) + e)%Z by lia.
  rewrite !pow2_add.
  assert (Hv : v == (v * pow2 (- e)) * pow2 e).
  { rewrite <- Qmult_assoc, Hinv. ring. }
  split.
  - rewrite Hv. apply Qmult_le_compat_r; lra.
  - rewrite Hv. apply Qmult_lt_compat_r; lra.
Qed.

(** ** What [binary_round_aux] returns *)

Lemma fexp_eq (k : Z) : fexp prec emax k = Z.max (k - 53) (-1074).
Proof. reflexivity. Qed.

Lemma shr_nonpos (mrs : shr_record) (e n : Z) : (n <= 0)%Z -> shr mrs e n = (mrs, e).
Proof. destruct n; [reflexivity|lia|reflexivity]. Qed.

Lemma round_nearest_even_bounds (m : Z) (l : location) :
  (m <= round_nearest_even m l <= m + 1)%Z.
Proof.
  unfold round_nearest_even. destruct l as [|[]]; try lia.
  destruct (Z.even m); lia.
Qed.

Lemma located_below (v : Q) (k E m : Z) (l : location) :
  mag v k -> (k - 53 <= E)%Z -> located (v * pow2 (- E)) m l -> (m < 2 ^ 53)%Z.
Proof.
  intros [_ Hv] HE H. apply located_bounds in H. destruct H as [Hlo _].
  assert (Hu : v * pow2 (- E) < pow2 53).
  { apply Qlt_le_trans with (pow2 k * pow2 (- E)).
    - apply Qmult_lt_compat_r; [apply pow2_pos|exact Hv].
    - rewrite <- pow2_add. apply pow2_le. lia. }
  assert (Hp : pow2 53 == inject_Z (2 ^ 53)) by (apply pow2_Z; lia).
  rewrite Zlt_Qlt, <- Hp. lra.
Qed.

Lemma binary_round_aux_rounds (v : Q) (m e : Z) (l : location) :
  (0 < m)%Z ->
  located (v * pow2 (- e)) m l ->
  (e <= fexp prec emax (Zdigits2 m + e))%Z ->
  (fexp prec emax (Zdigits2 m + e) + 1 <= 971)%Z ->
  rounds_to v (binary_round_aux prec emax false m e l).
Proof.
  intros Hm Hloc Hprec Hmax.
  pose proof (located_mag v m e l Hm Hloc) as Hmag.
  set (k := (Zdigits2 m + e)%Z) in *. set (E := fexp prec emax k) in *.
  unfold binary_round_aux, shr_fexp. fold k. fold E.
  pose proof (shr_located v m e (E - e) l ltac:(lia) Hloc) as Hshr.
  destruct (shr (shr_record_of_loc m l) e (E - e)) as [mrs' e'].
  destruct Hshr as [Hloc' [Hm' He']].
  assert (HeE : e' = E).
  { rewrite He'. destruct (Z.ltb_spec 0 (E - e)); lia. }
  clear He'. subst e'. unfold located_rec in Hloc'.
  set (m' := shr_m mrs') in *. set (l' := loc_of_shr_record mrs') in *.
  set (M := round_nearest_even m' l').
  assert (HEmin : (k - 53 <= E /\ -1074 <= E)%Z) by (unfold E; rewrite fexp_eq; lia).
  pose proof (located_below v k E m' l' Hmag ltac:(lia) Hloc') as Hlt.
  pose proof (round_nearest_even_bounds m' l') as HM. fold M in HM.
  exists k, m', l'. split; [exact Hmag|]. split; [exact Hloc'|]. split; [exact Hm'|].
  fold E. fold M. unfold pack.
  destruct (Z.eqb_spec M 0) as [H0|H0].
  - rewrite H0. simpl Zdigits2. rewrite shr_nonpos by (rewrite fexp_eq; lia).
    reflexivity.
  - destruct (Z.eqb_spec M (2 ^ 53)) as [H1|H1].
    + rewrite H1. change (Zdigits2 (2 ^ 53)) with 54%Z.
      replace (fexp prec emax (54 + E) - E)%Z with 1%Z by (rewrite fexp_eq; lia).
      simpl. destruct (Z.leb_spec (E + 1) 971); [reflexivity|lia].
    + assert (HMpos : (0 < M)%Z) by lia.
      destruct (Zdigits2_bounds M HMpos) as [[Hd1 _] _].
      assert (Hd : (Zdigits2 M <= 53)%Z).
      { destruct (Z.le_gt_cases (Zdigits2 M) 53) as [H|H]; [exact H|].
        assert (2 ^ 53 <= 2 ^ (Zdigits2 M - 1))%Z by (apply Z.pow_le_mono_r; lia).
        lia. }
      rewrite shr_nonpos by (rewrite fexp_eq; lia).
      simpl shr_m. destruct M as [|p|p]; try lia.
      change (emax - prec)%Z with 971%Z.
      destruct (Z.leb_spec E 971); [reflexivity|lia].
Qed.

(** ** Rounding is monotone *)

Lemma round_nearest_even_mono (u1 u2 : Q) (m1 m2 : Z) (l1 l2 : location) :
  located u1 m1 l1 -> located u2 m2 l2 -> u1 <= u2 ->
  (round_nearest_even m1 l1 <= round_nearest_even m2 l2)%Z.
Proof.
  intros H1 H2 Hu.
  pose proof (located_bounds _ _ _ H1) as [Hlo1 Hhi1].
  pose proof (located_bounds _ _ _ H2) as [Hlo2 Hhi2].
  pose proof (round_nearest_even_bounds m1 l1) as Hb1.
  pose proof (round_nearest_even_bounds m2 l2) as Hb2.
  destruct (Z.lt_trichotomy m1 m2) as [Hlt|[Heq|Hgt]].
  - lia.
  - subst m2. unfold round_nearest_even.
    destruct l1 as [|[]], l2 as [|[]]; simpl in H1, H2;
      repeat match goal with H : _ /\ _ |- _ => destruct H end;
      cmp_to_order; try (destruct (Z.even m1)); try lia; exfalso; lra.
  - exfalso. assert (H : inject_Z (m2 + 1) <= inject_Z m1) by (rewrite <- Zle_Qle; lia).
    rewrite inject_Z_plus in H. change (inject_Z 1) with 1 in H. lra.
Qed.

Lemma SFleb_finite (p1 p2 : positive) (e1 e2 : Z) :
  (e1 < e2 \/ (e1 = e2 /\ Zpos p1 <= Zpos p2))%Z ->
  SFleb (S754_finite false p1 e1) (S754_finite false p2 e2) = true.
Proof.
  unfold SFleb, SFcompare. intros [H|[H1 H2]].
  - destruct (Z.compare_spec e1 e2); try lia; reflexivity.
  - subst e2. rewrite Z.compare_refl.
    change (PosDef.Pos.compare_cont Eq p1 p2) with (Pos.compare p1 p2).
    destruct (Pos.compare_spec p1 p2); try reflexivity; lia.
Qed.

Lemma pack_le_same (M1 M2 E : Z) :
  (0 <= M1 <= M2)%Z -> (M2 <= 2 ^ 53)%Z -> SFleb (pack M1 E) (pack M2 E) = true.
Proof.
  intros H1 H2. unfold pack.
  destruct (Z.eqb_spec M1 0) as [A|A].
  - destruct (Z.eqb_spec M2 0); [reflexivity|].
    destruct (Z.eqb_spec M2 (2 ^ 53)); reflexivity.
  - destruct (Z.eqb_spec M2 0) as [B|B]; [lia|].
    destruct (Z.eqb_spec M1 (2 ^ 53)) as [C|C], (Z.eqb_spec M2 (2 ^ 53)) as [D|D];
      try lia; apply SFleb_finite.
    + right. split; lia.
    + left. lia.
    + right. split; [reflexivity|]. rewrite !Z2Pos.id by lia. lia.
Qed.

Lemma pack_le_next (M1 M2 E1 E2 : Z) :
  (0 <= M1 <= 2 ^ 53)%Z -> (2 ^ 52 <= M2 <= 2 ^ 53)%Z -> (E1 < E2)%Z ->
  SFleb (pack M1 E1) (pack M2 E2) = true.
Proof.
  intros H1 H2 HE. unfold pack.
  destruct (Z.eqb_spec M2 0) as [B|B]; [lia|].
  destruct (Z.eqb_spec M1 0) as [A|A].
  - destruct (Z.eqb_spec M2 (2 ^ 53)); reflexivity.
  - destruct (Z.eqb_spec M1 (2 ^ 53)) as [C|C], (Z.eqb_spec M2 (2 ^ 53)) as [D|D];
      apply SFleb_finite.
    + left. lia.
    + destruct (Z.eq_dec (E1 + 1) E2) as [F|F]; [right|left; lia].
      split; [exact F|]. rewrite Z2Pos.id by lia. change (Zpos (2 ^ 52)) with (2 ^ 52)%Z. lia.
    + left. lia.
    + left. lia.
Qed.

Lemma fexp_mono (k1 k2 : Z) :
  (k1 <= k2)%Z -> (fexp prec emax k1 <= fexp prec emax k2)%Z.
Proof. rewrite !fexp_eq. lia. Qed.

Theorem rounds_to_mono (v1 v2 : Q) (F1 F2 : spec_float) :
  rounds_to v1 F1 -> rounds_to v2 F2 -> v1 <= v2 -> SFleb F1 F2 = true.
Proof.
  intros (k1 & m1 & l1 & Hmag1 & Hloc1 & Hm1 & ->)
         (k2 & m2 & l2 & Hmag2 & Hloc2 & Hm2 & ->) Hv.
  pose proof (mag_le _ _ _ _ Hmag1 Hmag2 Hv) as Hk.
  pose proof (fexp_mono _ _ Hk) as HE.
  set (E1 := fexp prec emax k1) in *. set (E2 := fexp prec emax k2) in *.
  assert (HE1 : (k1 - 53 <= E1 /\ -1074 <= E1)%Z) by (unfold E1; rewrite fexp_eq; lia).
  assert (HE2 : (k2 - 53 <= E2 /\ -1074 <= E2)%Z) by (unfold E2; rewrite fexp_eq; lia).
  pose proof (located_below v1 k1 E1 m1 l1 Hmag1 ltac:(lia) Hloc1) as Hlt1.
  pose proof (located_below v2 k2 E2 m2 l2 Hmag2 ltac:(lia) Hloc2) as Hlt2.
  pose proof (round_nearest_even_bounds m1 l1) as Hb1.
  pose proof (round_nearest_even_bounds m2 l2) as Hb2.
  destruct (Z.eq_dec E1 E2) as [Heq|Hne].
  - rewrite <- Heq in *. apply pack_le_same; [|lia]. split; [lia|].
    apply (round_nearest_even_mono (v1 * pow2 (- E1)) (v2 * pow2 (- E1))); try assumption.
    apply Qmult_le_compat_r; [exact Hv|]. apply Qlt_le_weak. apply pow2_pos.
  - apply pack_le_next; [lia| |lia].
    assert (HE2' : E2 = (k2 - 53)%Z) by (unfold E2; rewrite fexp_eq; unfold E1, E2 in *;
                                          rewrite !fexp_eq in *; lia).
    split; [|lia].
    pose proof (located_bounds _ _ _ Hloc2) as [_ Hhi2].
    destruct Hmag2 as [Hlow2 _].
    assert (Hu : pow2 52 <= v2 * pow2 (- E2)).
    { apply Qle_trans with (pow2 (k2 - 1) * pow2 (- E2)).
      - rewrite <- pow2_add. apply pow2_le. lia.
      - apply Qmult_le_compat_r; [exact Hlow2|]. apply Qlt_le_weak. apply pow2_pos. }
    assert (Hp : pow2 52 == inject_Z (2 ^ 52)) by (apply pow2_Z; lia).
    assert (Hq : inject_Z (2 ^ 52) < inject_Z (m2 + 1)).
    { rewrite inject_Z_plus. change (inject_Z 1) with 1. lra. }
    rewrite <- Zlt_Qlt in Hq. lia.
Qed.

(** ** The value of a float *)

Lemma SFval_finite_pos (m : positive) (e : Z) : 0 < SFval (S754_finite false m e).
Proof.
  simpl. apply Qmult_lt_0_compat; [|apply pow2_pos].
  change 0 with (inject_Z 0). rewrite <- Zlt_Qlt. lia.
Qed.

Lemma valid_finite (s : bool) (m : positive) (e : Z) :
  valid_binary (S754_finite s m e) = true ->
  (e = fexp prec emax (Zpos (digits2_pos m) + e) /\ e <= 971)%Z.
Proof.
  unfold valid_binary, SpecFloat.valid_binary, bounded, canonical_mantissa.
  intros H. apply andb_true_iff in H. destruct H as [H1 H2].
  apply Z.eqb_eq in H1. apply Z.leb_le in H2.
  change (emax - prec)%Z with 971%Z in H2. split; [symmetry; exact H1|exact H2].
Qed.

Lemma valid_mantissa_below (s : bool) (m : positive) (e : Z) :
  valid_binary (S754_finite s m e) = true -> (Zpos m < 2 ^ 53 /\ -1074 <= e)%Z.
Proof.
  intros H. apply valid_finite in H. destruct H as [H _].
  rewrite fexp_eq in H.
  pose proof (digits2_pos_bounds m) as [_ Hhi].
  assert (Hd : (Zpos (digits2_pos m) <= 53)%Z) by lia.
  split; [|lia].
  apply Z.lt_le_trans with (2 ^ Zpos (digits2_pos m))%Z; [exact Hhi|].
  apply Z.pow_le_mono_r; lia.
Qed.

Lemma valid_mantissa_normal (s : bool) (m : positive) (e : Z) :
  valid_binary (S754_finite s m e) = true -> (-1074 < e)%Z -> (2 ^ 52 <= Zpos m)%Z.
Proof.
  intros H He. apply valid_finite in H. destruct H as [H _].
  rewrite fexp_eq in H.
  pose proof (digits2_pos_bounds m) as [Hlo _].
  assert (Hd : Zpos (digits2_pos m) = 53%Z) by lia.
  rewrite Hd in Hlo. exact Hlo.
Qed.

(** On valid non-negative finite floats the order of the floats is the
    order of their values. *)

Lemma SFleb_SFval (m1 m2 : positive) (e1 e2 : Z) :
  valid_binary (S754_finite false m1 e1) = true ->
  valid_binary (S754_finite false m2 e2) = true ->
  SFleb (S754_finite false m1 e1) (S754_finite false m2 e2) = true ->
  SFval (S754_finite false m1 e1) <= SFval (S754_finite false m2 e2).
Proof.
  intros V1 V2 H. simpl SFval.
  unfold SFleb, SFcompare in H.
  change (PosDef.Pos.compare_cont Eq m1 m2) with (Pos.compare m1 m2) in H.
  destruct (Z.compare_spec e1 e2) as [He|He|He]; [| |discriminate H].
  - subst e2. destruct (Pos.compare_spec m1 m2) as [Hm|Hm|Hm]; [| |discriminate H].
    + subst m2. apply Qle_refl.
    + apply Qmult_le_compat_r; [|apply Qlt_le_weak, pow2_pos].
      rewrite <- Zle_Qle. lia.
  - pose proof (valid_mantissa_below _ _ _ V1) as [Hb1 Hmin1].
    pose proof (valid_mantissa_normal _ _ _ V2 ltac:(lia)) as Hn2.
    apply Qle_trans with (inject_Z (2 ^ 53) * pow2 e1).
    + apply Qmult_le_compat_r; [|apply Qlt_le_weak, pow2_pos].
      rewrite <- Zle_Qle. lia.
    + apply Qle_trans with (inject_Z (2 ^ 52) * pow2 (e1 + 1)).
      * rewrite pow2_succ. change (inject_Z (2 ^ 53)) with (2 * inject_Z (2 ^ 52)).
        apply Qle_lteq. right. ring.
      * apply Qle_trans with (inject_Z (2 ^ 52) * pow2 e2).
        -- apply Qmult_le_l; [reflexivity|]. apply pow2_le. lia.
        -- apply Qmult_le_compat_r; [|apply Qlt_le_weak, pow2_pos].
           rewrite <- Zle_Qle. exact Hn2.
Qed.

(** ** Rounding, by bounds on the value *)

Lemma mag_unique (v : Q) (k1 k2 : Z) : mag v k1 -> mag v k2 -> k1 = k2.
Proof.
  intros H1 H2.
  pose proof (mag_le _ _ _ _ H1 H2 (Qle_refl v)).
  pose proof (mag_le _ _ _ _ H2 H1 (Qle_refl v)). lia.
Qed.

Lemma mag_below (v : Q) (k b : Z) : mag v k -> v < pow2 b -> (k <= b)%Z.
Proof.
  intros [H1 _] H2. assert (H : pow2 (k - 1) < pow2 b) by lra.
  apply pow2_lt_inv in H. lia.
Qed.

Lemma mag_above (v : Q) (k b : Z) : mag v k -> pow2 b <= v -> (b < k)%Z.
Proof.
  intros [_ H1] H2. assert (H : pow2 b < pow2 k) by lra.
  apply pow2_lt_inv in H. exact H.
Qed.

Lemma binary_round_aux_rounds_value (v : Q) (m e : Z) (l : location) :
  (0 < m)%Z ->
  located (v * pow2 (- e)) m l ->
  pow2 (e + 52) <= v \/ (e <= -1074)%Z ->
  v < pow2 1023 ->
  rounds_to v (binary_round_aux prec emax false m e l).
Proof.
  intros Hm Hloc Hprec Hmax.
  pose proof (located_mag v m e l Hm Hloc) as Hmag.
  pose proof (mag_below _ _ _ Hmag Hmax) as Hk.
  apply binary_round_aux_rounds; try assumption.
  - rewrite fexp_eq. destruct Hprec as [H|H]; [|lia].
    pose proof (mag_above _ _ _ Hmag H). lia.
  - rewrite fexp_eq. lia.
Qed.

Lemma iter_xO (m p : positive) : Zpos (Pos.iter xO m p) = (Zpos m * 2 ^ Zpos p)%Z.
Proof.
  induction p as [|p IH] using Pos.peano_ind.
  - simpl. lia.
  - rewrite Pos.iter_succ, Pos2Z.inj_xO, IH, Pos2Z.inj_succ, Z.pow_succ_r by lia. lia.
Qed.

Lemma shl_align_spec (m : positive) (e e' : Z) :
  (e' <= e)%Z ->
  shl_align m e e' = (Z.to_pos (Zpos m * 2 ^ (e - e')), e').
Proof.
  intros H. unfold shl_align.
  destruct (e' - e)%Z as [|p|p] eqn:Hd; try lia.
  - assert (e' = e) by lia. subst e'. rewrite Z.sub_diag, Z.pow_0_r, Z.mul_1_r. reflexivity.
  - f_equal. replace (e - e')%Z with (Zpos p) by lia.
    rewrite <- iter_xO. reflexivity.
Qed.

Lemma shl_align_above (m : positive) (e e' : Z) :
  (e <= e')%Z -> shl_align m e e' = (m, e).
Proof.
  intros H. unfold shl_align. destruct (e' - e)%Z eqn:Hd; try reflexivity. lia.
Qed.

(** [binary_round] on an exact positive value. *)

Lemma binary_round_rounds (v : Q) (n : positive) (e : Z) :
  v == inject_Z (Zpos n) * pow2 e ->
  v < pow2 1023 ->
  rounds_to v (binary_round prec emax false n e).
Proof.
  intros Hv Hmax. unfold binary_round.
  assert (Hloc : located (v * pow2 (- e)) (Zpos n) loc_Exact).
  { simpl. rewrite Hv, <- Qmult_assoc, (Qmult_comm (pow2 e)), pow2_opp. ring. }
  pose proof (located_mag v (Zpos n) e loc_Exact ltac:(lia) Hloc) as Hmag.
  simpl Zdigits2 in Hmag.
  set (k := (Zpos (digits2_pos n) + e)%Z) in *.
  pose proof (mag_below _ _ _ Hmag Hmax) as Hk.
  destruct (Z.le_gt_cases e (fexp prec emax k)) as [Hle|Hgt].
  - rewrite shl_align_above by exact Hle.
    apply (binary_round_aux_rounds v (Zpos n) e loc_Exact);
      [lia|exact Hloc|simpl Zdigits2; fold k; exact Hle
      |simpl Zdigits2; fold k; rewrite fexp_eq; lia].
  - rewrite shl_align_spec by lia.
    set (E := fexp prec emax k) in *.
    assert (Hp : (0 < Zpos n * 2 ^ (e - E))%Z).
    { apply Z.mul_pos_pos; [lia|]. apply Z.pow_pos_nonneg; lia. }
    assert (Hloc' : located (v * pow2 (- E)) (Zpos (Z.to_pos (Zpos n * 2 ^ (e - E)))) loc_Exact).
    { unfold located. rewrite Z2Pos.id by exact Hp.
      rewrite inject_Z_mult, <- pow2_Z by lia. rewrite Hv.
      replace (e - E)%Z with (e + - E)%Z by lia. rewrite pow2_add. ring. }
    pose proof (located_mag v (Zpos (Z.to_pos (Zpos n * 2 ^ (e - E)))) E loc_Exact
                  ltac:(lia) Hloc') as Hmag'.
    pose proof (mag_unique _ _ _ Hmag Hmag') as Hsame.
    apply (binary_round_aux_rounds v _ E loc_Exact);
      [lia|exact Hloc'|rewrite <- Hsame; fold E; lia
      |rewrite <- Hsame; fold E; unfold E; rewrite fexp_eq; lia].
Qed.

(** ** The three operations of the stability term *)

Lemma inject_pos_ge_1 (m : positive) : 1 <= inject_Z (Zpos m).
Proof. change 1 with (inject_Z 1). rewrite <- Zle_Qle. lia. Qed.

Lemma SFval_ge_pow2 (m : positive) (e : Z) : pow2 e <= SFval (S754_finite false m e).
Proof.
  simpl. pose proof (inject_pos_ge_1 m) as H. pose proof (pow2_pos e) as He.
  assert (H1 : 1 * pow2 e <= inject_Z (Zpos m) * pow2 e).
  { apply Qmult_le_compat_r; lra. }
  lra.
Qed.

(** Multiplication by 40. *)

Lemma SFmul_40_rounds (m : positive) (e : Z) :
  SFval (S754_finite false m e) <= 1 ->
  rounds_to (SFval (S754_finite false m e) * 40)
            (SFmul prec emax (S754_finite false m e)
                   (S754_finite false 5629499534213120 (-47))).
Proof.
  intros Hle.
  change (SFmul prec emax (S754_finite false m e)
            (S754_finite false 5629499534213120 (-47)))
    with (binary_round_aux prec emax false (Zpos (m * 5629499534213120)) (e + -47)
            loc_Exact).
  pose proof (SFval_ge_pow2 m e) as Hge. pose proof (pow2_pos e) as He.
  apply binary_round_aux_rounds_value.
  - lia.
  - unfold located. simpl SFval. rewrite Pos2Z.inj_mul, inject_Z_mult.
    replace (- (e + -47))%Z with (- e + 47)%Z by lia. rewrite pow2_add.
    assert (Hc : 40 * pow2 47 == inject_Z 5629499534213120) by reflexivity.
    transitivity (inject_Z (Zpos m) * (pow2 (- e) * pow2 e) * (40 * pow2 47)); [ring|].
    rewrite pow2_opp, Hc. ring.
  - left. replace (e + -47 + 52)%Z with (5 + e)%Z by lia. rewrite pow2_add.
    assert (Hc : pow2 5 == 32) by reflexivity. rewrite Hc. lra.
  - apply Qlt_le_trans with (pow2 6); [|apply pow2_le; lia].
    assert (Hc : pow2 6 == 64) by reflexivity. rewrite Hc. lra.
Qed.

(** Subtraction from 1. *)

Lemma valid_le_1_exponent (m : positive) (e : Z) :
  valid_binary (S754_finite false m e) = true ->
  SFval (S754_finite false m e) <= 1 -> (e <= -52)%Z.
Proof.
  intros V Hle. destruct (Z.le_gt_cases e (-52)) as [H|H]; [exact H|]. exfalso.
  pose proof (valid_mantissa_normal _ _ _ V ltac:(lia)) as Hn.
  simpl in Hle.
  assert (H1 : inject_Z (2 ^ 52) * pow2 e <= inject_Z (Zpos m) * pow2 e).
  { apply Qmult_le_compat_r; [|apply Qlt_le_weak, pow2_pos]. rewrite <- Zle_Qle. exact Hn. }
  assert (H2 : pow2 1 <= pow2 (52 + e)) by (apply pow2_le; lia).
  rewrite pow2_add in H2.
  assert (Hc : pow2 52 == inject_Z (2 ^ 52)) by reflexivity.
  assert (Hd : pow2 1 == 2) by reflexivity.
  rewrite Hc, Hd in H2. lra.
Qed.

Lemma SFsub_1_rounds (m : positive) (e : Z) :
  valid_binary (S754_finite false m e) = true ->
  SFval (S754_finite false m e) <= 1 ->
  let difference :=
    SFsub prec emax (S754_finite false 4503599627370496 (-52)) (S754_finite false m e) in
  (SFval (S754_finite false m e) == 1 /\ difference = S754_zero false) \/
  (SFval (S754_finite false m e) < 1 /\
   rounds_to (1 - SFval (S754_finite false m e)) difference).
Proof.
  intros V Hle difference.
  pose proof (valid_le_1_exponent m e V Hle) as He.
  unfold difference, SFsub. cbn [cond_Zopp].
  rewrite Z.min_r by lia.
  rewrite (shl_align_spec 4503599627370496 (-52) e) by lia.
  rewrite (shl_align_above m e e) by lia.
  cbn [fst].
  assert (Hp : (0 < 4503599627370496 * 2 ^ (-52 - e))%Z).
  { apply Z.mul_pos_pos; [lia|]. apply Z.pow_pos_nonneg; lia. }
  rewrite Z2Pos.id by exact Hp.
  set (N := (4503599627370496 * 2 ^ (-52 - e) - Zpos m)%Z).
  assert (HN : inject_Z N * pow2 e == 1 - SFval (S754_finite false m e)).
  { unfold N. simpl SFval. unfold Zminus. rewrite inject_Z_plus, inject_Z_opp, inject_Z_mult.
    rewrite <- pow2_Z by lia.
    assert (Hc : inject_Z 4503599627370496 == pow2 52) by reflexivity.
    rewrite Hc.
    assert (Hone : pow2 52 * pow2 (-52 - e) * pow2 e == 1).
    { rewrite <- !pow2_add. replace (52 + (-52 - e) + e)%Z with 0%Z by lia. reflexivity. }
    setoid_replace ((pow2 52 * pow2 (-52 - e) + - inject_Z (Zpos m)) * pow2 e)
      with (pow2 52 * pow2 (-52 - e) * pow2 e - inject_Z (Zpos m) * pow2 e) by ring.
    rewrite Hone. reflexivity. }
  pose proof (pow2_pos e) as Hpe.
  destruct N as [|n|n] eqn:EN; unfold binary_normalize.
  - left. split; [|reflexivity].
    change (inject_Z 0) with 0 in HN. lra.
  - right.
    assert (Hpos : 0 < inject_Z (Zpos n) * pow2 e).
    { apply Qmult_lt_0_compat; [|exact Hpe].
      change 0 with (inject_Z 0). rewrite <- Zlt_Qlt. lia. }
    split; [lra|].
    apply binary_round_rounds.
    + rewrite HN. reflexivity.
    + apply Qlt_le_trans with (pow2 1); [|apply pow2_le; lia].
      assert (Hd : pow2 1 == 2) by reflexivity. rewrite Hd.
      pose proof (SFval_finite_pos m e). lra.
  - exfalso.
    assert (Hneg : inject_Z (Zneg n) * pow2 e < 0).
    { setoid_replace (inject_Z (Zneg n) * pow2 e)
        with (- (inject_Z (Zpos n) * pow2 e)).
      - assert (0 < inject_Z (Zpos n) * pow2 e).
        { apply Qmult_lt_0_compat; [|exact Hpe].
          change 0 with (inject_Z 0). rewrite <- Zlt_Qlt. lia. }
        lra.
      - change (Zneg n) with (- Zpos n)%Z. rewrite inject_Z_opp. ring. }
    lra.
Qed.

(** Division by 0.1. *)

Lemma SFdiv_tenth_rounds (m : positive) (e : Z) :
  valid_binary (S754_finite false m e) = true ->
  SFval (S754_finite false m e) <= SFval (S754_finite false 7205759403792794 (-56)) ->
  rounds_to (SFval (S754_finite false m e) / SFval (S754_finite false 7205759403792794 (-56)))
            (SFdiv prec emax (S754_finite false m e)
                   (S754_finite false 7205759403792794 (-56))).
Proof.
  intros V Hle.
  pose proof (valid_mantissa_below _ _ _ V) as [_ Hemin].
  set (X := SFval (S754_finite false m e)) in *.
  assert (Hc : SFval (S754_finite false 7205759403792794 (-56))
               == 7205759403792794 # 72057594037927936) by reflexivity.
  set (v := X / SFval (S754_finite false 7205759403792794 (-56))).
  assert (Hv : v * (7205759403792794 # 72057594037927936) == X).
  { unfold v. rewrite Hc. field. }
  rewrite Hc in Hle.
  (* bounds on the operand and on the quotient *)
  destruct (Zdigits2_bounds (Zpos m) ltac:(lia)) as [[Hd1 _] Hd0].
  set (d1 := Zdigits2 (Zpos m)) in *.
  assert (HX : pow2 (d1 + e - 1) <= X).
  { unfold X. simpl SFval. replace (d1 + e - 1)%Z with ((d1 - 1) + e)%Z by lia.
    rewrite pow2_add. apply Qmult_le_compat_r; [|apply Qlt_le_weak, pow2_pos].
    rewrite pow2_Z by lia. rewrite <- Zle_Qle. exact Hd1. }
  assert (HXe : pow2 e <= X) by apply SFval_ge_pow2.
  assert (HXpos : 0 < X) by apply SFval_finite_pos.
  assert (Hv8 : 8 * X <= v) by lra.
  assert (Hvd : pow2 (d1 + e + 2) <= v).
  { replace (d1 + e + 2)%Z with (3 + (d1 + e - 1))%Z by lia. rewrite pow2_add.
    assert (H3 : pow2 3 == 8) by reflexivity. rewrite H3. lra. }
  assert (Hve : pow2 (e + 3) <= v).
  { replace (e + 3)%Z with (3 + e)%Z by lia. rewrite pow2_add.
    assert (H3 : pow2 3 == 8) by reflexivity. rewrite H3. lra. }
  assert (Hv1 : v <= 1) by lra.
  (* the core of the division *)
  unfold SFdiv, SFdiv_core_binary. fold d1.
  change (Zdigits2 (Zpos 7205759403792794)) with 53%Z.
  set (e' := Z.min (fexp prec emax (d1 + e - (53 + -56))) (e - -56)).
  set (s := (e - -56 - e')%Z).
  assert (Hs : (0 <= s)%Z) by (unfold s, e'; lia).
  assert (He' : (e' <= d1 + e - 50 \/ e' <= -1074)%Z).
  { unfold e'. rewrite fexp_eq. lia. }
  assert (Hprec : pow2 (e' + 52) <= v \/ (e' <= -1074)%Z).
  { destruct He' as [H|H]; [left|right; exact H].
    apply Qle_trans with (pow2 (d1 + e + 2)); [apply pow2_le; lia|exact Hvd]. }
  assert (Hve' : pow2 e' <= v).
  { destruct Hprec as [H|H].
    - apply Qle_trans with (pow2 (e' + 52)); [apply pow2_le; lia|exact H].
    - apply Qle_trans with (pow2 (e + 3)); [apply pow2_le; lia|exact Hve]. }
  set (m' := match s with
             | Zpos _ => Z.shiftl (Zpos m) s
             | Z0 => Zpos m
             | Zneg _ => 0%Z
             end).
  assert (Hm' : m' = (Zpos m * 2 ^ s)%Z).
  { unfold m'. destruct s as [|p|p] eqn:Es; [lia| |lia].
    rewrite Z.shiftl_mul_pow2 by lia. reflexivity. }
  pose proof (Z_div_mod m' 7205759403792794 ltac:(lia)) as Hdiv.
  destruct (Z.div_eucl m' 7205759403792794) as [q r].
  destruct Hdiv as [Hqr Hr].
  cbn [xorb].
  (* the quotient, scaled to the exponent e' *)
  set (u := v * pow2 (- e')).
  assert (Hu : u * (7205759403792794 # 1) == inject_Z m').
  { unfold u. rewrite Hm', inject_Z_mult, <- pow2_Z by exact Hs.
    unfold s.
    replace (e - -56 - e')%Z with (e + (56 + - e'))%Z by lia. rewrite !pow2_add.
    assert (H56 : pow2 56 == 72057594037927936) by reflexivity. rewrite H56.
    transitivity (v * (7205759403792794 # 72057594037927936) * 72057594037927936
                  * pow2 (- e')); [field|].
    rewrite Hv. unfold X. simpl SFval. ring. }
  assert (Hu' : u * (7205759403792794 # 1)
                == (7205759403792794 # 1) * inject_Z q + inject_Z r).
  { rewrite Hu, Hqr, inject_Z_plus, inject_Z_mult. reflexivity. }
  assert (Hr0 : 0 <= inject_Z r) by (change 0 with (inject_Z 0); rewrite <- Zle_Qle; lia).
  assert (Hr1 : inject_Z r < 7205759403792794 # 1).
  { change (7205759403792794 # 1) with (inject_Z 7205759403792794).
    rewrite <- Zlt_Qlt. lia. }
  assert (Hu1 : 1 <= u).
  { unfold u. pose proof (pow2_opp e') as Ho. pose proof (pow2_pos (- e')) as Hp.
    assert (pow2 e' * pow2 (- e') <= v * pow2 (- e')).
    { apply Qmult_le_compat_r; lra. }
    rewrite Qmult_comm in Ho. lra. }
  assert (Hq : (0 < q)%Z).
  { assert (H : inject_Z 1 < inject_Z (q + 1)).
    { rewrite inject_Z_plus. change (inject_Z 1) with 1. lra. }
    rewrite <- Zlt_Qlt in H. lia. }
  apply binary_round_aux_rounds_value.
  - exact Hq.
  - fold u. unfold new_location. change (Z.even 7205759403792794) with true.
    cbv iota. unfold new_location_even.
    destruct (Z.eqb_spec r 0) as [Hz|Hz].
    + unfold located. subst r. change (inject_Z 0) with 0 in *. lra.
    + assert (Hrpos : 0 < inject_Z r).
      { change 0 with (inject_Z 0). rewrite <- Zlt_Qlt. lia. }
      unfold located. split; [lra|]. split; [lra|].
      destruct (Z.compare_spec (2 * r) 7205759403792794) as [Hc2|Hc2|Hc2].
      * apply (proj1 (Qeq_alt _ _)).
        assert (H2 : inject_Z (2 * r) == inject_Z 7205759403792794) by (rewrite Hc2; reflexivity).
        rewrite inject_Z_mult in H2. change (inject_Z 2) with 2 in H2.
        change (inject_Z 7205759403792794) with (7205759403792794 # 1) in H2. lra.
      * apply (proj1 (Qlt_alt _ _)).
        assert (H2 : inject_Z (2 * r) < inject_Z 7205759403792794) by (rewrite <- Zlt_Qlt; exact Hc2).
        rewrite inject_Z_mult in H2. change (inject_Z 2) with 2 in H2.
        change (inject_Z 7205759403792794) with (7205759403792794 # 1) in H2. lra.
      * apply (proj1 (Qgt_alt _ _)).
        assert (H2 : inject_Z 7205759403792794 < inject_Z (2 * r)) by (rewrite <- Zlt_Qlt; exact Hc2).
        rewrite inject_Z_mult in H2. change (inject_Z 2) with 2 in H2.
        change (inject_Z 7205759403792794) with (7205759403792794 # 1) in H2. lra.
  - exact Hprec.
  - apply Qle_lt_trans with 1; [exact Hv1|]. apply (pow2_lt 0 1023). lia.
Qed.

(** ** Monotone operations on non-negative floats *)

Lemma nonneg_finite_between (x b : spec_float) :
  SFleb (S754_zero false) x = true -> SFleb x b = true -> nonneg_finite b ->
  nonneg_finite x.
Proof.
  destruct x as [s|[]| |[] m e], b as [s'|[]| |[] m' e']; simpl;
    try discriminate; try contradiction; auto.
Qed.

Lemma SFleb_SFval_nonneg (x y : spec_float) :
  valid_binary x = true -> valid_binary y = true ->
  nonneg_finite x -> nonneg_finite y ->
  SFleb x y = true -> SFval x <= SFval y.
Proof.
  intros Vx Vy Nx Ny H.
  destruct x as [s|[]| |[] m e]; try contradiction;
    destruct y as [s'|[]| |[] m' e']; try contradiction.
  - apply Qle_refl.
  - apply Qlt_le_weak. apply SFval_finite_pos.
  - discriminate H.
  - apply SFleb_SFval; assumption.
Qed.

Lemma SFleb_zero_pack (s : bool) (M E : Z) : SFleb (S754_zero s) (pack M E) = true.
Proof.
  unfold pack. destruct (M =? 0)%Z; [reflexivity|].
  destruct (M =? 2 ^ 53)%Z; reflexivity.
Qed.

Lemma SFleb_zero_rounds (s : bool) (v : Q) (F : spec_float) :
  rounds_to v F -> SFleb (S754_zero s) F = true.
Proof. intros (k & m & l & _ & _ & _ & ->). apply SFleb_zero_pack. Qed.

Lemma SFleb_zero_zero (s s' : bool) : SFleb (S754_zero s) (S754_zero s') = true.
Proof. reflexivity. Qed.

Lemma SFval_one : SFval SF_one == 1.
Proof. reflexivity. Qed.

Lemma SFdiv_tenth_mono (x y : spec_float) :
  valid_binary x = true -> valid_binary y = true ->
  nonneg_finite x -> nonneg_finite y ->
  SFleb x y = true -> SFval y <= SFval SF_tenth ->
  SFleb (SFdiv prec emax x SF_tenth) (SFdiv prec emax y SF_tenth) = true.
Proof.
  intros Vx Vy Nx Ny H Hy.
  pose proof (SFleb_SFval_nonneg x y Vx Vy Nx Ny H) as Hxy.
  destruct x as [s|[]| |[] m e]; try contradiction;
    destruct y as [s'|[]| |[] m' e']; try contradiction.
  - reflexivity.
  - change (SFdiv prec emax (S754_zero s) SF_tenth) with (S754_zero (xorb s false)).
    eapply SFleb_zero_rounds. apply SFdiv_tenth_rounds; assumption.
  - discriminate H.
  - eapply rounds_to_mono.
    + apply SFdiv_tenth_rounds; [exact Vx|]. unfold SF_tenth in Hy. lra.
    + apply SFdiv_tenth_rounds; assumption.
    + assert (Hc : SFval (S754_finite false 7205759403792794 (-56))
                   == 7205759403792794 # 72057594037927936) by reflexivity.
      rewrite Hc. unfold Qdiv.
      apply Qmult_le_compat_r; [exact Hxy|]. discriminate.
Qed.

Lemma SFmul_forty_mono (x y : spec_float) :
  valid_binary x = true -> valid_binary y = true ->
  nonneg_finite x -> nonneg_finite y ->
  SFleb x y = true -> SFval y <= 1 ->
  SFleb (SFmul prec emax x SF_forty) (SFmul prec emax y SF_forty) = true.
Proof.
  intros Vx Vy Nx Ny H Hy.
  pose proof (SFleb_SFval_nonneg x y Vx Vy Nx Ny H) as Hxy.
  destruct x as [s|[]| |[] m e]; try contradiction;
    destruct y as [s'|[]| |[] m' e']; try contradiction.
  - reflexivity.
  - change (SFmul prec emax (S754_zero s) SF_forty) with (S754_zero (xorb s false)).
    eapply SFleb_zero_rounds. apply SFmul_40_rounds; assumption.
  - discriminate H.
  - eapply rounds_to_mono.
    + apply SFmul_40_rounds. lra.
    + apply SFmul_40_rounds. exact Hy.
    + lra.
Qed.

Lemma rounds_to_one : rounds_to 1 SF_one.
Proof.
  exists 1%Z, (2 ^ 52)%Z, loc_Exact. split; [|split; [|split]].
  - unfold mag. split; [apply Qle_refl|reflexivity].
  - reflexivity.
  - lia.
  - reflexivity.
Qed.

Lemma SFsub_one_mono (x y : spec_float) :
  valid_binary x = true -> valid_binary y = true ->
  nonneg_finite x -> nonneg_finite y ->
  SFleb x y = true -> SFval y <= 1 ->
  SFleb (SFsub prec emax SF_one y) (SFsub prec emax SF_one x) = true.
Proof.
  intros Vx Vy Nx Ny H Hy.
  pose proof (SFleb_SFval_nonneg x y Vx Vy Nx Ny H) as Hxy.
  destruct x as [s|[]| |[] m e]; try contradiction;
    destruct y as [s'|[]| |[] m' e']; try contradiction.
  - reflexivity.
  - change (SFsub prec emax SF_one (S754_zero s)) with SF_one.
    destruct (SFsub_1_rounds m' e' Vy Hy) as [[_ Hz]|[Hlt Hr]];
      unfold SF_one in *.
    + rewrite Hz. reflexivity.
    + eapply rounds_to_mono; [exact Hr|apply rounds_to_one|].
      pose proof (SFval_finite_pos m' e'). lra.
  - discriminate H.
  - assert (Hx : SFval (S754_finite false m e) <= 1) by lra.
    destruct (SFsub_1_rounds m' e' Vy Hy) as [[Hy1 Hz]|[Hlt Hr]];
      destruct (SFsub_1_rounds m e Vx Hx) as [[Hx1 Hz']|[Hlt' Hr']];
      unfold SF_one in *.
    + rewrite Hz, Hz'. reflexivity.
    + rewrite Hz. eapply SFleb_zero_rounds. exact Hr'.
    + exfalso. lra.
    + eapply rounds_to_mono; [exact Hr|exact Hr'|lra].
Qed.

(** ** The same on primitive floats *)

Lemma prim_nonneg_finite (x b : float) :
  PrimFloat.leb 0 x = true -> PrimFloat.leb x b = true ->
  nonneg_finite (Prim2SF b) -> nonneg_finite (Prim2SF x).
Proof.
  rewrite !leb_spec. change (Prim2SF 0) with (S754_zero false).
  apply nonneg_finite_between.
Qed.

Lemma prim_SFval_le (x b : float) :
  PrimFloat.leb 0 x = true -> PrimFloat.leb x b = true ->
  nonneg_finite (Prim2SF b) -> SFval (Prim2SF x) <= SFval (Prim2SF b).
Proof.
  intros H0 Hb Nb.
  pose proof (prim_nonneg_finite x b H0 Hb Nb) as Nx.
  rewrite leb_spec in Hb.
  apply SFleb_SFval_nonneg; try assumption; apply Prim2SF_valid.
Qed.

Lemma div_tenth_mono (x y : float) :
  PrimFloat.leb 0 x = true -> PrimFloat.leb x y = true ->
  PrimFloat.leb y 0.1 = true ->
  PrimFloat.leb (x / 0.1) (y / 0.1) = true.
Proof.
  intros H0 Hxy Hy.
  assert (H0y : PrimFloat.leb 0 y = true) by (eapply leb_trans; eassumption).
  assert (Nc : nonneg_finite (Prim2SF 0.1)) by exact I.
  pose proof (prim_nonneg_finite y 0.1 H0y Hy Nc) as Ny.
  pose proof (prim_nonneg_finite x y H0 Hxy Ny) as Nx.
  pose proof (prim_SFval_le y 0.1 H0y Hy Nc) as Hval.
  rewrite leb_spec, !div_spec. rewrite leb_spec in Hxy.
  change (Prim2SF 0.1) with SF_tenth.
  apply SFdiv_tenth_mono; try assumption; apply Prim2SF_valid.
Qed.

Lemma sub_one_mono (x y : float) :
  PrimFloat.leb 0 x = true -> PrimFloat.leb x y = true ->
  PrimFloat.leb y 1 = true ->
  PrimFloat.leb (1 - y) (1 - x) = true.
Proof.
  intros H0 Hxy Hy.
  assert (H0y : PrimFloat.leb 0 y = true) by (eapply leb_trans; eassumption).
  assert (Nc : nonneg_finite (Prim2SF 1)) by exact I.
  pose proof (prim_nonneg_finite y 1 H0y Hy Nc) as Ny.
  pose proof (prim_nonneg_finite x y H0 Hxy Ny) as Nx.
  pose proof (prim_SFval_le y 1 H0y Hy Nc) as Hval.
  change (Prim2SF 1) with SF_one in Hval. rewrite SFval_one in Hval.
  rewrite leb_spec, !sub_spec. rewrite leb_spec in Hxy.
  change (Prim2SF 1) with SF_one.
  apply SFsub_one_mono; try assumption; apply Prim2SF_valid.
Qed.

Lemma mul_forty_mono (x y : float) :
  PrimFloat.leb 0 x = true -> PrimFloat.leb x y = true ->
  PrimFloat.leb y 1 = true ->
  PrimFloat.leb (x * 40) (y * 40) = true.
Proof.
  intros H0 Hxy Hy.
  assert (H0y : PrimFloat.leb 0 y = true) by (eapply leb_trans; eassumption).
  assert (Nc : nonneg_finite (Prim2SF 1)) by exact I.
  pose proof (prim_nonneg_finite y 1 H0y Hy Nc) as Ny.
  pose proof (prim_nonneg_finite x y H0 Hxy Ny) as Nx.
  pose proof (prim_SFval_le y 1 H0y Hy Nc) as Hval.
  change (Prim2SF 1) with SF_one in Hval. rewrite SFval_one in Hval.
  rewrite leb_spec, !mul_spec. rewrite leb_spec in Hxy.
  change (Prim2SF 40) with SF_forty.
  apply SFmul_forty_mono; try assumption; apply Prim2SF_valid.
Qed.

End Rounding.

(** ** The constraint filter *)

Lemma _apply_filters_rows (candidates : DataFrame) (requirements : Requirements)
    (filtered : DataFrame) :
  _apply_filters candidates requirements = inr filtered ->
  columns filtered = columns candidates /\
  rows filtered = filter (passes requirements) (rows candidates).
Proof.
  unfold _apply_filters, and_then, passes, select, has_column.
  destruct (max_density requirements) as [limit|].
  - destruct (Py.str_in "density" (columns candidates)); [|discriminate].
    simpl. destruct (Py.str_in "energy_above_hull" (columns candidates)); [|discriminate].
    intros H. injection H as <-. simpl. split; [reflexivity|apply filter_filter].
  - destruct (Py.str_in "energy_above_hull" (columns candidates)); [|discriminate].
    intros H. injection H as <-. simpl. split; reflexivity.
Qed.

Lemma _apply_filters_returns (candidates : DataFrame) (requirements : Requirements) :
  has_column candidates "energy_above_hull" = true ->
  match max_density requirements with
  | Some _ => has_column candidates "density"
  | None => true
  end = true ->
  exists filtered, _apply_filters candidates requirements = inr filtered.
Proof.
  unfold _apply_filters, and_then, select, has_column. intros He Hd.
  destruct (max_density requirements) as [limit|]; [rewrite Hd|]; simpl;
    rewrite He; eexists; reflexivity.
Qed.

(** C2. On a frame that has the columns the filter reads, [_apply_filters]
    returns a frame whose rows are a subsequence of the input rows in the
    original order; every row kept has [energy_above_hull <= 0.1] and, when
    [max_density] is given, [density <= max_density]; every input row that
    is not kept fails one of these comparisons. *)
Theorem C2_apply_filters_subsequence_sound_complete
    (candidates : DataFrame) (requirements : Requirements) :
  has_column candidates "energy_above_hull" = true ->
  match max_density requirements with
  | Some _ => has_column candidates "density"
  | None => true
  end = true ->
  exists filtered,
    _apply_filters candidates requirements = inr filtered /\
    Subsequence (rows filtered) (rows candidates) /\
    (forall r, In r (rows filtered) ->
       PrimFloat.leb (energy_above_hull r) 0.1%float = true /\
       forall limit, max_density requirements = Some limit ->
                     PrimFloat.leb (density r) limit = true) /\
    (forall r, In r (rows candidates) -> ~ In r (rows filtered) ->
       PrimFloat.leb (energy_above_hull r) 0.1%float = false \/
       exists limit, max_density requirements = Some limit /\
                     PrimFloat.leb (density r) limit = false).
Proof.
  intros He Hd.
  destruct (_apply_filters_returns candidates requirements He Hd) as [filtered Hrun].
  exists filtered. split; [assumption|].
  destruct (_apply_filters_rows _ _ _ Hrun) as [_ Hrows]. rewrite Hrows.
  split; [apply Subsequence_filter|]. split.
  - intros r Hin. apply filter_In in Hin. destruct Hin as [_ Hpass].
    unfold passes in Hpass. apply andb_true_iff in Hpass. destruct Hpass as [Hden Hen].
    split; [assumption|]. intros limit Hlim. rewrite Hlim in Hden. assumption.
  - intros r Hin Hout.
    destruct (passes requirements r) eqn:Hpass.
    + exfalso. apply Hout. apply filter_In. split; assumption.
    + unfold passes in Hpass. apply andb_false_iff in Hpass.
      destruct Hpass as [Hden|Hen]; [right|left; assumption].
      destruct (max_density requirements) as [limit|]; [|discriminate].
      exists limit. split; [reflexivity|assumption].
Qed.

Lemma C2_apply_filters_witness :
  exists filtered,
    _apply_filters Sample.three_densities Sample.light_only = inr filtered /\
    Subsequence (rows filtered) (rows Sample.three_densities) /\
    (forall r, In r (rows filtered) ->
       PrimFloat.leb (energy_above_hull r) 0.1%float = true /\
       forall limit, max_density Sample.light_only = Some limit ->
                     PrimFloat.leb (density r) limit = true) /\
    (forall r, In r (rows Sample.three_densities) -> ~ In r (rows filtered) ->
       PrimFloat.leb (energy_above_hull r) 0.1%float = false \/
       exists limit, max_density Sample.light_only = Some limit /\
                     PrimFloat.leb (density r) limit = false).
Proof.
  apply (C2_apply_filters_subsequence_sound_complete
           Sample.three_densities Sample.light_only); reflexivity.
Defined.

(** The scenario of the specification: densities 3.0, 6.0 and 4.5 under
    [max_density = 5.0] keep the first and the third record. *)
Example apply_filters_three_densities :
  option_map (fun df => map mp_id (rows df))
    (match _apply_filters Sample.three_densities Sample.light_only with
     | inr df => Some df
     | inl _ => None
     end) = Some ["mp-1"; "mp-3"].
Proof. reflexivity. Qed.

(** ** The explainer *)

(** The rationale of a row, by the three tests of the loop. *)
Lemma reason_table (materials : DataFrame) (row : Row) :
  reason materials row =
    match has_column materials "is_stable" && is_stable row,
          has_column materials "density" && PrimFloat.ltb (density row) 5%float,
          has_column materials "energy_above_hull"
            && PrimFloat.ltb (energy_above_hull row) 0.02%float
    with
    | true, true, true => "Thermodynamically stable; Lightweight; Highly stable"
    | true, true, false => "Thermodynamically stable; Lightweight"
    | true, false, true => "Thermodynamically stable; Highly stable"
    | true, false, false => "Thermodynamically stable"
    | false, true, true => "Lightweight; Highly stable"
    | false, true, false => "Lightweight"
    | false, false, true => "Highly stable"
    | false, false, false => "Meets requirements"
    end.
Proof.
  unfold reason.
  destruct (has_column materials "is_stable"), (is_stable row),
    (has_column materials "density"), (has_column materials "energy_above_hull");
    simpl;
    try (destruct (PrimFloat.ltb (density row) 5%float));
    try (destruct (PrimFloat.ltb (energy_above_hull row) 0.02%float));
    reflexivity.
Qed.

Lemma _enrich_materials_mp_id (materials : DataFrame) :
  map mp_id (rows (_enrich_materials materials)) = map mp_id (rows materials).
Proof. unfold _enrich_materials. simpl. rewrite map_map. reflexivity. Qed.

Lemma _enrich_materials_match_score (materials : DataFrame) :
  map match_score (rows (_enrich_materials materials))
  = map match_score (rows materials).
Proof. unfold _enrich_materials. simpl. rewrite map_map. reflexivity. Qed.

Lemma with_match_score_mp_id (materials : DataFrame) (requirements : Requirements)
    (optimize : option (list string)) :
  map mp_id (rows (with_match_score materials requirements optimize))
  = map mp_id (rows materials).
Proof. unfold with_match_score. simpl. rewrite map_map. reflexivity. Qed.

Lemma head_rows (df : DataFrame) (n : Z) :
  rows (head df n) = Py.slice_to (rows df) n.
Proof. reflexivity. Qed.

(** ** The ranker *)

Lemma _score_materials_rows (argsort : list float -> list nat)
    (materials : DataFrame) (requirements : Requirements)
    (optimize : option (list string)) :
  let scored := with_match_score materials requirements optimize in
  rows (_score_materials argsort materials requirements optimize)
  = take (rows scored)
         (nargsort_descending argsort (map match_score (rows scored))).
Proof. reflexivity. Qed.

(** C1, as amended.  Given a routine that argsorts the score column, the
    ranker returns the scored candidates in descending order of
    [match_score] (null scores last), cut to the first [top_n] for a
    [top_n >= 0], and all of them when there are no more than [top_n].
    Candidates with equal scores keep their order from before the sort
    when the routine keeps ties in place; the default sorting kind does not
    promise that, and numpy's quicksort does it for short frames only. *)
Theorem C1_ranker_descending_truncated
    (argsort : list float -> list nat) (materials : DataFrame)
    (requirements : Requirements) (optimize : option (list string)) (top_n : Z) :
  let scored := with_match_score materials requirements optimize in
  let keys := map match_score (rows scored) in
  let ranked := _score_materials argsort materials requirements optimize in
  let top := head ranked top_n in
  Numpy.is_argsort (sort_input keys) (argsort (sort_input keys)) = true ->
  (0 <= top_n)%Z ->
  exists indexer,
    rows ranked = take (rows scored) indexer /\
    Permutation indexer (seq 0 (List.length (rows scored))) /\
    Permutation (rows ranked) (rows scored) /\
    StronglySorted may_follow (map match_score (rows ranked)) /\
    rows top = firstn (Z.to_nat top_n) (rows ranked) /\
    List.length (rows top) = Nat.min (Z.to_nat top_n) (List.length (rows materials)) /\
    (List.length (rows materials) <= Z.to_nat top_n -> rows top = rows ranked) /\
    (Numpy.keeps_ties (sort_input keys) (argsort (sort_input keys)) = true ->
     forall i j, i < j -> j < List.length (rows scored) ->
       PrimFloat.eqb (nth i keys PrimFloat.nan) (nth j keys PrimFloat.nan) = true ->
       comes_before indexer i j).
Proof.
  intros scored keys ranked top Hsort Htop.
  exists (nargsort_descending argsort keys).
  assert (Hlen : List.length keys = List.length (rows scored))
    by (unfold keys; apply length_map).
  assert (Hperm : Permutation (nargsort_descending argsort keys)
                              (seq 0 (List.length (rows scored)))).
  { rewrite <- Hlen. apply nargsort_Permutation. exact Hsort. }
  assert (Hrows : Permutation (rows ranked) (rows scored)).
  { unfold ranked. rewrite _score_materials_rows. fold scored. fold keys.
    rewrite (take_Permutation (rows scored) _ _ Hperm). rewrite take_seq. reflexivity. }
  assert (Hcut : rows top = firstn (Z.to_nat top_n) (rows ranked)).
  { unfold top, head, Py.slice_to. simpl.
    destruct (Z.leb_spec 0 top_n); [reflexivity|lia]. }
  assert (Hsame : List.length (rows ranked) = List.length (rows materials)).
  { rewrite (Permutation_length Hrows). unfold scored, with_match_score. simpl.
    apply length_map. }
  split; [reflexivity|]. split; [exact Hperm|]. split; [exact Hrows|]. split.
  { unfold ranked. rewrite _score_materials_rows. fold scored. fold keys.
    rewrite map_take. fold keys. apply nargsort_descending_sorted. exact Hsort. }
  split; [exact Hcut|]. split.
  { rewrite Hcut, length_firstn, Hsame. reflexivity. }
  split.
  { intros Hfew. rewrite Hcut. apply firstn_all2. rewrite Hsame. exact Hfew. }
  intros Hties i j Hij Hj Heq.
  apply nargsort_keeps_ties; try assumption. rewrite Hlen. exact Hj.
Qed.

Lemma C1_ranker_witness :
  exists indexer,
    rows (_score_materials Numpy.aquicksort Sample.three_densities
            Sample.no_requirements None)
    = take (rows (with_match_score Sample.three_densities Sample.no_requirements None))
           indexer /\
    map mp_id
      (rows (head (_score_materials Numpy.aquicksort Sample.three_densities
                     Sample.no_requirements None) MatSelectAI.default_top_n))
    = ["mp-1"; "mp-2"; "mp-3"].
Proof.
  destruct (C1_ranker_descending_truncated Numpy.aquicksort
              Sample.three_densities Sample.no_requirements None MatSelectAI.default_top_n)
    as [indexer [Hrows _]].
  - vm_compute. reflexivity.
  - vm_compute. discriminate.
  - exists indexer. split; [exact Hrows|]. vm_compute. reflexivity.
Defined.

(** C1, as stated, fails: the quicksort that [sort_values] runs by
    default keeps ties in place only while a range has at most 17 items.
    Of twenty candidates whose scores go round 50, 30 and 10, and with
    [top_n] 20, the claim asks for the seven candidates with score 50 in
    their order, then the seven with score 30 and the six with score 10,
    each group in its order.  The ranker returns the scores in descending
    order, and not the candidates in this order: with numpy's generic
    routine mp-19 comes second. *)
Lemma C1_equal_scores_change_places :
  let scored := with_match_score Sample.twenty Sample.no_requirements None in
  let keys := map match_score (rows scored) in
  let ranked :=
    _score_materials Numpy.aquicksort Sample.twenty Sample.no_requirements None in
  Numpy.is_argsort (sort_input keys) (Numpy.aquicksort (sort_input keys)) = true /\
  map mp_id (rows scored)
  = ["mp-1"; "mp-2"; "mp-3"; "mp-4"; "mp-5"; "mp-6"; "mp-7"; "mp-8"; "mp-9"; "mp-10";
     "mp-11"; "mp-12"; "mp-13"; "mp-14"; "mp-15"; "mp-16"; "mp-17"; "mp-18"; "mp-19";
     "mp-20"] /\
  keys = [50; 30; 10; 50; 30; 10; 50; 30; 10; 50; 30; 10; 50; 30; 10; 50; 30; 10;
          50; 30]%float /\
  map match_score (rows (head ranked 20))
  = [50; 50; 50; 50; 50; 50; 50; 30; 30; 30; 30; 30; 30; 30; 10; 10; 10; 10; 10;
     10]%float /\
  map mp_id (rows (head ranked 20))
  <> ["mp-1"; "mp-4"; "mp-7"; "mp-10"; "mp-13"; "mp-16"; "mp-19";
      "mp-2"; "mp-5"; "mp-8"; "mp-11"; "mp-14"; "mp-17"; "mp-20";
      "mp-3"; "mp-6"; "mp-9"; "mp-12"; "mp-15"; "mp-18"].
Proof. vm_compute. repeat split; try reflexivity. discriminate. Qed.

(** ** The stability term *)

Lemma leb_true_not_nan (x y : float) :
  PrimFloat.leb x y = true ->
  PrimFloat.is_nan x = false /\ PrimFloat.is_nan y = false.
Proof.
  rewrite leb_spec. unfold SFleb. intros H.
  split; apply not_true_is_false; intros Hn; apply is_nan_spec in Hn;
    rewrite Hn in H; [|destruct (Prim2SF x)]; discriminate.
Qed.

(** Without nulls, [x <= y] fails exactly when [y < x]. *)
Lemma SFleb_SFltb (x y : spec_float) :
  x <> S754_nan -> y <> S754_nan -> negb (SFleb x y) = SFltb y x.
Proof.
  intros Hx Hy. unfold SFleb, SFltb.
  destruct x as [sx|sx| |sx mx ex], y as [sy|sy| |sy my ey];
    try congruence; try (destruct sx; reflexivity); try (destruct sy; reflexivity);
    try (destruct sx, sy; reflexivity).
  unfold SFcompare.
  change (PosDef.Pos.compare_cont Eq mx my) with (Pos.compare mx my).
  change (PosDef.Pos.compare_cont Eq my mx) with (Pos.compare my mx).
  rewrite (Z.compare_antisym ex ey), (Pos.compare_antisym mx my).
  destruct sx, sy; try reflexivity;
    destruct (ex ?= ey)%Z; try reflexivity;
    destruct (mx ?= my)%positive; reflexivity.
Qed.

Lemma not_nan_SF (x : float) : PrimFloat.is_nan x = false -> Prim2SF x <> S754_nan.
Proof.
  intros Hn E. assert (PrimFloat.is_nan x = true) by (apply is_nan_spec; exact E).
  congruence.
Qed.

(** Below zero is the same as not at least zero, nulls apart. *)
Lemma not_geb_zero (x : float) :
  PrimFloat.is_nan x = false ->
  negb (PyFloat.geb x 0) = PrimFloat.ltb x 0.
Proof.
  intros Hn. unfold PyFloat.geb. rewrite leb_spec, ltb_spec.
  apply SFleb_SFltb; [discriminate|apply not_nan_SF; exact Hn].
Qed.

(** Above one is the same as not at most one, nulls apart. *)
Lemma not_leb_one (x : float) :
  PrimFloat.is_nan x = false ->
  negb (PrimFloat.leb x 1) = PrimFloat.ltb 1 x.
Proof.
  intros Hn. rewrite leb_spec, ltb_spec.
  apply SFleb_SFltb; [apply not_nan_SF; exact Hn|discriminate].
Qed.

(** pandas' [clip(0, 1)] is the clip of the specification. *)
Lemma clip01_spec_clip (x : float) : PyFloat.clip01 x = spec_clip x 0 1.
Proof.
  unfold PyFloat.clip01, spec_clip.
  destruct (PrimFloat.is_nan x) eqn:Hn.
  - apply is_nan_spec in Hn. rewrite !ltb_spec, Hn. reflexivity.
  - rewrite (not_geb_zero x Hn), (not_leb_one x Hn). reflexivity.
Qed.

Lemma clip01_between (t : float) :
  PrimFloat.leb 0 t = true -> PrimFloat.leb t 1 = true -> PyFloat.clip01 t = t.
Proof.
  intros H0 H1. unfold PyFloat.clip01, PyFloat.geb.
  destruct (leb_true_not_nan _ _ H0) as [_ Hn]. rewrite Hn, H0, H1. reflexivity.
Qed.

(** The term falls as the energy above hull rises from 0 to 0.1. *)
Lemma stability_term_falls (e1 e2 : float) :
  PrimFloat.leb 0 e1 = true -> PrimFloat.leb e1 e2 = true ->
  PrimFloat.leb e2 0.1 = true ->
  PrimFloat.leb (PyFloat.clip01 (1 - e2 / 0.1) * 40) (PyFloat.clip01 (1 - e1 / 0.1) * 40)
  = true.
Proof.
  intros H0 H12 H2.
  assert (H02 : PrimFloat.leb 0 e2 = true) by (eapply leb_trans; eassumption).
  assert (H00 : PrimFloat.leb 0 0 = true) by reflexivity.
  assert (Hcc : PrimFloat.leb 0.1 0.1 = true) by reflexivity.
  assert (H0c : PrimFloat.leb 0 0.1 = true) by reflexivity.
  (* the quotients lie between 0 and 1, in order *)
  pose proof (div_tenth_mono e1 e2 H0 H12 H2) as Hd.
  pose proof (div_tenth_mono 0 e1 H00 H0 ltac:(eapply leb_trans; eassumption)) as Hd0.
  pose proof (div_tenth_mono e2 0.1 H02 H2 Hcc) as Hd1.
  change (0 / 0.1)%float with 0%float in Hd0.
  change (0.1 / 0.1)%float with 1%float in Hd1.
  set (d1 := (e1 / 0.1)%float) in *. set (d2 := (e2 / 0.1)%float) in *.
  assert (Hd02 : PrimFloat.leb 0 d2 = true) by (eapply leb_trans; eassumption).
  assert (Hd11 : PrimFloat.leb d1 1 = true) by (eapply leb_trans; eassumption).
  assert (H11 : PrimFloat.leb 1 1 = true) by reflexivity.
  assert (H01 : PrimFloat.leb 0 1 = true) by reflexivity.
  (* so do the differences from 1, in reverse order *)
  pose proof (sub_one_mono d1 d2 Hd0 Hd Hd1) as Ht.
  pose proof (sub_one_mono d2 1 Hd02 Hd1 H11) as Ht0.
  pose proof (sub_one_mono 0 d1 H00 Hd0 Hd11) as Ht1.
  change (1 - 1)%float with 0%float in Ht0.
  change (1 - 0)%float with 1%float in Ht1.
  set (t1 := (1 - d1)%float) in *. set (t2 := (1 - d2)%float) in *.
  assert (Ht01 : PrimFloat.leb 0 t1 = true) by (eapply leb_trans; eassumption).
  assert (Ht21 : PrimFloat.leb t2 1 = true) by (eapply leb_trans; eassumption).
  rewrite (clip01_between t1 Ht01 Ht1), (clip01_between t2 Ht0 Ht21).
  exact (mul_forty_mono t2 t1 Ht0 Ht Ht1).
Qed.

(** C4.  The stability term the scoring adds to the score of a candidate
    is [clip(1 - energy_above_hull / 0.1, 0, 1) * 40]: whatever the
    objectives and the requirements, the score of a row of a frame with
    the energy column is the weight term, when there is one, plus this
    term, plus the band-gap term, when there is one, plus 10.  Over
    energies above hull from 0 to 0.1 the term does not rise when the
    energy rises; it is 40 at energy 0 and 0 at energy 0.1.  All of it in
    binary64 arithmetic. *)
Theorem C4_stability_term_clipped_monotone :
  (forall (scored : DataFrame) (requirements : Requirements)
          (optimize : option (list string)) (r : Row),
      has_column scored "energy_above_hull" = true ->
      scores scored requirements optimize r
      = let s :=
          if optimizes_weight optimize && has_column scored "density"
          then (0 + density_normalized scored r * 30)%float
          else 0%float in
        let s := (s + spec_stability_term (energy_above_hull r))%float in
        let s :=
          match min_band_gap requirements with
          | Some target =>
              if has_column scored "band_gap"
              then (s + gap_score scored target r * 30)%float
              else s
          | None => s
          end in
        (s + 10)%float) /\
  (forall e1 e2 : float,
      PrimFloat.leb 0 e1 = true ->
      PrimFloat.leb e1 e2 = true ->
      PrimFloat.leb e2 0.1 = true ->
      PrimFloat.leb (spec_stability_term e2) (spec_stability_term e1) = true) /\
  spec_stability_term 0 = 40%float /\
  spec_stability_term 0.1 = 0%float.
Proof.
  split; [|split; [|split]].
  - intros scored requirements optimize r Hcol. unfold scores. rewrite Hcol.
    unfold stability_score, spec_stability_term. rewrite clip01_spec_clip.
    reflexivity.
  - intros e1 e2 H0 H12 H2. unfold spec_stability_term.
    rewrite <- !clip01_spec_clip. apply stability_term_falls; assumption.
  - reflexivity.
  - reflexivity.
Qed.

Lemma C4_stability_term_witness :
  PrimFloat.leb (spec_stability_term 0.07) (spec_stability_term 0.02) = true /\
  scores Sample.three_densities Sample.no_requirements None
         (cells (MaterialsProjectSource.search_record (Sample.doc "mp-1" 0 1.1 3 true)))
  = (0 + spec_stability_term 0 + 10)%float.
Proof.
  split.
  - apply (proj1 (proj2 C4_stability_term_clipped_monotone) 0.02%float 0.07%float);
      reflexivity.
  - apply (proj1 C4_stability_term_clipped_monotone Sample.three_densities
             Sample.no_requirements None
             (cells (MaterialsProjectSource.search_record (Sample.doc "mp-1" 0 1.1 3 true)))).
    reflexivity.
Defined.

(** ** The what-if loop *)

Section WhatIf.

Variable summary_search : SearchParams -> Exn + list SummaryDoc.

(** One turn of the loop, by the outcome of the identifier. *)
Lemma fetch_each_cons (id : string) (rest : list string)
    (data : list PyDict) (w : World) :
  fetch_each summary_search (id :: rest) data w =
    let w1 := {| console := console w;
                 requests := requests w ++ [MaterialsProjectSource.detail_params id] |} in
    match outcome summary_search id with
    | Fetched record => fetch_each summary_search rest (data ++ [record]) w1
    | NotFound =>
        fetch_each summary_search rest data
          {| console := console w1
                        ++ [("Warning: Material " ++ id ++ " not found")%string];
             requests := requests w1 |}
    | Propagated e => (w1, inl e)
    end.
Proof.
  unfold outcome. simpl.
  unfold bind, try_except_ValueError, MaterialsProjectSource.get_material_by_id,
    MaterialsProjectSource.mpr_search, bind, raise, ret, print.
  destruct (summary_search (MaterialsProjectSource.detail_params id))
    as [[msg|key|msg]|[|doc docs]]; reflexivity.
Qed.

Lemma fetch_each_result (ids : list string) :
  forall (data : list PyDict) (w : World),
    snd (fetch_each summary_search ids data w) = collected summary_search ids data.
Proof.
  induction ids as [|id rest IH]; intros data w.
  - reflexivity.
  - rewrite fetch_each_cons. simpl.
    destruct (outcome summary_search id); [apply IH|apply IH|reflexivity].
Qed.

Lemma collected_none_propagated (ids : list string) :
  forall data,
    none_propagated summary_search ids = true ->
    collected summary_search ids data
    = inr (data ++ fetched_records summary_search ids).
Proof.
  induction ids as [|id rest IH]; intros data Hok; simpl.
  - rewrite app_nil_r. reflexivity.
  - simpl in Hok. apply andb_true_iff in Hok. destruct Hok as [Hid Hrest].
    destruct (outcome summary_search id); try discriminate.
    + rewrite IH by assumption. rewrite <- app_assoc. reflexivity.
    + rewrite IH by assumption. reflexivity.
Qed.

Lemma fetch_each_world (ids : list string) :
  forall (data : list PyDict) (w : World),
    none_propagated summary_search ids = true ->
    fst (fetch_each summary_search ids data w)
    = {| console := console w ++ warnings summary_search ids;
         requests := requests w ++ map MaterialsProjectSource.detail_params ids |}.
Proof.
  induction ids as [|id rest IH]; intros data w Hok.
  - simpl. rewrite !app_nil_r. destruct w; reflexivity.
  - rewrite fetch_each_cons. simpl in Hok. apply andb_true_iff in Hok.
    destruct Hok as [Hid Hrest]. unfold warnings. simpl.
    destruct (outcome summary_search id); try discriminate;
      rewrite IH by assumption; simpl; rewrite <- !app_assoc; reflexivity.
Qed.

(** What [what_if] returns, whatever the world it starts in. *)
Lemma what_if_result (baseline : string) (alternatives : list string)
    (show_savings : bool) (w : World) :
  snd (what_if summary_search baseline alternatives show_savings w)
  = match collected summary_search (baseline :: alternatives) [] with
    | inl e => inl e
    | inr data => inr (with_savings show_savings (from_records data))
    end.
Proof.
  unfold what_if, bind.
  pose proof (fetch_each_result (baseline :: alternatives) [] w) as Hres.
  change ([baseline] ++ alternatives) with (baseline :: alternatives).
  destruct (fetch_each summary_search (baseline :: alternatives) [] w) as [w' [e|data]];
    cbn [snd] in Hres; rewrite <- Hres; [reflexivity|].
  unfold with_savings.
  destruct (show_savings && (1 <? len (from_records data))%nat);
    [destruct (rows (from_records data))|]; reflexivity.
Qed.

Lemma what_if_world (baseline : string) (alternatives : list string)
    (show_savings : bool) (w : World) :
  none_propagated summary_search (baseline :: alternatives) = true ->
  fst (what_if summary_search baseline alternatives show_savings w)
  = {| console := console w ++ warnings summary_search (baseline :: alternatives);
       requests := requests w
                   ++ map MaterialsProjectSource.detail_params (baseline :: alternatives) |}.
Proof.
  intros Hok. unfold what_if, bind.
  pose proof (fetch_each_world (baseline :: alternatives) [] w Hok) as Hw.
  change ([baseline] ++ alternatives) with (baseline :: alternatives).
  destruct (fetch_each summary_search (baseline :: alternatives) [] w) as [w' [e|data]];
    cbn [fst] in Hw; rewrite <- Hw; [reflexivity|].
  destruct (show_savings && (1 <? len (from_records data))%nat);
    [destruct (rows (from_records data))|]; reflexivity.
Qed.

End WhatIf.

Lemma rint_not_finite (x : float) :
  (forall s m e, Prim2SF x <> S754_finite s m e) -> PyFloat.rint x = x.
Proof.
  intros H. unfold PyFloat.rint.
  destruct (Prim2SF x) as [s|s| |s m e] eqn:E; try reflexivity.
  exfalso. apply (H s m e). reflexivity.
Qed.

Lemma round1_SF_nan (x : float) :
  Prim2SF x = S754_nan -> Prim2SF (PyFloat.round1 x) = S754_nan.
Proof.
  intros H. unfold PyFloat.round1.
  assert (Hm : Prim2SF (x * 10)%float = S754_nan).
  { rewrite mul_spec, H. reflexivity. }
  rewrite div_spec. rewrite rint_not_finite by (rewrite Hm; discriminate).
  rewrite Hm. reflexivity.
Qed.

Lemma round1_SF_infinity (x : float) (s : bool) :
  Prim2SF x = S754_infinity s -> Prim2SF (PyFloat.round1 x) = S754_infinity s.
Proof.
  intros H. unfold PyFloat.round1.
  assert (Hm : Prim2SF (x * 10)%float = S754_infinity s).
  { rewrite mul_spec, H. destruct s; reflexivity. }
  rewrite div_spec. rewrite rint_not_finite by (rewrite Hm; discriminate).
  rewrite Hm. destruct s; reflexivity.
Qed.

(** The percentage against a zero baseline, case by case on the value. *)
Lemma percent_vs_zero_SF (baseline value : float) (sb : bool) :
  Prim2SF baseline = S754_zero sb ->
  Prim2SF (percent_vs_baseline baseline value) =
    match Prim2SF value with
    | S754_nan | S754_zero _ => S754_nan
    | S754_infinity s | S754_finite s _ _ => S754_infinity (xorb s sb)
    end.
Proof.
  intros Hb. unfold percent_vs_baseline.
  assert (Hq : Prim2SF ((value - baseline) / baseline * 100)%float =
               match Prim2SF value with
               | S754_nan | S754_zero _ => S754_nan
               | S754_infinity s | S754_finite s _ _ => S754_infinity (xorb s sb)
               end).
  { rewrite mul_spec, div_spec, sub_spec, Hb.
    destruct (Prim2SF value) as [[]|[]| |[] m e]; destruct sb; reflexivity. }
  destruct (Prim2SF value) as [s|s| |s m e].
  - apply round1_SF_nan. assumption.
  - apply round1_SF_infinity. assumption.
  - apply round1_SF_nan. assumption.
  - apply round1_SF_infinity. assumption.
Qed.

Lemma percent_vs_zero (baseline value : float) :
  PrimFloat.eqb baseline 0 = true ->
  if PrimFloat.is_nan value || PrimFloat.eqb value 0
  then percent_vs_baseline baseline value = PrimFloat.nan
  else percent_vs_baseline baseline value = PrimFloat.infinity
       \/ percent_vs_baseline baseline value = PrimFloat.neg_infinity.
Proof.
  intros Hb. apply is_zero_spec in Hb. destruct Hb as [sb Hb].
  pose proof (percent_vs_zero_SF baseline value sb Hb) as H.
  destruct (PrimFloat.is_nan value) eqn:Hn.
  - apply is_nan_spec in Hn. rewrite Hn in H. simpl. apply nan_of_SF. assumption.
  - destruct (PrimFloat.eqb value 0) eqn:Hz; simpl.
    + apply is_zero_spec in Hz. destruct Hz as [sv Hv]. rewrite Hv in H.
      apply nan_of_SF. assumption.
    + destruct (Prim2SF value) as [s|s| |s m e] eqn:Hv.
      * exfalso. assert (PrimFloat.eqb value 0 = true) by (apply is_zero_spec; eauto).
        congruence.
      * apply infinity_of_SF in H. destruct (xorb s sb); [right|left]; assumption.
      * exfalso. assert (PrimFloat.is_nan value = true) by (apply is_nan_spec; assumption).
        congruence.
      * apply infinity_of_SF in H. destruct (xorb s sb); [right|left]; assumption.
Qed.

(** ** The comparison frame *)

Lemma str_in_add_label (k l : string) (cols : list string) :
  Py.str_in k (add_label cols l) = Py.str_in k cols || String.eqb k l.
Proof.
  unfold add_label, Py.str_in.
  destruct (existsb (String.eqb l) cols) eqn:Hl.
  - destruct (String.eqb k l) eqn:Hkl; [|rewrite orb_false_r; reflexivity].
    apply String.eqb_eq in Hkl. subst k. rewrite Hl. reflexivity.
  - rewrite existsb_app. simpl. rewrite orb_false_r. reflexivity.
Qed.

Lemma str_in_fold_add_label (k : string) (ks cols : list string) :
  Py.str_in k (fold_left add_label ks cols) = Py.str_in k cols || Py.str_in k ks.
Proof.
  revert cols. induction ks as [|l ks IH]; intros cols; simpl.
  - rewrite orb_false_r. reflexivity.
  - rewrite IH, str_in_add_label, <- orb_assoc. reflexivity.
Qed.

Lemma has_column_from_records (k : string) (data : list PyDict) :
  has_column (from_records data) k = existsb (fun d => Py.str_in k (keys d)) data.
Proof.
  unfold has_column, from_records. simpl.
  change (existsb (fun d => Py.str_in k (keys d)) data)
    with (Py.str_in k [] || existsb (fun d => Py.str_in k (keys d)) data).
  generalize (@nil string). induction data as [|d data IH]; intros cols; simpl.
  - rewrite orb_false_r. reflexivity.
  - rewrite IH, str_in_fold_add_label, <- orb_assoc. reflexivity.
Qed.

Lemma has_column_added (cols : list string) (l k : string) (r : list Row) :
  has_column {| columns := add_label cols l; rows := r |} k
  = Py.str_in k cols || String.eqb k l.
Proof. unfold has_column. simpl. apply str_in_add_label. Qed.

Lemma add_savings_rows (df : DataFrame) (baseline : Row) :
  has_column df "density" = true ->
  has_column df "band_gap" = true ->
  has_column df "formation_energy" = true ->
  rows (add_savings df baseline) = map (with_percentages baseline) (rows df) /\
  has_column (add_savings df baseline) "density_vs_baseline_%" = true /\
  has_column (add_savings df baseline) "band_gap_vs_baseline_%" = true /\
  has_column (add_savings df baseline) "formation_energy_vs_baseline_%" = true.
Proof.
  intros Hd Hb Hf. unfold add_savings. rewrite Hd.
  unfold has_column in Hb, Hf.
  rewrite has_column_added, Hb. cbn [orb columns rows].
  rewrite has_column_added, str_in_add_label, Hf. cbn [orb columns rows].
  rewrite !has_column_added, !str_in_add_label, !map_map.
  repeat split; try reflexivity;
    match goal with
    | |- context [Py.str_in ?k (columns df)] =>
        destruct (Py.str_in k (columns df)); reflexivity
    end.
Qed.

Lemma with_percentages_against (top r : Row) :
  percentages_against (with_percentages top top) (with_percentages top r).
Proof. repeat split. Qed.

Lemma with_savings_mp_id (show_savings : bool) (df : DataFrame) :
  map mp_id (rows (with_savings show_savings df)) = map mp_id (rows df).
Proof.
  unfold with_savings.
  destruct (show_savings && (1 <? len df)%nat); [|reflexivity].
  destruct (rows df) as [|baseline others] eqn:Hrows; [rewrite Hrows; reflexivity|].
  unfold add_savings.
  repeat match goal with
         | |- context [if ?c then _ else _] => destruct c
         end; cbn [rows]; rewrite ?map_map; rewrite Hrows; reflexivity.
Qed.

Section Comparison.

Variable summary_search : SearchParams -> Exn + list SummaryDoc.

Lemma fetched_records_detail (ids : list string) :
  Forall (fun d => exists doc, d = MaterialsProjectSource.detail_record doc)
         (fetched_records summary_search ids).
Proof.
  apply Forall_forall. intros d Hd. unfold fetched_records in Hd.
  apply in_flat_map in Hd. destruct Hd as [id [_ Hd]].
  unfold outcome in Hd.
  destruct (summary_search (MaterialsProjectSource.detail_params id))
    as [[msg|key|msg]|[|doc docs]]; simpl in Hd; try contradiction.
  destruct Hd as [<-|[]]. exists doc. reflexivity.
Qed.

(** A frame of fetched records has the three compared columns as soon as
    it has a row. *)
Lemma fetched_frame_columns (ids : list string) (k : string) :
  In k ["density"; "band_gap"; "formation_energy"] ->
  fetched_records summary_search ids <> [] ->
  has_column (from_records (fetched_records summary_search ids)) k = true.
Proof.
  intros Hk Hne. rewrite has_column_from_records.
  pose proof (fetched_records_detail ids) as Hall.
  destruct (fetched_records summary_search ids) as [|d ds]; [congruence|].
  inversion Hall as [|? ? [doc ->] _]; subst. simpl.
  apply orb_true_iff. left.
  unfold MaterialsProjectSource.detail_record. simpl keys.
  destruct Hk as [<-|[<-|[<-|[]]]]; destruct (elastic doc); reflexivity.
Qed.

(** What [what_if] does when no identifier propagates an exception. *)
Lemma what_if_run (baseline : string) (alternatives : list string)
    (show_savings : bool) (w : World) :
  none_propagated summary_search (baseline :: alternatives) = true ->
  what_if summary_search baseline alternatives show_savings w
  = ({| console := console w ++ warnings summary_search (baseline :: alternatives);
        requests := requests w
                    ++ map MaterialsProjectSource.detail_params
                           (baseline :: alternatives) |},
     inr (with_savings show_savings
            (from_records (fetched_records summary_search (baseline :: alternatives))))).
Proof.
  intros Hok.
  rewrite (surjective_pairing (what_if summary_search baseline alternatives show_savings w)).
  rewrite what_if_world by exact Hok.
  rewrite what_if_result, collected_none_propagated by exact Hok.
  reflexivity.
Qed.

(** With more than one record fetched and [show_savings] on, every row
    holds its percentages against row 0. *)
Lemma with_savings_percentages (ids : list string) :
  1 < List.length (fetched_records summary_search ids) ->
  let df := with_savings true (from_records (fetched_records summary_search ids)) in
  exists top others,
    rows df = top :: others /\
    List.length (rows df) = List.length (fetched_records summary_search ids) /\
    hd_error (map (fun d => mp_id (cells d)) (fetched_records summary_search ids))
    = Some (mp_id top) /\
    has_column df "density_vs_baseline_%" = true /\
    has_column df "band_gap_vs_baseline_%" = true /\
    has_column df "formation_energy_vs_baseline_%" = true /\
    Forall (percentages_against top) (rows df).
Proof.
  intros Hlen df.
  assert (Hne : fetched_records summary_search ids <> []).
  { intros E. rewrite E in Hlen. simpl in Hlen. lia. }
  pose proof (fetched_frame_columns ids "density" ltac:(simpl; auto) Hne) as Hd.
  pose proof (fetched_frame_columns ids "band_gap" ltac:(simpl; auto) Hne) as Hb.
  pose proof (fetched_frame_columns ids "formation_energy" ltac:(simpl; auto) Hne) as Hf.
  unfold df, with_savings.
  assert (Hmany : (1 <? len (from_records (fetched_records summary_search ids)))%nat = true).
  { apply Nat.ltb_lt. unfold len, from_records. simpl. rewrite length_map. exact Hlen. }
  rewrite Hmany. simpl andb.
  destruct (fetched_records summary_search ids) as [|d ds] eqn:Hdata; [congruence|].
  change (rows (from_records (d :: ds))) with (cells d :: map cells ds).
  destruct (add_savings_rows (from_records (d :: ds)) (cells d) Hd Hb Hf)
    as [Hrows [Hc1 [Hc2 Hc3]]].
  exists (with_percentages (cells d) (cells d)), (map (with_percentages (cells d)) (map cells ds)).
  rewrite Hrows. change (rows (from_records (d :: ds))) with (cells d :: map cells ds).
  split; [reflexivity|]. split; [simpl; rewrite !length_map; reflexivity|].
  split; [reflexivity|]. split; [exact Hc1|]. split; [exact Hc2|]. split; [exact Hc3|].
  apply Forall_forall. intros r Hr. apply in_map_iff in Hr.
  destruct Hr as [r0 [<- _]]. apply with_percentages_against.
Qed.

End Comparison.

(** ** The what-if comparison *)

(** C6.  When the database answers every identifier with a record or
    with "not found", [what_if] requests [baseline] and then the
    alternatives in their order, prints one warning per identifier that is
    not found, returns a frame without raising, and the frame is built
    from exactly the records that were fetched, in order. *)
Theorem C6_not_found_is_skipped_with_warning
    (summary_search : SearchParams -> Exn + list SummaryDoc)
    (baseline : string) (alternatives : list string) (show_savings : bool)
    (w : World) :
  let ids := baseline :: alternatives in
  none_propagated summary_search ids = true ->
  exists df,
    what_if summary_search baseline alternatives show_savings w
    = ({| console := console w ++ warnings summary_search ids;
          requests := requests w ++ map MaterialsProjectSource.detail_params ids |},
       inr df) /\
    df = with_savings show_savings (from_records (fetched_records summary_search ids)) /\
    map mp_id (rows df)
    = map (fun d => mp_id (cells d)) (fetched_records summary_search ids) /\
    (forall id, In id ids -> outcome summary_search id = NotFound ->
       In ("Warning: Material " ++ id ++ " not found")%string
          (warnings summary_search ids)).
Proof.
  intros ids Hok. eexists. split; [apply what_if_run; exact Hok|].
  split; [reflexivity|]. split.
  - rewrite with_savings_mp_id. unfold from_records. simpl. apply map_map.
  - intros id Hin Hout. unfold warnings. apply in_flat_map.
    exists id. split; [exact Hin|]. rewrite Hout. left. reflexivity.
Qed.

Lemma C6_not_found_witness :
  exists df,
    what_if Sample.two_materials "mp-149" ["mp-404"; "mp-30"] true Sample.fresh
    = ({| console := ["Warning: Material mp-404 not found"];
          requests := map MaterialsProjectSource.detail_params
                          ["mp-149"; "mp-404"; "mp-30"] |},
       inr df) /\
    map mp_id (rows df) = ["mp-149"; "mp-30"].
Proof.
  destruct (C6_not_found_is_skipped_with_warning Sample.two_materials
              "mp-149" ["mp-404"; "mp-30"] true Sample.fresh)
    as [df [Hrun [_ [Hids _]]]].
  - reflexivity.
  - exists df. split; [exact Hrun|exact Hids].
Defined.

(** C7.  When more than one record is fetched, the frame [what_if]
    returns has a percentage column for each of density, band gap and
    formation energy, and every row holds
    [(value - baseline_value) / baseline_value * 100] rounded to one
    decimal, the baseline values being those of row 0.  Comparing "mp-149"
    with itself at density 7.0 gives the duplicate row a density
    percentage of exactly 0.0. *)
Theorem C7_percentages_against_row_0 :
  (forall (summary_search : SearchParams -> Exn + list SummaryDoc)
          (baseline : string) (alternatives : list string) (w : World),
      none_propagated summary_search (baseline :: alternatives) = true ->
      1 < List.length (fetched_records summary_search (baseline :: alternatives)) ->
      exists w' df top others,
        what_if summary_search baseline alternatives true w = (w', inr df) /\
        rows df = top :: others /\
        has_column df "density_vs_baseline_%" = true /\
        has_column df "band_gap_vs_baseline_%" = true /\
        has_column df "formation_energy_vs_baseline_%" = true /\
        Forall (percentages_against top) (rows df)) /\
  (forall (summary_search : SearchParams -> Exn + list SummaryDoc)
          (doc : SummaryDoc) (docs : list SummaryDoc) (w : World),
      summary_search (MaterialsProjectSource.detail_params "mp-149")
      = inr (doc :: docs) ->
      doc_density doc = 7%float ->
      exists w' df original duplicate,
        what_if summary_search "mp-149" ["mp-149"] true w = (w', inr df) /\
        rows df = [original; duplicate] /\
        density_vs_baseline duplicate = 0%float).
Proof.
  split.
  - intros summary_search baseline alternatives w Hok Hlen.
    destruct (with_savings_percentages summary_search _ Hlen)
      as [top [others [Hrows [_ [_ [Hc1 [Hc2 [Hc3 Hall]]]]]]]].
    eexists. eexists. exists top, others.
    split; [apply what_if_run; exact Hok|]. repeat split; assumption.
  - intros summary_search doc docs w Hs Hdens.
    assert (Hout : outcome summary_search "mp-149"
                   = Fetched (MaterialsProjectSource.detail_record doc)).
    { unfold outcome. rewrite Hs. reflexivity. }
    assert (Hok : none_propagated summary_search ["mp-149"; "mp-149"] = true).
    { unfold none_propagated. simpl. rewrite Hout. reflexivity. }
    assert (Hdata : fetched_records summary_search ["mp-149"; "mp-149"]
                    = [MaterialsProjectSource.detail_record doc;
                       MaterialsProjectSource.detail_record doc]).
    { unfold fetched_records. simpl. rewrite Hout. reflexivity. }
    assert (Hlen : 1 < List.length (fetched_records summary_search ["mp-149"; "mp-149"])).
    { rewrite Hdata. simpl. lia. }
    destruct (with_savings_percentages summary_search _ Hlen)
      as [top [others [Hrows [Hn [_ [_ [_ [_ Hall]]]]]]]].
    rewrite Hrows, Hdata in Hn. simpl in Hn.
    destruct others as [|duplicate [|extra others]]; try discriminate Hn.
    eexists. eexists. exists top, duplicate.
    split; [apply what_if_run; exact Hok|]. split; [exact Hrows|].
    assert (Hd : map density (rows (with_savings true
                   (from_records (fetched_records summary_search ["mp-149"; "mp-149"]))))
                 = [7; 7]%float).
    { rewrite Hdata. unfold with_savings.
      change (true && (1 <? len (from_records
                [MaterialsProjectSource.detail_record doc;
                 MaterialsProjectSource.detail_record doc]))%nat) with true.
      cbv iota.
      change (rows (from_records [MaterialsProjectSource.detail_record doc;
                                  MaterialsProjectSource.detail_record doc]))
        with [cells (MaterialsProjectSource.detail_record doc);
              cells (MaterialsProjectSource.detail_record doc)].
      cbv iota.
      unfold add_savings.
      repeat match goal with
             | |- context [if ?c then _ else _] => destruct c
             end; cbn [rows]; rewrite ?map_map; simpl; rewrite Hdens; reflexivity. }
    rewrite Hrows in Hd. simpl in Hd. injection Hd as Htop Hdup.
    rewrite Hrows in Hall. inversion Hall as [|? ? _ Hrest]; subst.
    inversion Hrest as [|? ? [Hcell _] _]; subst.
    rewrite Hcell, Htop, Hdup. reflexivity.
Qed.

Lemma C7_percentages_witness :
  exists w' df original duplicate,
    what_if Sample.two_materials "mp-149" ["mp-149"] true Sample.fresh = (w', inr df) /\
    rows df = [original; duplicate] /\
    density_vs_baseline duplicate = 0%float.
Proof.
  apply (proj2 C7_percentages_against_row_0 Sample.two_materials
           (Sample.doc "mp-149" 0 1.1 7 true) [] Sample.fresh); reflexivity.
Defined.

(** C8, as amended.  A zero in row 0 of a compared column does not make
    [what_if] raise: the frame is returned with a row per fetched record
    and all three percentages in every row; in the column with the zero
    baseline the cell is null where the row's own value is zero or null,
    and plus or minus infinity elsewhere. *)
Theorem C8_zero_baseline_gives_null_or_infinity
    (summary_search : SearchParams -> Exn + list SummaryDoc)
    (baseline : string) (alternatives : list string) (w : World) :
  none_propagated summary_search (baseline :: alternatives) = true ->
  1 < List.length (fetched_records summary_search (baseline :: alternatives)) ->
  exists w' df top others,
    what_if summary_search baseline alternatives true w = (w', inr df) /\
    rows df = top :: others /\
    List.length (rows df)
    = List.length (fetched_records summary_search (baseline :: alternatives)) /\
    Forall (fun r =>
              percentages_against top r /\
              (PrimFloat.eqb (density top) 0 = true ->
               zero_baseline_cell (density r) (density_vs_baseline r)) /\
              (PrimFloat.eqb (band_gap top) 0 = true ->
               zero_baseline_cell (band_gap r) (band_gap_vs_baseline r)) /\
              (PrimFloat.eqb (formation_energy top) 0 = true ->
               zero_baseline_cell (formation_energy r)
                                  (formation_energy_vs_baseline r)))
           (rows df).
Proof.
  intros Hok Hlen.
  destruct (with_savings_percentages summary_search _ Hlen)
    as [top [others [Hrows [Hn [_ [_ [_ [_ Hall]]]]]]]].
  eexists. eexists. exists top, others.
  split; [apply what_if_run; exact Hok|]. split; [exact Hrows|]. split; [exact Hn|].
  eapply Forall_impl; [|exact Hall].
  intros r [Hd [Hb Hf]]. split; [repeat split; assumption|].
  unfold zero_baseline_cell. rewrite Hd, Hb, Hf.
  repeat split; intros Hzero.
  - exact (percent_vs_zero (density top) (density r) Hzero).
  - exact (percent_vs_zero (band_gap top) (band_gap r) Hzero).
  - exact (percent_vs_zero (formation_energy top) (formation_energy r) Hzero).
Qed.

Lemma C8_zero_baseline_witness :
  exists w' df top others,
    what_if Sample.two_materials "mp-30" ["mp-149"] true Sample.fresh = (w', inr df) /\
    rows df = top :: others /\
    List.length (rows df) = 2.
Proof.
  destruct (C8_zero_baseline_gives_null_or_infinity Sample.two_materials
              "mp-30" ["mp-149"] Sample.fresh)
    as [w' [df [top [others [Hrun [Hrows [Hn _]]]]]]].
  - reflexivity.
  - vm_compute. lia.
  - exists w', df, top, others. split; [exact Hrun|]. split; [exact Hrows|exact Hn].
Defined.

(** C8, as stated, fails: against a metal (band gap 0.0) as baseline,
    silicon's band-gap percentage is infinity, which is not null. *)
Lemma C8_zero_baseline_cell_is_infinity :
  exists w' df metal silicon,
    what_if Sample.two_materials "mp-30" ["mp-149"] true Sample.fresh = (w', inr df) /\
    rows df = [metal; silicon] /\
    band_gap metal = 0%float /\
    band_gap_vs_baseline silicon = PrimFloat.infinity /\
    PrimFloat.is_nan (band_gap_vs_baseline silicon) = false.
Proof.
  eexists. eexists. eexists. eexists.
  split; [vm_compute; reflexivity|].
  split; [reflexivity|]. vm_compute. repeat split; reflexivity.
Qed.

(** C10.  When the baseline identifier is not found, [what_if] neither
    raises nor marks the frame: it prints the warning and returns the
    frame of the alternatives alone, which is the frame a call with the
    first alternative as baseline returns; with more than one record
    fetched, row 0 is the first alternative that was fetched and every
    percentage is taken against it. *)
Theorem C10_missing_baseline_first_fetched_takes_over
    (summary_search : SearchParams -> Exn + list SummaryDoc)
    (baseline : string) (alternatives : list string) (w : World) :
  outcome summary_search baseline = NotFound ->
  none_propagated summary_search alternatives = true ->
  exists w' df,
    what_if summary_search baseline alternatives true w = (w', inr df) /\
    console w'
    = console w ++ ("Warning: Material " ++ baseline ++ " not found")%string
                   :: warnings summary_search alternatives /\
    df = with_savings true (from_records (fetched_records summary_search alternatives)) /\
    (forall first others,
        alternatives = first :: others ->
        snd (what_if summary_search first others true w) = inr df) /\
    (1 < List.length (fetched_records summary_search alternatives) ->
     exists top below,
       rows df = top :: below /\
       hd_error (map (fun d => mp_id (cells d))
                     (fetched_records summary_search alternatives))
       = Some (mp_id top) /\
       Forall (percentages_against top) (rows df)).
Proof.
  intros Hmiss Hok.
  assert (Hall : none_propagated summary_search (baseline :: alternatives) = true).
  { unfold none_propagated. simpl. rewrite Hmiss. exact Hok. }
  assert (Hdata : fetched_records summary_search (baseline :: alternatives)
                  = fetched_records summary_search alternatives).
  { unfold fetched_records. simpl. rewrite Hmiss. reflexivity. }
  eexists. eexists. split; [apply what_if_run; exact Hall|].
  rewrite Hdata. split.
  - unfold warnings. simpl. rewrite Hmiss. reflexivity.
  - split; [reflexivity|]. split.
    + intros first others ->.
      rewrite what_if_result, collected_none_propagated by exact Hok. reflexivity.
    + intros Hlen.
      destruct (with_savings_percentages summary_search _ Hlen)
        as [top [below [Hrows [_ [Hhd [_ [_ [_ Hper]]]]]]]].
      exists top, below. split; [exact Hrows|]. split; [exact Hhd|exact Hper].
Qed.

Lemma C10_missing_baseline_witness :
  exists w' df,
    what_if Sample.two_materials "mp-404" ["mp-149"; "mp-30"] true Sample.fresh
    = (w', inr df) /\
    console w' = ["Warning: Material mp-404 not found"] /\
    snd (what_if Sample.two_materials "mp-149" ["mp-30"] true Sample.fresh) = inr df.
Proof.
  destruct (C10_missing_baseline_first_fetched_takes_over Sample.two_materials
              "mp-404" ["mp-149"; "mp-30"] Sample.fresh)
    as [w' [df [Hrun [Hcon [_ [Hsame _]]]]]].
  - reflexivity.
  - reflexivity.
  - exists w', df. split; [exact Hrun|]. split; [exact Hcon|].
    apply (Hsame "mp-149" ["mp-30"]). reflexivity.
Defined.

(** ** [recommend] *)

Lemma search_columns_again (data : list PyDict) :
  Forall (fun d => keys d = MaterialsProjectSource.search_keys) data ->
  fold_left (fun cols d => fold_left add_label (keys d) cols) data
            MaterialsProjectSource.search_keys
  = MaterialsProjectSource.search_keys.
Proof.
  induction 1 as [|d data Hd _ IH]; [reflexivity|].
  simpl. rewrite Hd. exact IH.
Qed.

(** The frame [search_by_properties] builds from a non-empty answer has
    the ten labels of its records. *)
Lemma from_search_records (doc : SummaryDoc) (docs : list SummaryDoc) :
  from_records (map MaterialsProjectSource.search_record (doc :: docs))
  = {| columns := MaterialsProjectSource.search_keys;
       rows := map (fun d => cells (MaterialsProjectSource.search_record d))
                   (doc :: docs) |}.
Proof.
  unfold from_records. f_equal.
  - simpl. apply search_columns_again.
    apply Forall_forall. intros d Hd. apply in_map_iff in Hd.
    destruct Hd as [x [<- _]]. reflexivity.
  - apply map_map.
Qed.

Section Recommend.

Variable summary_search : SearchParams -> Exn + list SummaryDoc.
Variable argsort : list float -> list nat.

(** The request [recommend] sends for a requirement dictionary. *)
Let request (requirements : Requirements) : SearchParams :=
  MaterialsProjectSource.search_params
    (elements requirements) (min_band_gap requirements) (max_band_gap requirements)
    (Some 0.05%float).

(** An empty answer: the early return. *)
Lemma recommend_nothing_found (requirements : Requirements)
    (optimize : option (list string)) (show : bool) (top_n : Z) (w : World) :
  summary_search (request requirements) = inr [] ->
  snd (recommend summary_search argsort requirements optimize show top_n w)
  = inr {| candidates := empty_frame;
           requirements := requirements;
           optimize_objectives := None;
           show_tradeoffs := false |}.
Proof.
  intros Hs. unfold recommend, bind, print, MaterialsProjectSource.search_by_properties,
    MaterialsProjectSource.mpr_search, bind, ret.
  fold (request requirements). rewrite Hs. reflexivity.
Qed.

(** A non-empty answer: the pipeline runs to its end. *)
Lemma recommend_found (requirements : Requirements)
    (optimize : option (list string)) (show : bool) (top_n : Z) (w : World)
    (doc : SummaryDoc) (docs : list SummaryDoc) :
  summary_search (request requirements) = inr (doc :: docs) ->
  let found :=
    map (fun d => cells (MaterialsProjectSource.search_record d))
        (Py.slice_to (doc :: docs) 100) in
  let filtered :=
    {| columns := MaterialsProjectSource.search_keys;
       rows := filter (passes requirements) found |} in
  snd (recommend summary_search argsort requirements optimize show top_n w)
  = inr {| candidates :=
             _enrich_materials
               (head (_score_materials argsort filtered requirements optimize) top_n);
           requirements := requirements;
           optimize_objectives := optimize;
           show_tradeoffs := show |}.
Proof.
  intros Hs found filtered.
  unfold recommend, bind, print, MaterialsProjectSource.search_by_properties,
    MaterialsProjectSource.mpr_search, bind, ret, lift.
  fold (request requirements). rewrite Hs.
  change (Py.slice_to (doc :: docs) 100) with (doc :: firstn 99 docs) in *.
  rewrite from_search_records. fold found.
  set (frame := {| columns := MaterialsProjectSource.search_keys; rows := found |}).
  assert (Hlen : (len frame =? 0)%nat = false) by reflexivity.
  rewrite Hlen.
  destruct (_apply_filters_returns frame requirements) as [out Hout].
  { reflexivity. }
  { destruct (max_density requirements); reflexivity. }
  destruct (_apply_filters_rows _ _ _ Hout) as [Hcols Hrows].
  assert (Heq : out = filtered).
  { destruct out as [c r]. simpl in Hcols, Hrows. subst c r. reflexivity. }
  rewrite Hout, Heq. reflexivity.
Qed.

End Recommend.

(** C9, where the code departs from it.  When the database returns no
    candidate, [recommend] returns without raising, and the result holds
    the requirements of the call, but its objectives are [None] whatever
    objectives were passed. *)
Theorem C9_empty_answer_drops_objectives
    (argsort : list float -> list nat) (requirements : Requirements)
    (optimize : option (list string)) (show : bool) (top_n : Z) (w : World) :
  snd (recommend Sample.nothing argsort requirements optimize show top_n w)
  = inr {| candidates := empty_frame;
           requirements := requirements;
           optimize_objectives := None;
           show_tradeoffs := false |}.
Proof. apply recommend_nothing_found. reflexivity. Qed.

(** The other path: with candidates found, the result holds the
    requirements and the objectives of the call, also when the filter
    leaves no candidate. *)
Lemma recommend_found_carries_call
    (summary_search : SearchParams -> Exn + list SummaryDoc)
    (argsort : list float -> list nat) (wanted : Requirements)
    (optimize : option (list string)) (show : bool) (top_n : Z) (w : World)
    (doc : SummaryDoc) (docs : list SummaryDoc) :
  summary_search
    (MaterialsProjectSource.search_params
       (elements wanted) (min_band_gap wanted)
       (max_band_gap wanted) (Some 0.05%float)) = inr (doc :: docs) ->
  exists result,
    snd (recommend summary_search argsort wanted optimize show top_n w)
    = inr result /\
    requirements result = wanted /\
    optimize_objectives result = optimize.
Proof.
  intros Hs. eexists. split.
  - apply recommend_found. exact Hs.
  - split; reflexivity.
Qed.

(** ** The scenario of three energies above hull *)

(** Three distinct scores leave an argsort no choice. *)
Lemma argsort_10_30_50 (idx : list nat) :
  Numpy.is_argsort [10; 30; 50]%float idx = true -> idx = [0; 1; 2].
Proof.
  intros H.
  destruct idx as [|a [|b [|c [|d idx]]]]; try discriminate H.
  destruct a as [|[|[|a]]]; destruct b as [|[|[|b]]]; destruct c as [|[|[|c]]];
    try reflexivity; try (vm_compute in H; discriminate H).
  all: unfold Numpy.is_argsort in H; simpl in H;
    rewrite ?andb_false_r in H; simpl in H; try discriminate H.
Qed.

(** C3. With the requirement dictionary [{}], no weight objective and
    [top_n = 2], three candidates with energies above hull 0.0, 0.05 and
    0.1 get the stability terms 40, 20 and 0 and the scores 50, 30 and 10,
    and [recommend] returns the first two, in that order. *)
Theorem C3_three_energies_first_two
    (summary_search : SearchParams -> Exn + list SummaryDoc)
    (argsort : list float -> list nat) (optimize : option (list string))
    (d1 d2 d3 : SummaryDoc) (w : World) :
  summary_search
    (MaterialsProjectSource.search_params None None None (Some 0.05%float))
    = inr [d1; d2; d3] ->
  doc_energy_above_hull d1 = 0%float ->
  doc_energy_above_hull d2 = 0.05%float ->
  doc_energy_above_hull d3 = 0.1%float ->
  optimizes_weight optimize = false ->
  Numpy.is_argsort [10; 30; 50]%float (argsort [10; 30; 50]%float) = true ->
  let frame := from_records (map MaterialsProjectSource.search_record [d1; d2; d3]) in
  map (fun r => (stability_score r * 40)%float) (rows frame) = [40; 20; 0]%float /\
  map (scores frame Sample.no_requirements optimize) (rows frame)
  = [50; 30; 10]%float /\
  exists result,
    snd (recommend summary_search argsort Sample.no_requirements optimize false 2 w)
    = inr result /\
    map mp_id (rows (candidates result)) = [material_id d1; material_id d2] /\
    map match_score (rows (candidates result)) = [50; 30]%float.
Proof.
  intros Hs H1 H2 H3 Hopt Hsort frame.
  assert (Hterm : map (fun r => (stability_score r * 40)%float) (rows frame)
                  = [40; 20; 0]%float).
  { unfold frame. rewrite from_search_records. unfold stability_score. simpl.
    rewrite H1, H2, H3. reflexivity. }
  assert (Hscore : map (scores frame Sample.no_requirements optimize) (rows frame)
                   = [50; 30; 10]%float).
  { unfold frame. rewrite from_search_records. unfold scores, stability_score.
    rewrite Hopt. simpl. rewrite H1, H2, H3. reflexivity. }
  assert (Hpass : filter (passes Sample.no_requirements)
                    (map (fun d => cells (MaterialsProjectSource.search_record d))
                         [d1; d2; d3])
                  = rows frame).
  { unfold frame. rewrite from_search_records. unfold passes. simpl.
    rewrite H1, H2, H3. reflexivity. }
  assert (Hframe : {| columns := MaterialsProjectSource.search_keys;
                      rows := rows frame |} = frame).
  { unfold frame. rewrite from_search_records. reflexivity. }
  assert (Hids : map mp_id (rows frame) = [material_id d1; material_id d2; material_id d3]).
  { unfold frame. rewrite from_search_records. reflexivity. }
  assert (Hthree : take (rows frame) [0; 1; 2] = rows frame).
  { unfold frame. rewrite from_search_records. reflexivity. }
  clearbody frame.
  split; [exact Hterm|]. split; [exact Hscore|].
  assert (Hkeys : map match_score
                    (rows (with_match_score frame Sample.no_requirements optimize))
                  = [50; 30; 10]%float).
  { unfold with_match_score. simpl rows. rewrite map_map. simpl match_score.
    exact Hscore. }
  assert (Hranked : rows (_score_materials argsort frame Sample.no_requirements optimize)
                    = rows (with_match_score frame Sample.no_requirements optimize)).
  { rewrite _score_materials_rows, Hkeys. unfold nargsort_descending.
    change (filter (fun x => negb (PrimFloat.is_nan x)) [50; 30; 10]%float)
      with [50; 30; 10]%float.
    change (rev [50; 30; 10]%float) with [10; 30; 50]%float.
    rewrite (argsort_10_30_50 _ Hsort).
    change (take (rows (with_match_score frame Sample.no_requirements optimize))
              [0; 1; 2]
            = rows (with_match_score frame Sample.no_requirements optimize)).
    unfold with_match_score. simpl rows. rewrite <- map_take, Hthree. reflexivity. }
  eexists. split.
  - apply (recommend_found summary_search argsort Sample.no_requirements optimize
             false 2 w d1 [d2; d3]). exact Hs.
  - change (Py.slice_to [d1; d2; d3] 100) with [d1; d2; d3].
    rewrite Hpass, Hframe.
    cbn [candidates].
    rewrite _enrich_materials_mp_id, _enrich_materials_match_score, head_rows, Hranked.
    change (Py.slice_to ?l 2) with (firstn 2 l).
    rewrite <- !firstn_map, Hkeys, with_match_score_mp_id, Hids. split; reflexivity.
Qed.

Lemma C3_three_energies_witness :
  map (fun r => (stability_score r * 40)%float)
      (rows (from_records (map MaterialsProjectSource.search_record Sample.three_energies)))
  = [40; 20; 0]%float /\
  exists result,
    snd (recommend (fun _ => inr Sample.three_energies) Numpy.aquicksort
           Sample.no_requirements None false 2 Sample.fresh)
    = inr result /\
    map mp_id (rows (candidates result)) = ["mp-1"; "mp-2"] /\
    map match_score (rows (candidates result)) = [50; 30]%float.
Proof.
  destruct (C3_three_energies_first_two
              (fun _ => inr Sample.three_energies) Numpy.aquicksort None
              (Sample.doc "mp-1" 0 1.1 3 true) (Sample.doc "mp-2" 0.05 0 6 false)
              (Sample.doc "mp-3" 0.1 2 4.5 false) Sample.fresh)
    as [Hterm [_ Hrun]]; try reflexivity.
  split; [exact Hterm|exact Hrun].
Defined.

(** ** The formula helpers of [materials_project.py] *)

(** X1.  [format_formula] returns for no formula: the index of the
    subscript literal is [int(r'\1')], which is evaluated before
    [re.sub] is called and raises [ValueError], whatever the formula and
    whatever the regular-expression engine would do. *)
Theorem format_formula_always_raises
    (re_sub : string -> string -> string -> string) (formula : string) :
  materials_project.format_formula re_sub formula
  = inl (Plain (ValueError "invalid literal for int() with base 10: '\\1'")).
Proof. reflexivity. Qed.

Lemma lower_not_upper (c : ascii) :
  PyStr.is_lower c = true -> PyStr.is_upper c = false.
Proof.
  unfold PyStr.is_lower, PyStr.is_upper. intros H.
  apply andb_true_iff in H. destruct H as [H _]. apply N.leb_le in H.
  apply andb_false_iff. right. apply N.leb_gt. lia.
Qed.

Lemma upper_not_lower (c : ascii) :
  PyStr.is_upper c = true -> PyStr.is_lower c = false.
Proof.
  intros H. destruct (PyStr.is_lower c) eqn:E; [|reflexivity].
  apply lower_not_upper in E. congruence.
Qed.

(** The symbol that starts at a capital letter: the letter, and the next
    character when it is a small letter. *)
Lemma get_element_list_cons (c : ascii) (rest : string) :
  materials_project.get_element_list (String c rest)
  = if PyStr.is_upper c
    then String c (match rest with
                   | String d _ => if PyStr.is_lower d then String d EmptyString
                                   else EmptyString
                   | EmptyString => EmptyString
                   end)
         :: materials_project.get_element_list rest
    else materials_project.get_element_list rest.
Proof.
  cbn [materials_project.get_element_list].
  destruct (PyStr.is_upper c); [|reflexivity].
  destruct rest as [|d rest']; [reflexivity|].
  destruct (PyStr.is_lower d) eqn:Hd; [|reflexivity].
  cbn [materials_project.get_element_list].
  rewrite (lower_not_upper d Hd). reflexivity.
Qed.

Lemma symbol_at_S (c : ascii) (rest : string) (i : nat) :
  symbol_at (String c rest) (S i) = symbol_at rest i.
Proof. reflexivity. Qed.

Lemma symbols_by_position_cons (c : ascii) (rest : string) :
  symbols_by_position (String c rest)
  = match symbol_at (String c rest) 0 with
    | Some e => [e]
    | None => []
    end ++ symbols_by_position rest.
Proof.
  unfold symbols_by_position. cbn [String.length seq flat_map]. f_equal.
  rewrite <- seq_shift, flat_map_concat_map, map_map, <- flat_map_concat_map.
  apply flat_map_ext. intros i. rewrite symbol_at_S. reflexivity.
Qed.

(** X2.  [get_element_list] reads one symbol at every capital letter of
    the formula, from left to right and duplicates included: the symbol is
    the capital letter, together with the character right behind it when
    that is a small letter.  So there is one symbol per capital letter,
    each of one or two letters; digits, signs and further small letters
    are dropped. *)
Theorem get_element_list_one_symbol_per_capital (formula : string) :
  materials_project.get_element_list formula = symbols_by_position formula /\
  forallb is_symbol (materials_project.get_element_list formula) = true /\
  map (substring 0 1) (materials_project.get_element_list formula)
  = map (fun c => String c EmptyString) (capitals formula) /\
  List.length (materials_project.get_element_list formula)
  = List.length (capitals formula).
Proof.
  split.
  { induction formula as [|c rest IH]; [reflexivity|].
    rewrite get_element_list_cons, symbols_by_position_cons, IH.
    unfold symbol_at. cbn [String.get].
    destruct (PyStr.is_upper c); [|reflexivity].
    destruct rest as [|d rest']; reflexivity. }
  assert (H : forallb is_symbol (materials_project.get_element_list formula) = true /\
              map (substring 0 1) (materials_project.get_element_list formula)
              = map (fun c => String c EmptyString) (capitals formula)).
  { induction formula as [|c rest [IHs IHc]]; [split; reflexivity|].
    rewrite get_element_list_cons. unfold capitals. cbn [list_ascii_of_string filter].
    fold (capitals rest).
    destruct (PyStr.is_upper c) eqn:Hc; [|split; assumption].
    split.
    - cbn [forallb]. rewrite IHs, andb_true_r.
      destruct rest as [|d rest']; [exact Hc|].
      destruct (PyStr.is_lower d) eqn:Hd; cbn [is_symbol]; rewrite Hc; [exact Hd|reflexivity].
    - cbn [map]. rewrite IHc. f_equal.
      destruct rest as [|d rest']; [reflexivity|].
      destruct (PyStr.is_lower d); reflexivity. }
  destruct H as [Hs Hc]. split; [exact Hs|]. split; [exact Hc|].
  rewrite <- (length_map (substring 0 1)), Hc. apply length_map.
Qed.

Lemma concat_no_separator (e : string) (l : list string) :
  Py.join EmptyString (e :: l) = (e ++ Py.join EmptyString l)%string.
Proof.
  unfold Py.join. destruct l as [|e' l]; simpl.
  - induction e as [|c e IH]; [reflexivity|]. simpl. rewrite <- IH. reflexivity.
  - reflexivity.
Qed.

(** Symbols written one after another start with a capital letter. *)
Lemma join_symbols_start (l : list string) :
  forallb is_symbol l = true ->
  match Py.join EmptyString l with
  | String d _ => PyStr.is_lower d = false
  | EmptyString => True
  end.
Proof.
  destruct l as [|e l]; [exact (fun _ => I)|].
  intros H. cbn [forallb] in H. apply andb_true_iff in H. destruct H as [He _].
  rewrite concat_no_separator.
  destruct e as [|c e]; [discriminate|]. simpl.
  apply upper_not_lower.
  destruct e as [|d [|x e]]; simpl in He; try discriminate; [exact He|].
  apply andb_true_iff in He. apply He.
Qed.

(** X3.  Round trip: a list of symbols (a capital letter, alone or with
    one small letter) written one after another without separator is
    read back by [get_element_list] as the same list. *)
Theorem get_element_list_reads_back_joined_symbols (symbols : list string) :
  forallb is_symbol symbols = true ->
  materials_project.get_element_list (Py.join EmptyString symbols) = symbols.
Proof.
  induction symbols as [|e l IH]; [reflexivity|].
  intros H. pose proof H as Hall. cbn [forallb] in H.
  apply andb_true_iff in H. destruct H as [He Hl].
  rewrite concat_no_separator.
  pose proof (join_symbols_start l Hl) as Hstart.
  specialize (IH Hl).
  destruct e as [|c [|d [|x e]]]; simpl in He; try discriminate.
  - simpl append. rewrite get_element_list_cons, He, IH.
    destruct (Py.join EmptyString l) as [|d rest]; [reflexivity|].
    rewrite Hstart. reflexivity.
  - apply andb_true_iff in He. destruct He as [Hc Hd].
    simpl append. cbn [materials_project.get_element_list].
    rewrite Hc, Hd, IH. reflexivity.
Qed.

Lemma get_element_list_round_trip_witness :
  materials_project.get_element_list (Py.join EmptyString ["Fe"; "O"; "H"])
  = ["Fe"; "O"; "H"].
Proof.
  apply (get_element_list_reads_back_joined_symbols ["Fe"; "O"; "H"]). reflexivity.
Defined.

(** ** Setting up the source and the engine *)

(** X4.  [MaterialsProjectSource(api_key)] takes the key from its
    argument when that is a non-empty text, else from the environment
    variable MP_API_KEY when that is a non-empty text, and raises
    [ValueError] in every other case: an empty text counts as no key on
    both sides. *)
Theorem source_init_key_resolution
    (getenv : string -> option string) (key : option string) :
  materials_project.__init__ getenv key
  = match key, getenv "MP_API_KEY" with
    | Some (String c k), _ =>
        inr {| materials_project.api_key := Some (String c k) |}
    | _, Some (String c k) =>
        inr {| materials_project.api_key := Some (String c k) |}
    | _, _ => inl (ValueError materials_project.api_key_required)
    end.
Proof.
  unfold materials_project.__init__.
  destruct key as [[|c k]|]; simpl; try reflexivity;
    destruct (getenv "MP_API_KEY") as [[|c k]|]; reflexivity.
Qed.

Section Setup.

Variable getenv : string -> option string.
Variable MPRester : option string -> SearchParams -> Exn + list SummaryDoc.
Variable exception_text : Exn -> string.

Lemma check_api_status_run (self : materials_project.Source) (w : World) :
  materials_project.check_api_status MPRester exception_text self w
  = match MPRester (materials_project.api_key self) materials_project.probe_params with
    | inr docs =>
        (asked w materials_project.probe_params,
         inr (match docs with [] => false | _ :: _ => true end))
    | inl e =>
        (printed (asked w materials_project.probe_params)
                 ("API check failed: " ++ exception_text e),
         inr false)
    end.
Proof.
  unfold materials_project.check_api_status, try_except_Exception, bind,
    MaterialsProjectSource.mpr_search, ret, print, asked, printed.
  destruct (MPRester (materials_project.api_key self) materials_project.probe_params)
    as [e|[|doc docs]]; reflexivity.
Qed.

(** X5.  [check_api_status] never raises.  It sends one request, for the
    identifier "mp-149" with the field material_id alone, and answers
    [True] exactly when the client returns at least one document; when
    the client raises, it prints one line, "API check failed: " with the
    text of the exception, and answers [False]; otherwise it prints
    nothing. *)
Theorem check_api_status_never_raises (self : materials_project.Source) (w : World) :
  let answer := MPRester (materials_project.api_key self) materials_project.probe_params in
  exists (w' : World) (ok : bool),
    materials_project.check_api_status MPRester exception_text self w = (w', inr ok) /\
    requests w' = requests w ++ [materials_project.probe_params] /\
    q_material_ids materials_project.probe_params = Some ["mp-149"] /\
    q_fields materials_project.probe_params = ["material_id"] /\
    (ok = true <-> exists doc docs, answer = inr (doc :: docs)) /\
    console w' = console w ++ match answer with
                              | inl e => [("API check failed: " ++ exception_text e)%string]
                              | inr _ => []
                              end.
Proof.
  intros answer. rewrite check_api_status_run. fold answer.
  destruct answer as [e|[|doc docs]]; eexists; eexists;
    (split; [reflexivity|]); cbn [asked printed requests console];
    rewrite ?app_nil_r; repeat split; try reflexivity; try discriminate.
  - intros [doc [docs H]]. discriminate.
  - intros [doc [docs H]]. discriminate.
  - intros _. exists doc, docs. reflexivity.
Qed.

(** X6.  [MatSelectAI(mp_api_key)] ends in one of four ways.  Without a
    key (argument and MP_API_KEY both missing or empty) it raises the
    [ValueError] of the source before any request is sent.  With a key it
    sends the one request of [check_api_status]: a non-empty answer
    prints the check mark and "Materials Project API connected" and
    returns the engine holding that key; an empty answer raises
    [ConnectionError]; an exception of the client is not passed on, it
    is printed as "API check failed: ..." and [ConnectionError] is raised
    in its place. *)
Theorem engine_init_outcomes (mp_api_key : option string) (w : World) :
  recommender.__init__ getenv MPRester exception_text mp_api_key w
  = match materials_project.__init__ getenv mp_api_key with
    | inl e => (w, inl (Plain e))
    | inr source =>
        let w1 := asked w materials_project.probe_params in
        match MPRester (materials_project.api_key source) materials_project.probe_params with
        | inr (_ :: _) =>
            (printed w1 (Py.check_mark ++ " Materials Project API connected"),
             inr {| recommender.mp_source := source |})
        | inr [] => (w1, inl (ConnectionError recommender.cannot_connect))
        | inl e =>
            (printed w1 ("API check failed: " ++ exception_text e),
             inl (ConnectionError recommender.cannot_connect))
        end
    end.
Proof.
  unfold recommender.__init__.
  destruct (materials_project.__init__ getenv mp_api_key) as [e|source]; [reflexivity|].
  unfold recommender._verify_setup. cbn [recommender.mp_source].
  rewrite check_api_status_run.
  destruct (MPRester (materials_project.api_key source) materials_project.probe_params)
    as [e|[|doc docs]]; reflexivity.
Qed.

End Setup.

(** X7.  [get_property_range] knows three names, band_gap, density and
    formation_energy, and returns for each a pair with minimum below
    maximum; every other name gets [(None, None)], never an exception.
    The pair of band_gap, 0 and 15, is what [search_by_properties] puts
    in place of a band-gap bound that is not given when the other is. *)
Theorem get_property_range_three_names :
  (forall name : string,
      match materials_project.get_property_range name with
      | (Some lo, Some hi) =>
          In name ["band_gap"; "density"; "formation_energy"] /\
          PrimFloat.ltb lo hi = true
      | (None, None) => ~ In name ["band_gap"; "density"; "formation_energy"]
      | _ => False
      end) /\
  (forall (elements : option (list string)) (hull : option float) (bound : float),
      materials_project.get_property_range "band_gap" = (Some 0%float, Some 15%float) /\
      q_band_gap (MaterialsProjectSource.search_params elements (Some bound) None hull)
      = Some (bound, 15%float) /\
      q_band_gap (MaterialsProjectSource.search_params elements None (Some bound) hull)
      = Some (0%float, bound)).
Proof.
  split.
  - intros name. unfold materials_project.get_property_range,
      materials_project.ranges, materials_project.dict_get.
    destruct (String.eqb_spec name "band_gap") as [->|H1];
      [split; [simpl; auto|reflexivity]|].
    destruct (String.eqb_spec name "density") as [->|H2];
      [split; [simpl; auto|reflexivity]|].
    destruct (String.eqb_spec name "formation_energy") as [->|H3];
      [split; [simpl; auto|reflexivity]|].
    simpl. intros [E|[E|[E|[]]]]; congruence.
  - intros elements hull bound. repeat split.
Qed.

(** ** Similar materials *)

Section Similar.

Variable summary_search : SearchParams -> Exn + list SummaryDoc.

(** X8.  With any similarity type other than 'composition', the default
    'structure' included, [get_similar_materials] returns no frame: it
    sends the one request for the reference and then raises, the
    exception of the client if there is one, [ValueError] "Material ...
    not found" when the reference is unknown, and [NotImplementedError]
    when it is known.  No search follows. *)
Theorem get_similar_materials_structure_never_returns
    (material_id similarity_type : string) (limit : Z) (w : World) :
  similarity_type <> "composition" ->
  materials_project.get_similar_materials summary_search material_id
    similarity_type limit w
  = (asked w (MaterialsProjectSource.detail_params material_id),
     match summary_search (MaterialsProjectSource.detail_params material_id) with
     | inl e => inl (Plain e)
     | inr [] => inl (Plain (ValueError ("Material " ++ material_id ++ " not found")))
     | inr (_ :: _) =>
         inl (NotImplementedError "Structure-based similarity coming soon")
     end).
Proof.
  intros Hother. apply String.eqb_neq in Hother.
  unfold materials_project.get_similar_materials,
    MaterialsProjectSource.get_material_by_id, bind,
    MaterialsProjectSource.mpr_search, raise, ret, asked.
  destruct (summary_search (MaterialsProjectSource.detail_params material_id))
    as [e|[|doc docs]]; try reflexivity.
  rewrite Hother. reflexivity.
Qed.

Lemma split_from_words (s : string) :
  forall (skip : nat) (word : string),
    Forall (fun x => x <> EmptyString) (PyStr.split_from s skip word).
Proof.
  assert (Hflush : forall word, Forall (fun x => x <> EmptyString) (PyStr.flush word)).
  { intros [|c word]; simpl; [constructor|].
    constructor; [discriminate|constructor]. }
  induction s as [|c rest IH]; intros skip word; cbn [PyStr.split_from].
  - apply Hflush.
  - destruct skip as [|k]; [|apply IH].
    destruct (PyStr.space_width (String c rest)); [apply IH|].
    apply Forall_app. split; [apply Hflush|apply IH].
Qed.

(** X9.  With similarity type 'composition' and a known reference,
    [get_similar_materials] sends two requests, the one for the reference
    and then a search whose element filter is the list of the
    white-space separated words of the reference's composition text, each
    word whole and none empty (no filter at all when the text has no
    word), with energy above hull between 0 and 0.05 and no band-gap
    range.  It returns the frame of the first [limit] documents of the
    answer, or raises what the client raises. *)
Theorem get_similar_materials_by_composition
    (material_id : string) (limit : Z) (w : World)
    (doc : SummaryDoc) (docs : list SummaryDoc) :
  summary_search (MaterialsProjectSource.detail_params material_id) = inr (doc :: docs) ->
  let words := PyStr.split (doc_composition doc) in
  let search :=
    MaterialsProjectSource.search_params (Some words) None None (Some 0.05%float) in
  materials_project.get_similar_materials summary_search material_id
    "composition" limit w
  = (asked (asked w (MaterialsProjectSource.detail_params material_id)) search,
     match summary_search search with
     | inl e => inl (Plain e)
     | inr found =>
         inr (from_records
                (map MaterialsProjectSource.search_record (Py.slice_to found limit)))
     end) /\
  Forall (fun word => word <> EmptyString) words /\
  q_elements search = match words with [] => None | _ :: _ => Some words end /\
  q_energy_above_hull search = Some (0%float, 0.05%float) /\
  q_band_gap search = None /\
  q_material_ids search = None.
Proof.
  intros Hs words search. split.
  - unfold materials_project.get_similar_materials,
      MaterialsProjectSource.get_material_by_id, bind,
      MaterialsProjectSource.mpr_search, raise, ret.
    rewrite Hs. cbn [String.eqb Ascii.eqb Bool.eqb andb].
    change (composition (cells (MaterialsProjectSource.detail_record doc)))
      with (doc_composition doc).
    fold words. unfold plainly, MaterialsProjectSource.search_by_properties, bind,
      MaterialsProjectSource.mpr_search, ret, asked. fold search.
    cbn [console requests].
    destruct (summary_search search); reflexivity.
  - split; [apply split_from_words|].
    split; [|repeat split].
    subst search words.
    unfold MaterialsProjectSource.search_params. cbn [q_elements].
    generalize (PyStr.split (doc_composition doc)). intros [|word others]; reflexivity.
Qed.

End Similar.

Lemma get_similar_materials_structure_witness :
  materials_project.get_similar_materials Sample.two_materials "mp-149"
    materials_project.default_similarity_type materials_project.default_limit Sample.fresh
  = ({| console := []; requests := [MaterialsProjectSource.detail_params "mp-149"] |},
     inl (NotImplementedError "Structure-based similarity coming soon")).
Proof.
  apply (get_similar_materials_structure_never_returns Sample.two_materials
           "mp-149" materials_project.default_similarity_type
           materials_project.default_limit Sample.fresh).
  discriminate.
Defined.

Lemma get_similar_materials_composition_witness :
  PyStr.split (doc_composition Scenario.iron_oxide) = ["Fe4"; "O6"] /\
  exists df,
    snd (materials_project.get_similar_materials Scenario.oxides "mp-19770"
           "composition" 10 Sample.fresh) = inr df /\
    map mp_id (rows df) = ["mp-19770"].
Proof.
  split; [reflexivity|].
  destruct (get_similar_materials_by_composition Scenario.oxides "mp-19770" 10
              Sample.fresh Scenario.iron_oxide []) as [Hrun _].
  - reflexivity.
  - rewrite Hrun. eexists. split; reflexivity.
Defined.

(** ** Searching by properties *)

Lemma slice_to_length {A : Type} (l : list A) (n : Z) :
  ((0 <= n)%Z -> List.length (Py.slice_to l n) = Nat.min (Z.to_nat n) (List.length l)) /\
  ((n < 0)%Z -> List.length (Py.slice_to l n) = List.length l - Z.to_nat (- n)).
Proof.
  unfold Py.slice_to. split; intros Hn.
  - destruct (Z.leb_spec 0 n); [|lia]. apply length_firstn.
  - destruct (Z.leb_spec 0 n); [lia|]. rewrite length_firstn. lia.
Qed.

Lemma firstn_incl {A : Type} (n : nat) (l : list A) (x : A) :
  In x (firstn n l) -> In x l.
Proof.
  revert l. induction n as [|n IH]; intros [|y l]; simpl; try contradiction.
  intros [H|H]; [left; exact H|right; apply IH; exact H].
Qed.

Lemma slice_to_incl {A : Type} (l : list A) (n : Z) (x : A) :
  In x (Py.slice_to l n) -> In x l.
Proof.
  unfold Py.slice_to. destruct (0 <=? n)%Z; apply firstn_incl.
Qed.

Lemma slice_to_map {A B : Type} (f : A -> B) (l : list A) (n : Z) :
  Py.slice_to (map f l) n = map f (Py.slice_to l n).
Proof.
  unfold Py.slice_to. rewrite length_map.
  destruct (0 <=? n)%Z; apply firstn_map.
Qed.

(** The frame of an answer: no label without a record, the ten labels
    of the records otherwise. *)
Lemma from_records_search (docs : list SummaryDoc) :
  from_records (map MaterialsProjectSource.search_record docs)
  = {| columns := match docs with
                  | [] => []
                  | _ :: _ => MaterialsProjectSource.search_keys
                  end;
       rows := map (fun d => cells (MaterialsProjectSource.search_record d)) docs |}.
Proof.
  destruct docs as [|doc docs]; [reflexivity|]. apply from_search_records.
Qed.

Section Search.

Variable summary_search : SearchParams -> Exn + list SummaryDoc.

Lemma search_by_properties_run
    (elements : option (list string)) (min_band_gap max_band_gap : option float)
    (min_hull max_hull : option float) (crystal_systems : option (list string))
    (limit : Z) (w : World) :
  let sent :=
    MaterialsProjectSource.search_params elements min_band_gap max_band_gap max_hull in
  MaterialsProjectSource.search_by_properties summary_search elements
    min_band_gap max_band_gap min_hull max_hull crystal_systems limit w
  = (asked w sent,
     match summary_search sent with
     | inl e => inl e
     | inr docs =>
         inr (from_records
                (map MaterialsProjectSource.search_record (Py.slice_to docs limit)))
     end).
Proof.
  intros sent.
  unfold MaterialsProjectSource.search_by_properties, bind,
    MaterialsProjectSource.mpr_search, ret, asked.
  fold sent. destruct (summary_search sent); reflexivity.
Qed.

(** X10.  When the client answers, [search_by_properties] returns one
    row per document for the documents [docs[:limit]], in their order:
    the first [limit] for a [limit >= 0], and all but the last [-limit]
    for a negative one.  The frame has the ten labels of the records when
    it has a row and no label at all when it has none. *)
Theorem search_by_properties_first_documents
    (elements : option (list string)) (min_band_gap max_band_gap : option float)
    (min_hull max_hull : option float) (crystal_systems : option (list string))
    (limit : Z) (w : World) (docs : list SummaryDoc) :
  summary_search
    (MaterialsProjectSource.search_params elements min_band_gap max_band_gap max_hull)
  = inr docs ->
  exists df,
    snd (MaterialsProjectSource.search_by_properties summary_search elements
           min_band_gap max_band_gap min_hull max_hull crystal_systems limit w)
    = inr df /\
    Forall2 shows (Py.slice_to docs limit) (rows df) /\
    ((0 <= limit)%Z ->
     rows df = map (fun d => cells (MaterialsProjectSource.search_record d))
                   (firstn (Z.to_nat limit) docs) /\
     Pandas.len df = Nat.min (Z.to_nat limit) (List.length docs)) /\
    ((limit < 0)%Z -> Pandas.len df = List.length docs - Z.to_nat (- limit)) /\
    columns df = if (Pandas.len df =? 0)%nat then []
                 else MaterialsProjectSource.search_keys.
Proof.
  intros Hs. rewrite search_by_properties_run. cbn [snd]. rewrite Hs.
  eexists. split; [reflexivity|]. rewrite from_records_search.
  unfold Pandas.len. cbn [rows columns]. rewrite length_map.
  split.
  { induction (Py.slice_to docs limit) as [|d l IH]; constructor; [|exact IH].
    repeat split. }
  split.
  { intros Hn. split; [|apply slice_to_length; exact Hn].
    unfold Py.slice_to. destruct (Z.leb_spec 0 limit); [reflexivity|lia]. }
  split; [apply slice_to_length|].
  destruct (Py.slice_to docs limit); reflexivity.
Qed.

(** X11.  The request of [search_by_properties] always asks for an
    energy above hull from 0 up to [max_energy_above_hull], or up to 0.1
    when that is [None]; it carries the elements only when the list is
    not empty and a band-gap range only when a bound is given.  The
    arguments [min_energy_above_hull] and [crystal_systems] have no
    effect: two calls that differ only in them do the same. *)
Theorem search_by_properties_ignores_two_arguments
    (elements : option (list string)) (min_band_gap max_band_gap : option float)
    (min_hull max_hull : option float) (crystal_systems : option (list string))
    (limit : Z) (w : World) :
  let sent :=
    MaterialsProjectSource.search_params elements min_band_gap max_band_gap max_hull in
  requests (fst (MaterialsProjectSource.search_by_properties summary_search elements
                   min_band_gap max_band_gap min_hull max_hull crystal_systems limit w))
  = requests w ++ [sent] /\
  q_energy_above_hull sent
  = Some (0%float, match max_hull with Some top => top | None => 0.1%float end) /\
  q_elements sent
  = match elements with
    | Some (e :: others) => Some (e :: others)
    | _ => None
    end /\
  (q_band_gap sent = None <-> min_band_gap = None /\ max_band_gap = None) /\
  (forall (other_min_hull : option float) (other_systems : option (list string)),
      MaterialsProjectSource.search_by_properties summary_search elements
        min_band_gap max_band_gap other_min_hull max_hull other_systems limit w
      = MaterialsProjectSource.search_by_properties summary_search elements
          min_band_gap max_band_gap min_hull max_hull crystal_systems limit w).
Proof.
  intros sent.
  split; [rewrite search_by_properties_run; reflexivity|]. split; [reflexivity|].
  split; [destruct elements as [[|e others]|]; reflexivity|].
  split; [|reflexivity].
  subst sent. unfold MaterialsProjectSource.search_params. cbn [q_band_gap].
  destruct min_band_gap, max_band_gap; split;
    try discriminate; try (intros [H1 H2]; discriminate); auto.
Qed.

End Search.

Lemma search_by_properties_limit_witness :
  exists df,
    snd (MaterialsProjectSource.search_by_properties Scenario.three_found None
           None None None (Some 0.05%float) None (-1) Sample.fresh) = inr df /\
    map mp_id (rows df) = ["mp-1"; "mp-2"].
Proof.
  destruct (search_by_properties_first_documents Scenario.three_found None
              None None None (Some 0.05%float) None (-1) Sample.fresh
              Sample.three_energies)
    as [df [Hrun _]].
  - reflexivity.
  - exists df. split; [exact Hrun|].
    vm_compute in Hrun. injection Hrun as <-. reflexivity.
Defined.

(** ** The constraint filter, further *)

Lemma filter_idempotent {A : Type} (f : A -> bool) (l : list A) :
  filter f (filter f l) = filter f l.
Proof.
  induction l as [|x l IH]; [reflexivity|]. simpl.
  destruct (f x) eqn:E; simpl; rewrite ?E, IH; reflexivity.
Qed.

Lemma Subsequence_filter_stricter {A : Type} (f g : A -> bool) (l : list A) :
  (forall x, f x = true -> g x = true) ->
  Subsequence (filter f l) (filter g l).
Proof.
  intros Himp. induction l as [|x l IH]; [constructor|]. simpl.
  destruct (f x) eqn:Ef.
  - rewrite (Himp x Ef). apply Subsequence_keep. exact IH.
  - destruct (g x); [apply Subsequence_skip|]; exact IH.
Qed.

(** The columns a run of the filter has read. *)
Lemma _apply_filters_read (candidates filtered : DataFrame)
    (requirements : Requirements) :
  _apply_filters candidates requirements = inr filtered ->
  has_column candidates "energy_above_hull" = true /\
  match max_density requirements with
  | Some _ => has_column candidates "density"
  | None => true
  end = true.
Proof.
  unfold _apply_filters, and_then, select, has_column.
  destruct (max_density requirements) as [limit|].
  - destruct (Py.str_in "density" (columns candidates)); [|discriminate].
    simpl. destruct (Py.str_in "energy_above_hull" (columns candidates)); [|discriminate].
    intros _. split; reflexivity.
  - destruct (Py.str_in "energy_above_hull" (columns candidates)); [|discriminate].
    intros _. split; reflexivity.
Qed.

(** X12.  [_apply_filters] is idempotent: a frame it returned passes
    through it unchanged under the same requirements. *)
Theorem _apply_filters_idempotent
    (candidates filtered : DataFrame) (requirements : Requirements) :
  _apply_filters candidates requirements = inr filtered ->
  _apply_filters filtered requirements = inr filtered.
Proof.
  intros Hrun. destruct (_apply_filters_rows _ _ _ Hrun) as [Hcols Hrows].
  assert (Hhas : forall k, has_column filtered k = has_column candidates k).
  { intros k. unfold has_column. rewrite Hcols. reflexivity. }
  destruct (_apply_filters_read _ _ _ Hrun) as [He Hd].
  destruct (_apply_filters_returns filtered requirements) as [again Hagain].
  - rewrite Hhas. exact He.
  - destruct (max_density requirements); [rewrite Hhas; exact Hd|reflexivity].
  - rewrite Hagain. f_equal.
    destruct (_apply_filters_rows _ _ _ Hagain) as [Hcols' Hrows'].
    destruct again as [c r], filtered as [c0 r0]. simpl in *.
    subst. rewrite filter_idempotent. reflexivity.
Qed.

Lemma _apply_filters_idempotent_witness :
  exists filtered,
    _apply_filters Sample.three_densities Sample.light_only = inr filtered /\
    _apply_filters filtered Sample.light_only = inr filtered /\
    map mp_id (rows filtered) = ["mp-1"; "mp-3"].
Proof.
  assert (Hrun : exists filtered,
             _apply_filters Sample.three_densities Sample.light_only = inr filtered)
    by (vm_compute; eexists; reflexivity).
  destruct Hrun as [filtered Hrun]. exists filtered.
  split; [exact Hrun|]. split.
  - exact (_apply_filters_idempotent Sample.three_densities filtered
             Sample.light_only Hrun).
  - vm_compute in Hrun. injection Hrun as <-. reflexivity.
Defined.

(** X13.  On a frame without the column energy_above_hull
    [_apply_filters] raises [KeyError]: for 'density' when [max_density]
    is given and the frame has no density column either, for
    'energy_above_hull' otherwise.  The frame [search_by_properties]
    builds from an empty answer is such a frame. *)
Theorem _apply_filters_needs_its_columns
    (candidates : DataFrame) (requirements : Requirements) :
  has_column candidates "energy_above_hull" = false ->
  _apply_filters candidates requirements
  = inl (KeyError
           (match max_density requirements with
            | Some _ => if has_column candidates "density"
                        then "energy_above_hull" else "density"
            | None => "energy_above_hull"
            end)).
Proof.
  intros He. unfold _apply_filters, and_then.
  destruct (max_density requirements) as [limit|].
  - destruct (has_column candidates "density"); [|reflexivity].
    unfold has_column in *. cbn [select columns]. rewrite He. reflexivity.
  - rewrite He. reflexivity.
Qed.

Lemma _apply_filters_empty_answer_witness :
  from_records (map MaterialsProjectSource.search_record []) = empty_frame /\
  _apply_filters (from_records (map MaterialsProjectSource.search_record []))
    Sample.light_only = inl (KeyError "density") /\
  _apply_filters (from_records (map MaterialsProjectSource.search_record []))
    Sample.no_requirements = inl (KeyError "energy_above_hull").
Proof.
  split; [reflexivity|]. split.
  - apply (_apply_filters_needs_its_columns
             (from_records (map MaterialsProjectSource.search_record []))
             Sample.light_only). reflexivity.
  - reflexivity.
Defined.

(** X14.  Lowering [max_density] never adds a candidate: the rows kept
    under the lower bound are a subsequence of the rows kept under the
    higher one, whatever the other requirements are. *)
Theorem _apply_filters_lower_density_keeps_fewer
    (candidates loose tight : DataFrame) (wide narrow : Requirements)
    (high low : float) :
  max_density wide = Some high ->
  max_density narrow = Some low ->
  PrimFloat.leb low high = true ->
  _apply_filters candidates wide = inr loose ->
  _apply_filters candidates narrow = inr tight ->
  Subsequence (rows tight) (rows loose).
Proof.
  intros Hhigh Hlow Hle Hloose Htight.
  destruct (_apply_filters_rows _ _ _ Hloose) as [_ ->].
  destruct (_apply_filters_rows _ _ _ Htight) as [_ ->].
  apply Subsequence_filter_stricter. intros r. unfold passes.
  rewrite Hhigh, Hlow. intros H. apply andb_true_iff in H. destruct H as [Hd He].
  rewrite He, andb_true_r. exact (leb_trans _ _ _ Hd Hle).
Qed.

Lemma _apply_filters_lower_density_witness :
  exists loose tight,
    _apply_filters Sample.three_densities Scenario.below_seven = inr loose /\
    _apply_filters Sample.three_densities Sample.light_only = inr tight /\
    Subsequence (rows tight) (rows loose).
Proof.
  assert (Hloose : exists loose,
             _apply_filters Sample.three_densities Scenario.below_seven = inr loose)
    by (vm_compute; eexists; reflexivity).
  assert (Htight : exists tight,
             _apply_filters Sample.three_densities Sample.light_only = inr tight)
    by (vm_compute; eexists; reflexivity).
  destruct Hloose as [loose Hloose]. destruct Htight as [tight Htight].
  exists loose, tight. split; [exact Hloose|]. split; [exact Htight|].
  exact (_apply_filters_lower_density_keeps_fewer Sample.three_densities loose tight
           Scenario.below_seven Sample.light_only 7%float 5%float
           eq_refl eq_refl eq_refl Hloose Htight).
Defined.

(** ** The pipeline as a whole *)

Lemma take_incl {A : Type} (l : list A) (idx : list nat) (x : A) :
  In x (take l idx) -> In x l.
Proof.
  unfold take. intros H. apply in_flat_map in H. destruct H as [i [_ H]].
  destruct (nth_error l i) as [y|] eqn:E; [|contradiction].
  destruct H as [<-|[]]. exact (nth_error_In l i E).
Qed.

Lemma filter_map_swap {A B : Type} (f : A -> B) (p : B -> bool) (l : list A) :
  filter p (map f l) = map f (filter (fun x => p (f x)) l).
Proof.
  induction l as [|x l IH]; [reflexivity|]. simpl.
  destruct (p (f x)); simpl; rewrite IH; reflexivity.
Qed.

Section Pipeline.

Variable summary_search : SearchParams -> Exn + list SummaryDoc.
Variable argsort : list float -> list nat.

(** The rows [search_by_properties] hands to the filter. *)
Let found (docs : list SummaryDoc) : list Row :=
  map (fun d => cells (MaterialsProjectSource.search_record d)) (Py.slice_to docs 100).

(** The frame after the filter. *)
Let filtered (requirements : Requirements) (docs : list SummaryDoc) : DataFrame :=
  {| columns := MaterialsProjectSource.search_keys;
     rows := filter (passes requirements) (found docs) |}.

(** The frame [recommend] returns once candidates are found. *)
Let enriched (requirements : Requirements) (optimize : option (list string))
    (top_n : Z) (docs : list SummaryDoc) : DataFrame :=
  _enrich_materials
    (head (_score_materials argsort (filtered requirements docs) requirements optimize)
          top_n).

(** A run of [recommend], by the answer of the client. *)
Lemma recommend_run (wanted : Requirements) (optimize : option (list string))
    (show : bool) (top_n : Z) (w : World) :
  recommend summary_search argsort wanted optimize show top_n w
  = let w1 := asked (printed w (Py.magnifying_glass
                                ++ " Searching Materials Project database..."))
                    (recommend_request wanted) in
    match summary_search (recommend_request wanted) with
    | inl e => (w1, inl e)
    | inr [] =>
        (printed w1 (Py.cross_mark ++ " No materials found matching criteria"),
         inr {| candidates := empty_frame;
                requirements := wanted;
                optimize_objectives := None;
                show_tradeoffs := false |})
    | inr (doc :: docs) =>
        (printed
           (printed
              (printed w1
                 (Py.check_mark ++ " Found "
                  ++ Py.str_of_nat (List.length (found (doc :: docs)))
                  ++ " candidate materials"))
              (Py.check_mark ++ " "
               ++ Py.str_of_nat (List.length (rows (filtered wanted (doc :: docs))))
               ++ " materials passed all filters"))
           (Py.white_check_mark ++ " Returning top "
            ++ Py.str_of_nat (len (enriched wanted optimize top_n (doc :: docs)))
            ++ " recommendations"),
         inr {| candidates := enriched wanted optimize top_n (doc :: docs);
                requirements := wanted;
                optimize_objectives := optimize;
                show_tradeoffs := show |})
    end.
Proof.
  unfold recommend, bind, print, MaterialsProjectSource.search_by_properties,
    MaterialsProjectSource.mpr_search, bind, ret, lift.
  fold (recommend_request wanted). cbn [console requests].
  destruct (summary_search (recommend_request wanted)) as [e|[|doc docs]];
    [reflexivity|reflexivity|].
  unfold enriched, filtered, found.
  change (Py.slice_to (doc :: docs) 100) with (doc :: firstn 99 docs) in *.
  rewrite from_search_records.
  set (rws := map (fun d => cells (MaterialsProjectSource.search_record d))
                  (doc :: firstn 99 docs)).
  set (frame := {| columns := MaterialsProjectSource.search_keys; rows := rws |}).
  assert (Hlen : (len frame =? 0)%nat = false) by reflexivity.
  rewrite Hlen.
  destruct (_apply_filters_returns frame wanted) as [out Hout].
  { reflexivity. }
  { destruct (max_density wanted); reflexivity. }
  destruct (_apply_filters_rows _ _ _ Hout) as [Hcols Hrows].
  assert (Heq : out = {| columns := MaterialsProjectSource.search_keys;
                         rows := filter (passes wanted) rws |}).
  { destruct out as [c r]. simpl in Hcols, Hrows. subst c r. reflexivity. }
  rewrite Hout, Heq. reflexivity.
Qed.

(** X15.  [recommend] sends exactly one request, whatever the
    requirements, the objectives and [top_n], and before anything else
    than its first console line: a search with energy above hull between 0
    and 0.05, the elements of the requirements when the list is not empty,
    the band-gap bounds when one is given (0 and 15 standing in for the
    missing one), no identifiers, and nothing of [max_density] or the
    other keys.  An exception of the client ends the run: it is raised
    unchanged, with the first console line printed and nothing else. *)
Theorem recommend_sends_one_request
    (wanted : Requirements) (optimize : option (list string))
    (show : bool) (top_n : Z) (w : World) :
  let sent := recommend_request wanted in
  let run := recommend summary_search argsort wanted optimize show top_n w in
  requests (fst run) = requests w ++ [sent] /\
  q_energy_above_hull sent = Some (0%float, 0.05%float) /\
  q_elements sent = match elements wanted with
                    | Some (e :: others) => Some (e :: others)
                    | _ => None
                    end /\
  q_band_gap sent = match min_band_gap wanted, max_band_gap wanted with
                    | None, None => None
                    | Some lo, None => Some (lo, 15%float)
                    | None, Some hi => Some (0%float, hi)
                    | Some lo, Some hi => Some (lo, hi)
                    end /\
  q_material_ids sent = None /\
  (forall e, summary_search sent = inl e ->
             run = ({| console :=
                         console w
                         ++ [Py.magnifying_glass
                             ++ " Searching Materials Project database..."]%string;
                       requests := requests w ++ [sent] |},
                    inl e)).
Proof.
  intros sent run. subst run. rewrite recommend_run. fold sent. cbv zeta.
  split.
  { destruct (summary_search sent) as [e|[|doc docs]]; reflexivity. }
  split; [reflexivity|].
  split; [subst sent; unfold recommend_request, MaterialsProjectSource.search_params;
          cbn [q_elements]; destruct (elements wanted) as [[|e others]|]; reflexivity|].
  split; [subst sent; unfold recommend_request, MaterialsProjectSource.search_params;
          cbn [q_band_gap];
          destruct (min_band_gap wanted), (max_band_gap wanted); reflexivity|].
  split; [reflexivity|].
  intros e He. rewrite He. reflexivity.
Qed.

Lemma enriched_rows (wanted : Requirements) (optimize : option (list string))
    (top_n : Z) (docs : list SummaryDoc) (r : Row) :
  In r (rows (enriched wanted optimize top_n docs)) ->
  exists (d : SummaryDoc) (score : float) (why : string),
    In d (Py.slice_to docs 100) /\
    passes wanted (cells (MaterialsProjectSource.search_record d)) = true /\
    r = set_recommendation_reason
          (set_match_score (cells (MaterialsProjectSource.search_record d)) score) why.
Proof.
  unfold enriched, _enrich_materials. cbn [rows]. intros H.
  apply in_map_iff in H. destruct H as [r1 [<- H]].
  rewrite head_rows in H. apply slice_to_incl in H.
  rewrite _score_materials_rows in H. apply take_incl in H.
  unfold with_match_score in H. cbn [rows] in H.
  apply in_map_iff in H. destruct H as [r0 [<- H]].
  unfold filtered in H. cbn [rows] in H.
  apply filter_In in H. destruct H as [H Hpass].
  unfold found in H. apply in_map_iff in H. destruct H as [d [<- Hd]].
  exists d. eexists. eexists. split; [exact Hd|]. split; [exact Hpass|reflexivity].
Qed.

(** X16.  Every row [recommend] returns stands for one of the first 100
    documents of the answer and meets the hard constraints: its energy
    above hull is at most 0.1 and, when [max_density] is given, its
    density is at most that bound.  This holds for every sorting routine
    and every [top_n]. *)
Theorem recommend_returns_only_passing_rows
    (wanted : Requirements) (optimize : option (list string))
    (show : bool) (top_n : Z) (w : World) (docs : list SummaryDoc) :
  summary_search (recommend_request wanted) = inr docs ->
  exists result,
    snd (recommend summary_search argsort wanted optimize show top_n w) = inr result /\
    Forall (fun r =>
              (exists d, In d (firstn 100 docs) /\ shows d r) /\
              PrimFloat.leb (energy_above_hull r) 0.1%float = true /\
              (forall limit, max_density wanted = Some limit ->
                             PrimFloat.leb (density r) limit = true))
           (rows (candidates result)).
Proof.
  intros Hs. rewrite recommend_run, Hs. cbv zeta.
  destruct docs as [|doc docs].
  { eexists. split; [reflexivity|]. constructor. }
  eexists. split; [reflexivity|]. cbn [candidates].
  apply Forall_forall. intros r Hr.
  apply enriched_rows in Hr. destruct Hr as [d [score [why [Hd [Hpass ->]]]]].
  split.
  - exists d. split; [exact Hd|]. repeat split.
  - unfold passes in Hpass. apply andb_true_iff in Hpass. destruct Hpass as [Hden Hen].
    split; [exact Hen|]. intros limit Hlim. rewrite Hlim in Hden. exact Hden.
Qed.

(** X17.  With a sorting routine that argsorts the scores, the three
    counts [recommend] prints after a non-empty answer, each line behind
    its pictograph as the source has it, are the funnel of the run: the number of documents taken (at most 100), the number of
    them that pass the filter, and the number returned.  The number
    returned is the length of the passing candidates cut by [[:top_n]]:
    the smaller of [top_n] and the number that passed for a
    [top_n >= 0], and the number that passed less [-top_n] for a negative
    [top_n], which drops the lowest-ranked candidates. *)
Theorem recommend_prints_the_funnel
    (wanted : Requirements) (optimize : option (list string))
    (show : bool) (top_n : Z) (w : World) (doc : SummaryDoc) (docs : list SummaryDoc) :
  let taken := firstn 100 (doc :: docs) in
  let passing :=
    filter (fun d => passes wanted (cells (MaterialsProjectSource.search_record d)))
           taken in
  let returned := slice_length (List.length passing) top_n in
  let scored := with_match_score (filtered wanted (doc :: docs)) wanted optimize in
  let keys := map match_score (rows scored) in
  summary_search (recommend_request wanted) = inr (doc :: docs) ->
  Numpy.is_argsort (sort_input keys) (argsort (sort_input keys)) = true ->
  exists result,
    recommend summary_search argsort wanted optimize show top_n w
    = ({| console :=
            console w
            ++ [Py.magnifying_glass ++ " Searching Materials Project database...";
                Py.check_mark ++ " Found " ++ Py.str_of_nat (List.length taken)
                ++ " candidate materials";
                Py.check_mark ++ " " ++ Py.str_of_nat (List.length passing)
                ++ " materials passed all filters";
                Py.white_check_mark ++ " Returning top " ++ Py.str_of_nat returned
                ++ " recommendations"]%string;
          requests := requests w ++ [recommend_request wanted] |},
       inr result) /\
    len (candidates result) = returned /\
    returned <= List.length passing <= List.length taken /\
    List.length taken <= 100.
Proof.
  intros taken passing returned scored keys Hs Hsort.
  rewrite recommend_run, Hs. cbv zeta.
  assert (Hfound : List.length (found (doc :: docs)) = List.length taken).
  { unfold found. rewrite length_map. reflexivity. }
  assert (Hpassing : List.length (rows (filtered wanted (doc :: docs)))
                     = List.length passing).
  { unfold filtered, found. cbn [rows].
    change (Py.slice_to (doc :: docs) 100) with taken.
    unfold passing. rewrite filter_map_swap. apply length_map. }
  assert (Hranked : List.length
                      (rows (_score_materials argsort (filtered wanted (doc :: docs))
                               wanted optimize))
                    = List.length passing).
  { rewrite _score_materials_rows. fold scored. fold keys.
    assert (Hk : List.length keys = List.length (rows scored))
      by (unfold keys; apply length_map).
    assert (Hperm : Permutation (nargsort_descending argsort keys)
                                (seq 0 (List.length (rows scored)))).
    { rewrite <- Hk. apply nargsort_Permutation. exact Hsort. }
    rewrite (Permutation_length (take_Permutation (rows scored) _ _ Hperm)).
    rewrite take_seq. unfold scored, with_match_score. cbn [rows].
    rewrite length_map. exact Hpassing. }
  assert (Hret : len (enriched wanted optimize top_n (doc :: docs)) = returned).
  { unfold enriched, _enrich_materials, len. cbn [rows]. rewrite length_map.
    rewrite head_rows. unfold returned, slice_length.
    destruct (Z.leb_spec 0 top_n) as [Htop|Htop].
    - rewrite (proj1 (slice_to_length _ top_n) Htop), Hranked. reflexivity.
    - rewrite (proj2 (slice_to_length _ top_n) Htop), Hranked. reflexivity. }
  eexists. split.
  - rewrite Hfound, Hpassing, Hret. unfold printed, asked. cbn [console requests].
    rewrite <- !app_assoc. reflexivity.
  - split; [exact Hret|]. split; [split|].
    + unfold returned, slice_length. destruct (0 <=? top_n)%Z; lia.
    + unfold passing. apply filter_length_le.
    + unfold taken. apply firstn_le_length.
Qed.

Lemma passes_reads_max_density (a b : Requirements) (r : Row) :
  max_density a = max_density b -> passes a r = passes b r.
Proof. intros H. unfold passes. rewrite H. reflexivity. Qed.

Lemma scores_reads_min_band_gap (scored : DataFrame) (a b : Requirements)
    (optimize : option (list string)) (r : Row) :
  min_band_gap a = min_band_gap b ->
  scores scored a optimize r = scores scored b optimize r.
Proof. intros H. unfold scores. rewrite H. reflexivity. Qed.

Lemma enriched_reads_two_keys (a b : Requirements) (optimize : option (list string))
    (top_n : Z) (docs : list SummaryDoc) :
  max_density a = max_density b ->
  min_band_gap a = min_band_gap b ->
  filtered a docs = filtered b docs /\
  enriched a optimize top_n docs = enriched b optimize top_n docs.
Proof.
  intros Hd Hg.
  assert (Hf : filtered a docs = filtered b docs).
  { unfold filtered. f_equal. apply filter_ext. intros r.
    apply passes_reads_max_density. exact Hd. }
  split; [exact Hf|]. unfold enriched. rewrite Hf.
  assert (Hw : with_match_score (filtered b docs) a optimize
               = with_match_score (filtered b docs) b optimize).
  { unfold with_match_score. f_equal. apply map_ext. intros r. f_equal.
    apply scores_reads_min_band_gap. exact Hg. }
  unfold _score_materials. rewrite Hw. reflexivity.
Qed.

(** X27.  Of the requirement dictionary [recommend] reads four keys
    only: max_density, min_band_gap, max_band_gap and elements.  Two
    dictionaries that agree on these four lead to the same request, the
    same console lines and the same candidates, whatever they say of
    min_strength, max_temp, max_cost_per_kg and corrosion_resistance; nor
    does [show_tradeoffs] change any of it. *)
Theorem recommend_reads_four_requirements
    (a b : Requirements) (optimize : option (list string))
    (show_a show_b : bool) (top_n : Z) (w : World) :
  max_density a = max_density b ->
  min_band_gap a = min_band_gap b ->
  max_band_gap a = max_band_gap b ->
  elements a = elements b ->
  fst (recommend summary_search argsort a optimize show_a top_n w)
  = fst (recommend summary_search argsort b optimize show_b top_n w) /\
  match snd (recommend summary_search argsort a optimize show_a top_n w),
        snd (recommend summary_search argsort b optimize show_b top_n w)
  with
  | inr result_a, inr result_b => candidates result_a = candidates result_b
  | inl e, inl e' => e = e'
  | _, _ => False
  end.
Proof.
  intros Hd Hg Hx He.
  assert (Hreq : recommend_request a = recommend_request b).
  { unfold recommend_request. rewrite Hg, Hx, He. reflexivity. }
  rewrite !recommend_run, Hreq. cbv zeta.
  destruct (summary_search (recommend_request b)) as [e|[|doc docs]].
  - split; reflexivity.
  - split; reflexivity.
  - destruct (enriched_reads_two_keys a b optimize top_n (doc :: docs) Hd Hg)
      as [Hf Hen].
    cbn [fst snd candidates]. rewrite Hf, Hen. split; reflexivity.
Qed.

(** X18.  [explore_tradeoffs] ranks as [recommend] does, with room for
    20 rows: when the client answers, the analysis holds the objectives
    of the call, also after an empty answer, and at most 20 materials;
    when the client raises, so does [explore_tradeoffs]. *)
Theorem explore_tradeoffs_keeps_objectives_and_20_rows
    (wanted : Requirements) (optimize : list string) (w : World) :
  match summary_search (recommend_request wanted) with
  | inl e =>
      snd (recommender.explore_tradeoffs summary_search argsort wanted optimize w)
      = inl e
  | inr docs =>
      exists analysis,
        snd (recommender.explore_tradeoffs summary_search argsort wanted optimize w)
        = inr analysis /\
        recommender.objectives analysis = optimize /\
        len (recommender.materials analysis) <= 20 /\
        (docs = [] -> recommender.materials analysis = empty_frame)
  end.
Proof.
  unfold recommender.explore_tradeoffs, bind. rewrite recommend_run. cbv zeta.
  destruct (summary_search (recommend_request wanted)) as [e|[|doc docs]].
  - reflexivity.
  - eexists. split; [reflexivity|]. split; [reflexivity|].
    split; [cbn; lia|reflexivity].
  - eexists. split; [reflexivity|]. split; [reflexivity|].
    split; [|discriminate].
    cbn [recommender.materials candidates snd ret].
    unfold enriched, _enrich_materials, len. cbn [rows]. rewrite length_map, head_rows.
    change (Py.slice_to ?l 20) with (firstn 20 l). apply firstn_le_length.
Qed.

(** X19.  The first [top_n] rows of the trade-off analysis, for a
    [top_n] from 0 to 20, are the frame [recommend] returns for the same
    requirements and objectives with that [top_n]: the default
    recommendation is the top five of the analysis. *)
Theorem explore_tradeoffs_extends_recommend
    (wanted : Requirements) (optimize : list string) (show : bool)
    (top_n : Z) (w : World) :
  (0 <= top_n <= 20)%Z ->
  match snd (recommender.explore_tradeoffs summary_search argsort wanted optimize w),
        snd (recommend summary_search argsort wanted (Some optimize) show top_n w)
  with
  | inr analysis, inr result =>
      head (recommender.materials analysis) top_n = candidates result
  | inl e, inl e' => e = e'
  | _, _ => False
  end.
Proof.
  intros Htop. unfold recommender.explore_tradeoffs, bind.
  rewrite !recommend_run. cbv zeta.
  destruct (summary_search (recommend_request wanted)) as [e|[|doc docs]].
  - reflexivity.
  - cbn [snd ret recommender.materials candidates]. unfold head, empty_frame.
    cbn [rows columns]. f_equal. unfold Py.slice_to.
    destruct (0 <=? top_n)%Z; apply firstn_nil.
  - cbn [snd ret recommender.materials candidates].
    unfold enriched, _enrich_materials, head. cbn [rows columns]. f_equal.
    rewrite slice_to_map.
    assert (Hcut : forall l : list Row,
               Py.slice_to (Py.slice_to l 20) top_n = Py.slice_to l top_n).
    { intros l. unfold Py.slice_to.
      destruct (Z.leb_spec 0 top_n); [|lia]. cbn [Z.leb Z.compare].
      change (Z.to_nat 20) with 20. rewrite firstn_firstn. f_equal. lia. }
    rewrite Hcut. apply map_ext. intros r. f_equal.
Qed.

End Pipeline.

Lemma recommend_passing_rows_witness :
  exists result,
    snd (recommend Scenario.three_found Numpy.aquicksort Sample.no_requirements
           None false 5 Sample.fresh) = inr result /\
    map mp_id (rows (candidates result)) = ["mp-1"; "mp-2"; "mp-3"].
Proof.
  destruct (recommend_returns_only_passing_rows Scenario.three_found
              Numpy.aquicksort Sample.no_requirements None false 5 Sample.fresh
              Sample.three_energies)
    as [result [Hrun _]].
  - reflexivity.
  - exists result. split; [exact Hrun|].
    vm_compute in Hrun. injection Hrun as <-. reflexivity.
Defined.

Lemma recommend_funnel_witness :
  exists result,
    recommend Scenario.three_found Numpy.aquicksort Sample.no_requirements
      None false (-1) Sample.fresh
    = ({| console := [Py.magnifying_glass ++ " Searching Materials Project database...";
                      Py.check_mark ++ " Found 3 candidate materials";
                      Py.check_mark ++ " 3 materials passed all filters";
                      Py.white_check_mark ++ " Returning top 2 recommendations"]%string;
          requests := [recommend_request Sample.no_requirements] |},
       inr result) /\
    len (candidates result) = 2.
Proof.
  destruct (recommend_prints_the_funnel Scenario.three_found Numpy.aquicksort
              Sample.no_requirements None false (-1) Sample.fresh
              (Sample.doc "mp-1" 0 1.1 3 true)
              [Sample.doc "mp-2" 0.05 0 6 false; Sample.doc "mp-3" 0.1 2 4.5 false]%float)
    as [result [Hrun [Hlen _]]].
  - reflexivity.
  - vm_compute. reflexivity.
  - exists result. split; [exact Hrun|exact Hlen].
Defined.

Lemma recommend_four_requirements_witness :
  match snd (recommend Scenario.three_found Numpy.aquicksort Sample.light_only
               None false 5 Sample.fresh),
        snd (recommend Scenario.three_found Numpy.aquicksort Scenario.light_and_more
               None true 5 Sample.fresh)
  with
  | inr result_a, inr result_b => candidates result_a = candidates result_b
  | inl e, inl e' => e = e'
  | _, _ => False
  end.
Proof.
  apply (recommend_reads_four_requirements Scenario.three_found Numpy.aquicksort
           Sample.light_only Scenario.light_and_more None false true 5 Sample.fresh);
    reflexivity.
Defined.

Lemma explore_tradeoffs_extends_recommend_witness :
  match snd (recommender.explore_tradeoffs Scenario.three_found Numpy.aquicksort
               Sample.no_requirements ["weight"] Sample.fresh),
        snd (recommend Scenario.three_found Numpy.aquicksort
               Sample.no_requirements (Some ["weight"]) false
               MatSelectAI.default_top_n Sample.fresh)
  with
  | inr analysis, inr result =>
      head (recommender.materials analysis) MatSelectAI.default_top_n
      = candidates result
  | inl e, inl e' => e = e'
  | _, _ => False
  end.
Proof.
  apply (explore_tradeoffs_extends_recommend Scenario.three_found Numpy.aquicksort
           Sample.no_requirements ["weight"] false MatSelectAI.default_top_n
           Sample.fresh).
  unfold MatSelectAI.default_top_n. lia.
Defined.

(** ** The what-if comparison, further *)

Section WhatIfFurther.

Variable summary_search : SearchParams -> Exn + list SummaryDoc.

(** X20.  [get_material_by_id] sends one request and reads the first
    document of the answer alone.  Its record has twelve keys, and three
    more when the document has elastic data: bulk_modulus holds [k_vrh],
    shear_modulus holds [g_vrh], and youngs_modulus holds the
    [universal_anisotropy] of the document.  An empty answer raises
    [ValueError] "Material ... not found". *)
Theorem get_material_by_id_reads_first_document (id : string) (w : World) :
  MaterialsProjectSource.get_material_by_id summary_search id w
  = (asked w (MaterialsProjectSource.detail_params id),
     match summary_search (MaterialsProjectSource.detail_params id) with
     | inl e => inl e
     | inr [] => inl (ValueError ("Material " ++ id ++ " not found"))
     | inr (doc :: _) => inr (MaterialsProjectSource.detail_record doc)
     end) /\
  (forall doc : SummaryDoc,
      let record := MaterialsProjectSource.detail_record doc in
      mp_id (cells record) = material_id doc /\
      match elastic doc with
      | None => keys record = MaterialsProjectSource.detail_keys
      | Some el =>
          keys record = (MaterialsProjectSource.detail_keys
                         ++ ["bulk_modulus"; "shear_modulus"; "youngs_modulus"])%list /\
          bulk_modulus (cells record) = k_vrh el /\
          shear_modulus (cells record) = g_vrh el /\
          youngs_modulus (cells record) = universal_anisotropy el
      end) /\
  List.length MaterialsProjectSource.detail_keys = 12.
Proof.
  split.
  - unfold MaterialsProjectSource.get_material_by_id, bind,
      MaterialsProjectSource.mpr_search, raise, ret, asked.
    destruct (summary_search (MaterialsProjectSource.detail_params id))
      as [e|[|doc docs]]; reflexivity.
  - split; [|reflexivity].
    intros doc record. split; [reflexivity|].
    subst record. unfold MaterialsProjectSource.detail_record.
    destruct (elastic doc); repeat split.
Qed.

Lemma fetch_each_front (front rest : list string) :
  forall (data : list PyDict) (w : World),
    none_propagated summary_search front = true ->
    fetch_each summary_search (front ++ rest) data w
    = fetch_each summary_search rest (data ++ fetched_records summary_search front)
        {| console := console w ++ warnings summary_search front;
           requests := requests w ++ map MaterialsProjectSource.detail_params front |}.
Proof.
  induction front as [|id front IH]; intros data w Hok.
  - cbn [app map]. unfold warnings, fetched_records. cbn [flat_map].
    rewrite !app_nil_r. destruct w; reflexivity.
  - cbn [app]. rewrite fetch_each_cons. cbv zeta.
    unfold none_propagated in Hok. cbn [forallb] in Hok.
    apply andb_true_iff in Hok. destruct Hok as [Hid Hrest].
    unfold warnings, fetched_records. cbn [flat_map map].
    destruct (outcome summary_search id); try discriminate;
      rewrite IH by exact Hrest; cbn [console requests];
      unfold warnings, fetched_records; rewrite <- !app_assoc; reflexivity.
Qed.

(** X21.  An exception of the client that is not a [ValueError] ends
    [what_if]: it is raised to the caller as it is.  The identifiers
    before it have been requested and their warnings printed, the failing
    identifier has been requested, and no identifier after it is. *)
Theorem what_if_passes_on_other_exceptions
    (baseline : string) (alternatives : list string) (show_savings : bool)
    (w : World) (front back : list string) (id : string) (e : Exn) :
  baseline :: alternatives = front ++ id :: back ->
  none_propagated summary_search front = true ->
  outcome summary_search id = Propagated e ->
  what_if summary_search baseline alternatives show_savings w
  = ({| console := console w ++ warnings summary_search front;
        requests := requests w
                    ++ map MaterialsProjectSource.detail_params (front ++ [id]) |},
     inl e) /\
  summary_search (MaterialsProjectSource.detail_params id) = inl e /\
  (forall msg, e <> ValueError msg).
Proof.
  intros Hids Hfront Hid. split.
  - unfold what_if, bind.
    change ([baseline] ++ alternatives) with (baseline :: alternatives).
    rewrite Hids, (fetch_each_front front (id :: back) [] w Hfront).
    rewrite fetch_each_cons, Hid. cbv zeta. cbn [console requests].
    rewrite map_app, app_assoc. reflexivity.
  - unfold outcome in Hid.
    destruct (summary_search (MaterialsProjectSource.detail_params id))
      as [[msg|key|msg]|[|doc docs]]; try discriminate;
      injection Hid as <-; split; try reflexivity; intros m; discriminate.
Qed.

Lemma detail_record_keys (doc : SummaryDoc) (k : string) :
  Py.str_in k (keys (MaterialsProjectSource.detail_record doc))
  = Py.str_in k MaterialsProjectSource.detail_keys
    || (match elastic doc with Some _ => true | None => false end)
       && Py.str_in k MaterialsProjectSource.elastic_keys.
Proof.
  unfold MaterialsProjectSource.detail_record. cbn [keys].
  destruct (elastic doc).
  - unfold Py.str_in. rewrite existsb_app. reflexivity.
  - rewrite orb_false_r. reflexivity.
Qed.

(** A frame of fetched records has no label outside the keys of the
    records. *)
Lemma fetched_frame_lacks (ids : list string) (k : string) :
  Py.str_in k MaterialsProjectSource.detail_keys = false ->
  Py.str_in k MaterialsProjectSource.elastic_keys = false ->
  has_column (from_records (fetched_records summary_search ids)) k = false.
Proof.
  intros Hd He. rewrite has_column_from_records.
  pose proof (fetched_records_detail summary_search ids) as Hall.
  induction Hall as [|d ds [doc ->] _ IH]; [reflexivity|].
  cbn [existsb]. rewrite IH, detail_record_keys, Hd, He, andb_false_r. reflexivity.
Qed.

(** X22.  With [show_savings] off, or with fewer than two materials
    fetched, [what_if] returns the frame of the fetched records as it is:
    none of the three percentage columns is added. *)
Theorem what_if_without_percentages
    (baseline : string) (alternatives : list string) (show_savings : bool)
    (w : World) :
  let ids := baseline :: alternatives in
  none_propagated summary_search ids = true ->
  show_savings = false \/ List.length (fetched_records summary_search ids) <= 1 ->
  exists w' df,
    what_if summary_search baseline alternatives show_savings w = (w', inr df) /\
    df = from_records (fetched_records summary_search ids) /\
    has_column df "density_vs_baseline_%" = false /\
    has_column df "band_gap_vs_baseline_%" = false /\
    has_column df "formation_energy_vs_baseline_%" = false.
Proof.
  intros ids Hok Hfew. eexists. eexists.
  split; [apply what_if_run; exact Hok|]. fold ids.
  assert (Hsame : with_savings show_savings (from_records (fetched_records summary_search ids))
                  = from_records (fetched_records summary_search ids)).
  { unfold with_savings.
    destruct Hfew as [->|Hfew]; [reflexivity|].
    assert (Hlen : (1 <? len (from_records (fetched_records summary_search ids)))%nat
                   = false).
    { apply Nat.ltb_ge. unfold len, from_records. cbn [rows]. rewrite length_map.
      exact Hfew. }
    rewrite Hlen, andb_false_r. reflexivity. }
  rewrite Hsame. split; [reflexivity|].
  repeat split; apply fetched_frame_lacks; reflexivity.
Qed.

(** The percentage columns leave the elastic cells and labels alone. *)
Lemma with_savings_elastic (show_savings : bool) (df : DataFrame) :
  (forall k, In k ["bulk_modulus"; "shear_modulus"; "youngs_modulus"] ->
             has_column (with_savings show_savings df) k = has_column df k) /\
  map (fun r => (bulk_modulus r, shear_modulus r, youngs_modulus r))
      (rows (with_savings show_savings df))
  = map (fun r => (bulk_modulus r, shear_modulus r, youngs_modulus r)) (rows df).
Proof.
  unfold with_savings.
  destruct (show_savings && (1 <? len df)%nat); [|split; reflexivity].
  destruct (rows df) as [|baseline others] eqn:Hrows;
    [rewrite Hrows; split; reflexivity|].
  unfold add_savings. split.
  - intros k Hk.
    repeat match goal with
           | |- context [if ?c then _ else _] => destruct c
           end;
      unfold has_column; repeat (progress (cbn [columns]; rewrite ?str_in_add_label));
      destruct Hk as [<-|[<-|[<-|[]]]]; cbn [String.eqb Ascii.eqb Bool.eqb andb];
      rewrite ?orb_false_r; reflexivity.
  - repeat match goal with
           | |- context [if ?c then _ else _] => destruct c
           end; cbn [rows]; rewrite ?map_map; rewrite Hrows; reflexivity.
Qed.

(** X23.  The comparison frame has the three elastic columns exactly
    when at least one fetched material has elastic data; the rows of the
    materials without such data then hold null in all three.  The
    percentage columns change nothing of this. *)
Theorem what_if_elastic_columns
    (baseline : string) (alternatives : list string) (show_savings : bool)
    (w : World) :
  let ids := baseline :: alternatives in
  none_propagated summary_search ids = true ->
  exists w' df,
    what_if summary_search baseline alternatives show_savings w = (w', inr df) /\
    (forall k, In k ["bulk_modulus"; "shear_modulus"; "youngs_modulus"] ->
               has_column df k = existsb has_elastic (fetched_records summary_search ids)) /\
    Forall2 (fun d cell =>
               has_elastic d = false ->
               cell = (PrimFloat.nan, PrimFloat.nan, PrimFloat.nan))
            (fetched_records summary_search ids)
            (map (fun r => (bulk_modulus r, shear_modulus r, youngs_modulus r))
                 (rows df)).
Proof.
  intros ids Hok. eexists. eexists.
  split; [apply what_if_run; exact Hok|]. fold ids.
  destruct (with_savings_elastic show_savings
              (from_records (fetched_records summary_search ids))) as [Hcols Hcells].
  rewrite Hcells.
  pose proof (fetched_records_detail summary_search ids) as Hall.
  split.
  - intros k Hk. rewrite (Hcols k Hk), has_column_from_records. clear Hcols Hcells.
    induction Hall as [|d ds [doc ->] _ IH]; [reflexivity|].
    cbn [existsb]. rewrite IH. f_equal.
    unfold has_elastic. rewrite !detail_record_keys.
    destruct Hk as [<-|[<-|[<-|[]]]]; destruct (elastic doc); reflexivity.
  - unfold from_records. cbn [rows]. clear Hcols Hcells.
    induction Hall as [|d ds [doc ->] _ IH]; [constructor|].
    cbn [map]. constructor; [|exact IH].
    unfold has_elastic. rewrite detail_record_keys.
    unfold MaterialsProjectSource.detail_record.
    cbn [cells bulk_modulus shear_modulus youngs_modulus].
    destruct (elastic doc); [discriminate|]. intros _. reflexivity.
Qed.

End WhatIfFurther.

Lemma what_if_other_exception_witness :
  what_if Scenario.flaky "mp-149" ["mp-404"; "mp-500"; "mp-30"] true Sample.fresh
  = ({| console := ["Warning: Material mp-404 not found"];
        requests := map MaterialsProjectSource.detail_params
                        ["mp-149"; "mp-404"; "mp-500"] |},
     inl (OtherError "timed out")).
Proof.
  apply (what_if_passes_on_other_exceptions Scenario.flaky "mp-149"
           ["mp-404"; "mp-500"; "mp-30"] true Sample.fresh
           ["mp-149"; "mp-404"] ["mp-30"] "mp-500" (OtherError "timed out"));
    reflexivity.
Defined.

Lemma what_if_without_percentages_witness :
  exists w' df,
    what_if Sample.two_materials "mp-149" ["mp-404"] true Sample.fresh = (w', inr df) /\
    map mp_id (rows df) = ["mp-149"] /\
    has_column df "density_vs_baseline_%" = false.
Proof.
  destruct (what_if_without_percentages Sample.two_materials "mp-149" ["mp-404"] true
              Sample.fresh)
    as [w' [df [Hrun [Hdf [Hcol _]]]]].
  - reflexivity.
  - right. vm_compute. lia.
  - exists w', df. split; [exact Hrun|]. split; [|exact Hcol].
    rewrite Hdf. reflexivity.
Defined.

Lemma what_if_elastic_columns_witness :
  exists w' df,
    what_if Scenario.oxides "mp-149" ["mp-19770"] true Sample.fresh = (w', inr df) /\
    has_column df "bulk_modulus" = true /\
    map (fun r => PrimFloat.is_nan (bulk_modulus r)) (rows df) = [true; false].
Proof.
  destruct (what_if_elastic_columns Scenario.oxides "mp-149" ["mp-19770"] true
              Sample.fresh)
    as [w' [df [Hrun [Hcol _]]]].
  - reflexivity.
  - exists w', df. split; [exact Hrun|]. split.
    + rewrite (Hcol "bulk_modulus"); [reflexivity|simpl; auto].
    + vm_compute in Hrun. injection Hrun as _ <-. reflexivity.
Defined.

(** ** Differences that vanish *)

Lemma is_finite_not_nan (x : float) :
  is_finite x = true -> PrimFloat.is_nan x = false.
Proof.
  unfold is_finite. intros H.
  destruct (PrimFloat.is_nan x) eqn:E; [|reflexivity].
  apply is_nan_spec in E. rewrite E in H. discriminate.
Qed.

(** A finite float minus itself is +0. *)
Lemma sub_diag_SF (x : float) :
  is_finite x = true -> Prim2SF (x - x)%float = S754_zero false.
Proof.
  unfold is_finite. intros H. rewrite sub_spec.
  destruct (Prim2SF x) as [s|s| |s m e]; try discriminate.
  - destruct s; reflexivity.
  - unfold SF64sub, SFsub. cbv zeta.
    match goal with
    | |- context [IntDef.Z.sub ?a ?a] =>
        replace (IntDef.Z.sub a a) with 0%Z;
        [reflexivity|change (IntDef.Z.sub a a) with (a - a)%Z; lia]
    end.
Qed.

Lemma sub_diag (x : float) : is_finite x = true -> (x - x)%float = 0%float.
Proof. intros H. apply Prim2SF_inj. rewrite (sub_diag_SF x H). reflexivity. Qed.

Lemma round1_SF_zero (x : float) (s : bool) :
  Prim2SF x = S754_zero s -> Prim2SF (PyFloat.round1 x) = S754_zero s.
Proof.
  intros H. unfold PyFloat.round1.
  assert (Hm : Prim2SF (x * 10)%float = S754_zero s).
  { rewrite mul_spec, H. destruct s; reflexivity. }
  rewrite div_spec. rewrite rint_not_finite by (rewrite Hm; discriminate).
  rewrite Hm. destruct s; reflexivity.
Qed.

(** The percentage of a finite value other than zero against itself. *)
Lemma percent_vs_self (x : float) :
  is_finite x = true -> PrimFloat.eqb x 0 = false ->
  PrimFloat.eqb (percent_vs_baseline x x) 0 = true.
Proof.
  intros Hfin Hnz. apply is_zero_spec. unfold percent_vs_baseline.
  pose proof (sub_diag_SF x Hfin) as Hsub. unfold is_finite in Hfin.
  destruct (Prim2SF x) as [s|s| |s m e] eqn:Hx; try discriminate.
  - exfalso. assert (PrimFloat.eqb x 0 = true) by (apply is_zero_spec; eauto).
    congruence.
  - exists s. apply round1_SF_zero.
    rewrite mul_spec, div_spec, Hsub, Hx. destruct s; reflexivity.
Qed.

Section OwnPercentages.

Variable summary_search : SearchParams -> Exn + list SummaryDoc.

(** X24.  In the comparison frame a row whose value equals the value of
    row 0, row 0 itself included, holds a percentage of zero (0.0 or
    -0.0) in that column, as long as the value is finite and not zero;
    this holds for density, band gap and formation energy alike. *)
Theorem what_if_own_percentages_are_zero
    (baseline : string) (alternatives : list string) (w : World) :
  let ids := baseline :: alternatives in
  none_propagated summary_search ids = true ->
  1 < List.length (fetched_records summary_search ids) ->
  exists w' df top others,
    what_if summary_search baseline alternatives true w = (w', inr df) /\
    rows df = top :: others /\
    Forall (fun r =>
              (density r = density top ->
               is_finite (density top) = true ->
               PrimFloat.eqb (density top) 0 = false ->
               PrimFloat.eqb (density_vs_baseline r) 0 = true) /\
              (band_gap r = band_gap top ->
               is_finite (band_gap top) = true ->
               PrimFloat.eqb (band_gap top) 0 = false ->
               PrimFloat.eqb (band_gap_vs_baseline r) 0 = true) /\
              (formation_energy r = formation_energy top ->
               is_finite (formation_energy top) = true ->
               PrimFloat.eqb (formation_energy top) 0 = false ->
               PrimFloat.eqb (formation_energy_vs_baseline r) 0 = true))
           (rows df).
Proof.
  intros ids Hok Hlen.
  destruct (with_savings_percentages summary_search _ Hlen)
    as [top [others [Hrows [_ [_ [_ [_ [_ Hall]]]]]]]].
  eexists. eexists. exists top, others.
  split; [apply what_if_run; exact Hok|]. split; [exact Hrows|].
  eapply Forall_impl; [|exact Hall].
  intros r [Hd [Hb Hf]].
  split; [|split]; intros Hsame Hfin Hnz.
  - rewrite Hd, Hsame. exact (percent_vs_self _ Hfin Hnz).
  - rewrite Hb, Hsame. exact (percent_vs_self _ Hfin Hnz).
  - rewrite Hf, Hsame. exact (percent_vs_self _ Hfin Hnz).
Qed.

End OwnPercentages.

Lemma what_if_own_percentages_witness :
  exists w' df top others,
    what_if Sample.two_materials "mp-149" ["mp-30"] true Sample.fresh = (w', inr df) /\
    rows df = top :: others /\
    PrimFloat.eqb (density_vs_baseline top) 0 = true /\
    PrimFloat.eqb (formation_energy_vs_baseline top) 0 = true.
Proof.
  destruct (what_if_own_percentages_are_zero Sample.two_materials "mp-149" ["mp-30"]
              Sample.fresh)
    as [w' [df [top [others [Hrun [Hrows Hall]]]]]].
  - reflexivity.
  - vm_compute. lia.
  - exists w', df, top, others. split; [exact Hrun|]. split; [exact Hrows|].
    rewrite Hrows in Hall. inversion Hall as [|? ? [Hd [_ Hf]] _]; subst.
    vm_compute in Hrun. injection Hrun as _ Hdf. rewrite <- Hdf in Hrows.
    injection Hrows as <- _.
    split; [apply Hd|apply Hf]; reflexivity.
Defined.

(** ** The weight term *)

Lemma nanmin_nanmax_constant (d : float) (l : list float) :
  PrimFloat.is_nan d = false ->
  l <> [] ->
  Forall (fun x => x = d) l ->
  PyFloat.nanmin l = d /\ PyFloat.nanmax l = d.
Proof.
  intros Hd Hne Hall.
  assert (Hkeep : filter (fun x => negb (PrimFloat.is_nan x)) l = l).
  { clear Hne. induction Hall as [|x l -> _ IH]; [reflexivity|].
    cbn [filter]. rewrite Hd. cbn [negb]. rewrite IH. reflexivity. }
  assert (Hlt : PrimFloat.ltb d d = false).
  { rewrite ltb_spec. unfold SFltb.
    destruct (Prim2SF d) as [s|s| |s m e] eqn:E.
    - reflexivity.
    - destruct s; reflexivity.
    - reflexivity.
    - rewrite SFcompare_refl_finite. reflexivity. }
  unfold PyFloat.nanmin, PyFloat.nanmax. rewrite Hkeep.
  destruct Hall as [|x l -> Hall]; [congruence|].
  clear Hne Hkeep.
  split; induction Hall as [|y l -> _ IH]; try reflexivity;
    cbn [fold_left]; rewrite Hlt; exact IH.
Qed.

(** X25.  With the weight objective, the score of every candidate of a
    frame whose densities are all the same finite number, and so always
    the score of a single candidate, holds the full 30 points of the
    weight term: the spread of the densities is 0, and the 1e-10 in the
    divisor keeps the normalised density at 1 - 0/1e-10 = 1.  The score is
    30, plus the stability term, plus the band-gap term when a target is
    given, plus 10. *)
Theorem weight_term_is_full_when_densities_are_equal
    (scored : DataFrame) (requirements : Requirements)
    (optimize : option (list string)) (d : float) (r : Row) :
  optimizes_weight optimize = true ->
  has_column scored "density" = true ->
  is_finite d = true ->
  Forall (fun x => density x = d) (rows scored) ->
  In r (rows scored) ->
  scores scored requirements optimize r
  = let s := 30%float in
    let s :=
      if has_column scored "energy_above_hull"
      then (s + stability_score r * 40)%float
      else s in
    let s :=
      match min_band_gap requirements with
      | Some target =>
          if has_column scored "band_gap"
          then (s + gap_score scored target r * 30)%float
          else s
      | None => s
      end in
    (s + 10)%float.
Proof.
  intros Hweight Hcol Hfin Hall Hin.
  assert (Hr : density r = d) by exact (proj1 (Forall_forall _ _) Hall r Hin).
  assert (Hmm : PyFloat.nanmin (map density (rows scored)) = d /\
                PyFloat.nanmax (map density (rows scored)) = d).
  { apply nanmin_nanmax_constant.
    - apply is_finite_not_nan. exact Hfin.
    - destruct (rows scored); [contradiction|discriminate].
    - apply Forall_map. exact Hall. }
  destruct Hmm as [Hmin Hmax].
  assert (H1 : density_normalized scored r = 1%float).
  { unfold density_normalized. rewrite Hmin, Hmax, Hr, (sub_diag d Hfin). reflexivity. }
  unfold scores. rewrite Hweight, Hcol, H1. reflexivity.
Qed.

Lemma weight_term_witness :
  scores (from_records
            [MaterialsProjectSource.search_record (Sample.doc "mp-1" 0 1.1 3 true)])
         Sample.no_requirements (Some ["weight"])
         (cells (MaterialsProjectSource.search_record (Sample.doc "mp-1" 0 1.1 3 true)))
  = 80%float.
Proof.
  rewrite (weight_term_is_full_when_densities_are_equal
             (from_records
                [MaterialsProjectSource.search_record (Sample.doc "mp-1" 0 1.1 3 true)])
             Sample.no_requirements (Some ["weight"]) 3%float).
  - reflexivity.
  - reflexivity.
  - reflexivity.
  - reflexivity.
  - repeat constructor.
  - left. reflexivity.
Defined.

(** ** The score when stability is the only criterion *)

Section ScoreRounding.

Local Open Scope Q_scope.

Lemma rounds_to_ten : rounds_to 10 SF_ten.
Proof.
  exists 4%Z, 5629499534213120%Z, loc_Exact. split; [|split; [|split]].
  - unfold mag. split; [|reflexivity]. discriminate.
  - reflexivity.
  - lia.
  - reflexivity.
Qed.

(** Adding 10 to a positive float of at most 40 rounds the exact sum. *)
Lemma SFadd_ten_rounds (m : positive) (e : Z) :
  SFval (S754_finite false m e) <= 40 ->
  rounds_to (SFval (S754_finite false m e) + 10)
            (SFadd prec emax (S754_finite false m e) SF_ten).
Proof.
  intros Hle. unfold SFadd, SF_ten. cbn [cond_Zopp].
  set (ez := Z.min e (-49)).
  assert (Hez : (ez <= e /\ ez <= -49)%Z) by (unfold ez; lia).
  rewrite (shl_align_spec m e ez), (shl_align_spec 5629499534213120 (-49) ez) by lia.
  cbn [fst].
  assert (Hp1 : (0 < Zpos m * 2 ^ (e - ez))%Z).
  { apply Z.mul_pos_pos; [lia|]. apply Z.pow_pos_nonneg; lia. }
  assert (Hp2 : (0 < 5629499534213120 * 2 ^ (-49 - ez))%Z).
  { apply Z.mul_pos_pos; [lia|]. apply Z.pow_pos_nonneg; lia. }
  rewrite !Z2Pos.id by assumption.
  set (N := (Zpos m * 2 ^ (e - ez) + 5629499534213120 * 2 ^ (-49 - ez))%Z).
  assert (HN : inject_Z N * pow2 ez == SFval (S754_finite false m e) + 10).
  { unfold N. simpl SFval. rewrite inject_Z_plus, !inject_Z_mult.
    rewrite <- !pow2_Z by lia.
    assert (H1 : pow2 (e - ez) * pow2 ez == pow2 e).
    { rewrite <- pow2_add. replace (e - ez + ez)%Z with e by lia. reflexivity. }
    assert (H2 : pow2 (-49 - ez) * pow2 ez == pow2 (-49)).
    { rewrite <- pow2_add. replace (-49 - ez + ez)%Z with (-49)%Z by lia. reflexivity. }
    assert (Hc : inject_Z 5629499534213120 * pow2 (-49) == 10) by reflexivity.
    setoid_replace ((inject_Z (Zpos m) * pow2 (e - ez)
                     + inject_Z 5629499534213120 * pow2 (-49 - ez)) * pow2 ez)
      with (inject_Z (Zpos m) * (pow2 (e - ez) * pow2 ez)
            + inject_Z 5629499534213120 * (pow2 (-49 - ez) * pow2 ez)) by ring.
    rewrite H1, H2, Hc. reflexivity. }
  assert (HNpos : (0 < N)%Z) by (unfold N; lia).
  destruct N as [|n|n] eqn:EN; try lia.
  unfold binary_normalize. apply binary_round_rounds.
  - rewrite HN. reflexivity.
  - apply Qlt_le_trans with (pow2 6); [|apply pow2_le; lia].
    assert (Hd : pow2 6 == 64) by reflexivity. rewrite Hd. lra.
Qed.

Lemma SFadd_ten_mono (x y : spec_float) :
  valid_binary x = true -> valid_binary y = true ->
  nonneg_finite x -> nonneg_finite y ->
  SFleb x y = true -> SFval y <= 40 ->
  SFleb (SFadd prec emax x SF_ten) (SFadd prec emax y SF_ten) = true.
Proof.
  intros Vx Vy Nx Ny H Hy.
  pose proof (SFleb_SFval_nonneg x y Vx Vy Nx Ny H) as Hxy.
  destruct x as [s|[]| |[] m e]; try contradiction;
    destruct y as [s'|[]| |[] m' e']; try contradiction.
  - reflexivity.
  - change (SFadd prec emax (S754_zero s) SF_ten) with SF_ten.
    eapply rounds_to_mono; [apply rounds_to_ten|apply SFadd_ten_rounds; exact Hy|].
    pose proof (SFval_finite_pos m' e'). lra.
  - discriminate H.
  - eapply rounds_to_mono.
    + apply SFadd_ten_rounds. lra.
    + apply SFadd_ten_rounds. exact Hy.
    + lra.
Qed.

Lemma add_ten_mono (x y : float) :
  PrimFloat.leb 0 x = true -> PrimFloat.leb x y = true ->
  PrimFloat.leb y 40 = true ->
  PrimFloat.leb (x + 10) (y + 10) = true.
Proof.
  intros H0 Hxy Hy.
  assert (H0y : PrimFloat.leb 0 y = true) by (eapply leb_trans; eassumption).
  assert (Nc : nonneg_finite (Prim2SF 40)) by exact I.
  pose proof (prim_nonneg_finite y 40 H0y Hy Nc) as Ny.
  pose proof (prim_nonneg_finite x y H0 Hxy Ny) as Nx.
  pose proof (prim_SFval_le y 40 H0y Hy Nc) as Hval.
  assert (Hc : SFval (Prim2SF 40) == 40) by reflexivity.
  rewrite Hc in Hval.
  rewrite leb_spec, !add_spec. rewrite leb_spec in Hxy.
  change (Prim2SF 10) with SF_ten.
  apply SFadd_ten_mono; try assumption; apply Prim2SF_valid.
Qed.

End ScoreRounding.

(** Adding to the initial 0 keeps a float that is at least 0. *)
Lemma zero_add_nonneg (t : float) :
  PrimFloat.leb 0 t = true ->
  PrimFloat.leb (0 + t) t = true /\ PrimFloat.leb t (0 + t) = true.
Proof.
  rewrite !leb_spec, add_spec. change (Prim2SF 0) with (S754_zero false).
  unfold SF64add.
  destruct (Prim2SF t) as [s|s| |s m e]; try discriminate.
  - intros _. destruct s; split; reflexivity.
  - destruct s; [discriminate|]. intros _. split; reflexivity.
  - destruct s; [discriminate|]. intros _. cbn [SFadd]. unfold SFleb.
    rewrite SFcompare_refl_finite. split; reflexivity.
Qed.

(** The stability term lies between 0 and 40 over the filter's range. *)
Lemma stability_term_range (e : float) :
  PrimFloat.leb 0 e = true -> PrimFloat.leb e 0.1 = true ->
  PrimFloat.leb 0 (PyFloat.clip01 (1 - e / 0.1) * 40) = true /\
  PrimFloat.leb (PyFloat.clip01 (1 - e / 0.1) * 40) 40 = true.
Proof.
  intros H0 H1. split.
  - exact (stability_term_falls e 0.1 H0 H1 eq_refl).
  - exact (stability_term_falls 0 e eq_refl H0 H1).
Qed.

(** X26.  Without the weight objective and without [min_band_gap], the
    score of a candidate is its stability term on top of the 10 points
    every candidate gets: in binary64 arithmetic it lies between 10 and
    50 for an energy above hull from 0 to 0.1, and of two such candidates
    the one with the higher energy never gets the higher score. *)
Theorem score_by_stability_alone_falls_with_energy
    (scored : DataFrame) (wanted : Requirements) (optimize : option (list string))
    (r1 r2 : Row) :
  optimizes_weight optimize = false ->
  min_band_gap wanted = None ->
  PrimFloat.leb 0 (energy_above_hull r1) = true ->
  PrimFloat.leb (energy_above_hull r1) (energy_above_hull r2) = true ->
  PrimFloat.leb (energy_above_hull r2) 0.1 = true ->
  PrimFloat.leb (scores scored wanted optimize r2) (scores scored wanted optimize r1)
  = true /\
  PrimFloat.leb 10 (scores scored wanted optimize r2) = true /\
  PrimFloat.leb (scores scored wanted optimize r1) 50 = true.
Proof.
  intros Hw Hg H0 H12 H2. unfold scores. rewrite Hw, Hg. cbn [andb].
  destruct (has_column scored "energy_above_hull"); [|repeat split].
  unfold stability_score.
  assert (H02 : PrimFloat.leb 0 (energy_above_hull r2) = true)
    by (eapply leb_trans; eassumption).
  assert (H11 : PrimFloat.leb (energy_above_hull r1) 0.1 = true)
    by (eapply leb_trans; eassumption).
  pose proof (stability_term_falls _ _ H0 H12 H2) as Hfall.
  destruct (stability_term_range _ H0 H11) as [Hlo1 Hhi1].
  destruct (stability_term_range _ H02 H2) as [Hlo2 Hhi2].
  set (t1 := (PyFloat.clip01 (1 - energy_above_hull r1 / 0.1) * 40)%float) in *.
  set (t2 := (PyFloat.clip01 (1 - energy_above_hull r2 / 0.1) * 40)%float) in *.
  destruct (zero_add_nonneg t1 Hlo1) as [Ha1 Hb1].
  destruct (zero_add_nonneg t2 Hlo2) as [Ha2 Hb2].
  set (u1 := (0 + t1)%float) in *. set (u2 := (0 + t2)%float) in *.
  assert (Hu0 : PrimFloat.leb 0 u2 = true) by (eapply leb_trans; eassumption).
  assert (Hu12 : PrimFloat.leb u2 u1 = true).
  { eapply leb_trans; [exact Ha2|]. eapply leb_trans; [exact Hfall|exact Hb1]. }
  assert (Hu1 : PrimFloat.leb u1 40 = true) by (eapply leb_trans; eassumption).
  assert (Hu01 : PrimFloat.leb 0 u1 = true) by (eapply leb_trans; eassumption).
  split; [exact (add_ten_mono u2 u1 Hu0 Hu12 Hu1)|]. split.
  - exact (add_ten_mono 0 u2 eq_refl Hu0 (leb_trans _ _ _ Hu12 Hu1)).
  - exact (add_ten_mono u1 40 Hu01 Hu1 eq_refl).
Qed.

Lemma score_by_stability_alone_witness :
  let r1 := cells (MaterialsProjectSource.search_record (Sample.doc "mp-1" 0 1.1 3 true)) in
  let r2 := cells (MaterialsProjectSource.search_record
                     (Sample.doc "mp-2" 0.05 0 6 false)) in
  PrimFloat.leb (scores Sample.three_densities Sample.no_requirements None r2)
                (scores Sample.three_densities Sample.no_requirements None r1) = true /\
  PrimFloat.leb 10 (scores Sample.three_densities Sample.no_requirements None r2) = true /\
  PrimFloat.leb (scores Sample.three_densities Sample.no_requirements None r1) 50 = true.
Proof.
  apply (score_by_stability_alone_falls_with_energy Sample.three_densities
           Sample.no_requirements None
           (cells (MaterialsProjectSource.search_record (Sample.doc "mp-1" 0 1.1 3 true)))
           (cells (MaterialsProjectSource.search_record
                     (Sample.doc "mp-2" 0.05 0 6 false))));
    reflexivity.
Defined.

(** ** The explainer, further *)

Lemma add_label_again (cols : list string) (label : string) :
  add_label (add_label cols label) label = add_label cols label.
Proof.
  unfold add_label at 1. rewrite str_in_add_label, String.eqb_refl, orb_true_r.
  reflexivity.
Qed.

Lemma reason_not_empty (materials : DataFrame) (row : Row) :
  reason materials row <> EmptyString.
Proof.
  unfold reason.
  destruct (if has_column materials "is_stable" then is_stable row else false);
    destruct (PrimFloat.ltb
                (if has_column materials "density" then density row else 10%float) 5);
    destruct (PrimFloat.ltb
                (if has_column materials "energy_above_hull"
                 then energy_above_hull row else 1%float) 0.02);
    discriminate.
Qed.

(** X28.  On the frames on which [_enrich_materials] returns (density
    and energy cells that are numbers, nulls being NaN, or no such
    column), the rationale it writes for a row is fixed by three tests
    taken in order: the [is_stable] cell is true, the density is below
    5.0, the energy above hull is below 0.02.  A null density and a frame
    without density column never say "Lightweight" (NaN and the default
    10.0 fail the test); the phrases are joined by "; ", and a row passing
    no test gets "Meets requirements", so no rationale is empty.  The
    rows keep their number and order, the frame gets the label
    recommendation_reason, and enriching an enriched frame changes
    nothing, the added column not being read. *)
Theorem _enrich_materials_by_three_tests (materials : DataFrame) :
  map recommendation_reason (rows (_enrich_materials materials))
  = map (fun row =>
           match has_column materials "is_stable" && is_stable row,
                 has_column materials "density" && PrimFloat.ltb (density row) 5%float,
                 has_column materials "energy_above_hull"
                   && PrimFloat.ltb (energy_above_hull row) 0.02%float
           with
           | true, true, true => "Thermodynamically stable; Lightweight; Highly stable"
           | true, true, false => "Thermodynamically stable; Lightweight"
           | true, false, true => "Thermodynamically stable; Highly stable"
           | true, false, false => "Thermodynamically stable"
           | false, true, true => "Lightweight; Highly stable"
           | false, true, false => "Lightweight"
           | false, false, true => "Highly stable"
           | false, false, false => "Meets requirements"
           end)
        (rows materials) /\
  _enrich_materials (_enrich_materials materials) = _enrich_materials materials /\
  len (_enrich_materials materials) = len materials /\
  map mp_id (rows (_enrich_materials materials)) = map mp_id (rows materials) /\
  has_column (_enrich_materials materials) "recommendation_reason" = true /\
  Forall (fun r => recommendation_reason r <> EmptyString)
         (rows (_enrich_materials materials)).
Proof.
  split; [|split; [|split; [|split; [|split]]]].
  - unfold _enrich_materials. cbn [rows]. rewrite map_map. apply map_ext.
    intros row. cbn [recommendation_reason set_recommendation_reason].
    apply reason_table.
  - assert (Hreason : forall rws r why,
               reason {| columns := add_label (columns materials) "recommendation_reason";
                         rows := rws |}
                      (set_recommendation_reason r why)
               = reason materials r).
    { intros rws r why. unfold reason, has_column. cbn [columns].
      rewrite !str_in_add_label. cbn [String.eqb Ascii.eqb Bool.eqb andb].
      rewrite !orb_false_r. reflexivity. }
    unfold _enrich_materials. cbn [columns rows].
    rewrite add_label_again, map_map. f_equal.
    apply map_ext. intros row. rewrite Hreason. reflexivity.
  - unfold _enrich_materials, len. cbn [rows]. apply length_map.
  - apply _enrich_materials_mp_id.
  - unfold _enrich_materials, has_column. cbn [columns].
    rewrite str_in_add_label, String.eqb_refl. apply orb_true_r.
  - unfold _enrich_materials. cbn [rows]. apply Forall_forall. intros r Hr.
    apply in_map_iff in Hr. destruct Hr as [row [<- _]]. apply reason_not_empty.
Qed.

(** ** Displaying the results *)

Section Display.

Variable format_fixed : nat -> float -> string.
Variable missing_text : string.


End Display.

(** ** The ranker, further *)

(** X30.  Ranking only reorders: for every sorting routine that argsorts
    the score column and for every [top_n], negative ones included, each
    row [_score_materials] returns is a row of the frame it was given with
    the score of [scores] written to match_score and no other cell
    changed; no candidate is lost or doubled; the frame has the label
    match_score; and the rows [head] keeps are the first of this order,
    all but the last [-top_n] for a negative [top_n]. *)
Theorem _score_materials_only_reorders
    (argsort : list float -> list nat) (materials : DataFrame)
    (requirements : Requirements) (optimize : option (list string)) (top_n : Z) :
  let attach := fun r => set_match_score r (scores materials requirements optimize r) in
  let keys := map (fun r => scores materials requirements optimize r) (rows materials) in
  let ranked := _score_materials argsort materials requirements optimize in
  Numpy.is_argsort (sort_input keys) (argsort (sort_input keys)) = true ->
  Permutation (rows ranked) (map attach (rows materials)) /\
  has_column ranked "match_score" = true /\
  (forall label, has_column materials label = true -> has_column ranked label = true) /\
  (exists kept dropped,
      rows ranked = kept ++ dropped /\
      rows (head ranked top_n) = kept /\
      List.length kept = slice_length (List.length (rows materials)) top_n).
Proof.
  intros attach keys ranked Hsort.
  assert (Hscored : rows (with_match_score materials requirements optimize)
                    = map attach (rows materials)) by reflexivity.
  assert (Hkeys : map match_score (rows (with_match_score materials requirements optimize))
                  = keys).
  { rewrite Hscored, map_map. reflexivity. }
  assert (Hperm : Permutation (rows ranked) (map attach (rows materials))).
  { unfold ranked. rewrite _score_materials_rows. cbv zeta. rewrite Hkeys, Hscored.
    assert (Hidx : Permutation (nargsort_descending argsort keys)
                               (seq 0 (List.length (map attach (rows materials))))).
    { replace (List.length (map attach (rows materials))) with (List.length keys)
        by (unfold keys; rewrite !length_map; reflexivity).
      apply nargsort_Permutation. exact Hsort. }
    rewrite (take_Permutation _ _ _ Hidx). rewrite take_seq. reflexivity. }
  split; [exact Hperm|]. split.
  { unfold ranked, _score_materials, sort_values_descending, with_match_score, has_column.
    cbn [columns]. rewrite str_in_add_label, String.eqb_refl. apply orb_true_r. }
  split.
  { intros label Hl.
    unfold ranked, _score_materials, sort_values_descending, with_match_score, has_column.
    cbn [columns]. rewrite str_in_add_label. unfold has_column in Hl. rewrite Hl.
    reflexivity. }
  exists (Py.slice_to (rows ranked) top_n),
         (skipn (List.length (Py.slice_to (rows ranked) top_n)) (rows ranked)).
  assert (Hlen : List.length (rows ranked) = List.length (rows materials)).
  { rewrite (Permutation_length Hperm). apply length_map. }
  assert (Hcut : List.length (Py.slice_to (rows ranked) top_n)
                 = slice_length (List.length (rows materials)) top_n).
  { unfold slice_length. destruct (Z.leb_spec 0 top_n) as [Htop|Htop].
    - rewrite (proj1 (slice_to_length _ top_n) Htop), Hlen. reflexivity.
    - rewrite (proj2 (slice_to_length _ top_n) Htop), Hlen. reflexivity. }
  split; [|split; [reflexivity|exact Hcut]].
  unfold Py.slice_to in *.
  destruct (0 <=? top_n)%Z; rewrite length_firstn;
    match goal with
    | |- _ = firstn ?n ?l ++ skipn (Nat.min ?n (List.length ?l)) ?l =>
        rewrite <- (firstn_skipn n l) at 1; f_equal;
        destruct (Nat.le_ge_cases n (List.length l)) as [H|H];
        [rewrite Nat.min_l by exact H; reflexivity
        |rewrite Nat.min_r by exact H; rewrite !skipn_all2 by lia; reflexivity]
    end.
Qed.

Lemma _score_materials_only_reorders_witness :
  Permutation
    (rows (_score_materials Numpy.aquicksort Sample.twenty Sample.no_requirements None))
    (map (fun r => set_match_score r (scores Sample.twenty Sample.no_requirements None r))
         (rows Sample.twenty)).
Proof.
  apply (_score_materials_only_reorders Numpy.aquicksort Sample.twenty
           Sample.no_requirements None 5).
  vm_compute. reflexivity.
Defined.

